(** * Gas-price visualisation script: a shallow embedding of [visualization.py]

    The script loads one table of gas-station price observations and hands
    the same dataframe object to three renderers, [plotTimeGraph],
    [plotHeatMap] and [plotInteractive], one after the other.

    Conventions of the embedding.
    - A float cell is an [option Q]: [None] is NaN (a missing cell), [Some q]
      a number.  Sums and means are exact rational arithmetic, the values the
      statements below name (100, 120, 130, 150, 170, 200, 250, 999, ...) are
      exactly representable in binary floating point as well.
    - A string is a sequence of bytes; [lower] and [strip] act on ASCII.
    - [pd.to_datetime] and the [eval] of a Location cell are library and
      interpreter behaviour: they are fields of the environment [Env].
    - The dataframe object bound to the module-level name [df] lives in a
      heap of frames; a renderer receives a reference to it, so an in-place
      column assignment on the parameter is seen by the caller, while a
      rebinding ([df = df.dropna(...)], [df = df.copy()]) is local.
    - Exceptions are explicit: a computation returns [Ok v] or [Raise e]
      together with the world it leaves behind. *)

From Stdlib Require Import ZArith QArith Qround String Ascii List Bool Lia.
From Stdlib Require Import DecimalString Sorted Lqa.
Import ListNotations.

Set Implicit Arguments.

(** ** Python string methods used by the script *)

Module PyStr.

(** [str.lower] on an ASCII letter. *)
Definition lower_ascii (c : ascii) : ascii :=
  let n := nat_of_ascii c in
  if (65 <=? n)%nat && (n <=? 90)%nat then ascii_of_nat (n + 32) else c.

Fixpoint lower (s : string) : string :=
  match s with
  | EmptyString => EmptyString
  | String c s' => String (lower_ascii c) (lower s')
  end.

(** [str.isspace] on an ASCII character: tab, LF, VT, FF, CR, the four
    separators 0x1c-0x1f and the blank. *)
Definition is_space (c : ascii) : bool :=
  let n := nat_of_ascii c in
  ((9 <=? n)%nat && (n <=? 13)%nat)
  || ((28 <=? n)%nat && (n <=? 31)%nat)
  || (n =? 32)%nat.

Fixpoint lstrip (s : string) : string :=
  match s with
  | EmptyString => EmptyString
  | String c s' => if is_space c then lstrip s' else s
  end.

Fixpoint rstrip (s : string) : string :=
  match s with
  | EmptyString => EmptyString
  | String c s' =>
      match rstrip s' with
      | EmptyString => if is_space c then EmptyString else String c EmptyString
      | t => String c t
      end
  end.

(** [str.strip()] with no argument. *)
Definition strip (s : string) : string := rstrip (lstrip s).

End PyStr.

(** ** Numbers *)

Module Num.

Definition Qltb (x y : Q) : bool := negb (Qle_bool y x).

(** [a < b] on floats: false as soon as one side is NaN. *)
Definition float_lt (a b : option Q) : bool :=
  match a, b with
  | Some x, Some y => Qltb x y
  | _, _ => false
  end.

(** [Series.clip(lower, upper)] on one cell; NaN stays NaN. *)
Definition clip (lo hi : Q) (x : Q) : Q :=
  if Qltb x lo then lo else if Qltb hi x then hi else x.

Definition clip_cell (lo hi : Q) (c : option Q) : option Q :=
  option_map (clip lo hi) c.

(** The non-missing cells of a column. *)
Fixpoint present (l : list (option Q)) : list Q :=
  match l with
  | [] => []
  | Some q :: l' => q :: present l'
  | None :: l' => present l'
  end.

Definition Qsum (l : list Q) : Q := fold_right Qplus 0%Q l.

(** Mean of a list of numbers, NaN when the list is empty.  The result is
    given in lowest terms so that it has one representation. *)
Definition mean_of (l : list Q) : option Q :=
  match l with
  | [] => None
  | _ => Some (Qred (Qsum l / inject_Z (Z.of_nat (length l))))
  end.

(** [Series.mean()] and the ["mean"] aggregation: NaN cells are skipped. *)
Definition mean (l : list (option Q)) : option Q := mean_of (present l).

(** [Series.min()] / [Series.max()]: NaN cells are skipped, NaN when
    nothing is left. *)
Fixpoint min_of (l : list Q) : option Q :=
  match l with
  | [] => None
  | x :: l' =>
      match min_of l' with
      | None => Some x
      | Some m => Some (if Qltb m x then m else x)
      end
  end.

Fixpoint max_of (l : list Q) : option Q :=
  match l with
  | [] => None
  | x :: l' =>
      match max_of l' with
      | None => Some x
      | Some m => Some (if Qltb x m then m else x)
      end
  end.

Definition col_min (l : list (option Q)) : option Q := min_of (present l).
Definition col_max (l : list (option Q)) : option Q := max_of (present l).

(** Rounding to the nearest integer, ties to even, of a non-negative
    fraction [n / d]. *)
Definition round_half_even (n : Z) (d : positive) : Z :=
  let f := (n / Zpos d)%Z in
  let r := (n mod Zpos d)%Z in
  match (2 * r ?= Zpos d)%Z with
  | Lt => f
  | Gt => (f + 1)%Z
  | Eq => if Z.even f then f else (f + 1)%Z
  end.

Definition decimal (n : Z) : string :=
  NilZero.string_of_uint (N.to_uint (Z.to_N n)).

(** The format specification [:.2f]. *)
Definition format_2f (q : Q) : string :=
  let h := round_half_even (Z.abs (Qnum q) * 100) (Qden q) in
  let frac := (h mod 100)%Z in
  ((if Qltb q 0 then "-" else "")
   ++ decimal (h / 100) ++ "."
   ++ (if (frac <? 10)%Z then "0" else "") ++ decimal frac)%string.

End Num.

(** ** Generic list helpers *)

Section Lists.
Variable A : Type.
Variable eqb : A -> A -> bool.
Variable leb : A -> A -> bool.

Definition mem (x : A) (l : list A) : bool := existsb (eqb x) l.

(** [Series.unique()]: the distinct values in order of first appearance. *)
Fixpoint unique (l : list A) : list A :=
  match l with
  | [] => []
  | x :: l' => x :: filter (fun y => negb (eqb x y)) (unique l')
  end.

Fixpoint insert_sorted (x : A) (l : list A) : list A :=
  match l with
  | [] => [x]
  | y :: l' => if leb x y then x :: l else y :: insert_sorted x l'
  end.

Definition sort (l : list A) : list A := fold_right insert_sorted [] l.

(** The distinct values in increasing order, as the keys of a sorted
    [groupby] or the axes of a pivot table come out. *)
Definition sort_unique (l : list A) : list A := sort (unique l).
End Lists.

(** ** Data model *)

(** A cell of the "Query Time" column: text as loaded, a parsed timestamp
    (nanoseconds since the epoch), or NaT (also the missing cell). *)
Inductive TimeCell : Type :=
| TText (s : string)
| TStamp (ns : Z)
| NaT.

(** One observation.  The first eight fields are the loaded columns; [Date],
    [Latitude] and [Longitude] are the cells of the columns the renderers add
    and are [None] as long as the frame does not have the column. *)
Record Row : Type := mkRow {
  Station_ID : string;
  Station_Name : string;
  Address : string;
  Location : string;
  Time_Tag : string;
  Query_Time : TimeCell;
  Regular_Price : option Q;
  Premium_Price : option Q;
  Date : option Z;
  Latitude : option Q;
  Longitude : option Q
}.

Record Frame : Type := mkFrame {
  columns : list string;
  rows : list Row
}.

Definition loaded_columns : list string :=
  ["Station ID"; "Station Name"; "Address"; "Location"; "Time Tag";
   "Query Time"; "Regular Price"; "Premium Price"]%string.

(** [df[name] = ...] on the column index: an existing column keeps its
    place, a new one is appended. *)
Definition with_column (name : string) (cols : list string) : list string :=
  if mem String.eqb name cols then cols else cols ++ [name].

Definition has_column (name : string) (f : Frame) : bool :=
  mem String.eqb name (columns f).

Definition set_Query_Time (v : TimeCell) (r : Row) : Row :=
  mkRow (Station_ID r) (Station_Name r) (Address r) (Location r) (Time_Tag r)
        v (Regular_Price r) (Premium_Price r) (Date r) (Latitude r) (Longitude r).

Definition set_Time_Tag (v : string) (r : Row) : Row :=
  mkRow (Station_ID r) (Station_Name r) (Address r) (Location r) v
        (Query_Time r) (Regular_Price r) (Premium_Price r) (Date r)
        (Latitude r) (Longitude r).

Definition set_Regular_Price (v : option Q) (r : Row) : Row :=
  mkRow (Station_ID r) (Station_Name r) (Address r) (Location r) (Time_Tag r)
        (Query_Time r) v (Premium_Price r) (Date r) (Latitude r) (Longitude r).

Definition set_Premium_Price (v : option Q) (r : Row) : Row :=
  mkRow (Station_ID r) (Station_Name r) (Address r) (Location r) (Time_Tag r)
        (Query_Time r) (Regular_Price r) v (Date r) (Latitude r) (Longitude r).

Definition set_Date (v : option Z) (r : Row) : Row :=
  mkRow (Station_ID r) (Station_Name r) (Address r) (Location r) (Time_Tag r)
        (Query_Time r) (Regular_Price r) (Premium_Price r) v
        (Latitude r) (Longitude r).

Definition set_Latitude (v : option Q) (r : Row) : Row :=
  mkRow (Station_ID r) (Station_Name r) (Address r) (Location r) (Time_Tag r)
        (Query_Time r) (Regular_Price r) (Premium_Price r) (Date r)
        v (Longitude r).

Definition set_Longitude (v : option Q) (r : Row) : Row :=
  mkRow (Station_ID r) (Station_Name r) (Address r) (Location r) (Time_Tag r)
        (Query_Time r) (Regular_Price r) (Premium_Price r) (Date r)
        (Latitude r) v.

(** Exceptions the script can meet. *)
Inductive Exn : Type :=
| LocationError (cell key : string)   (* [eval(x)[key]] raised on this cell *)
| UnboundLocalError (name : string)   (* a local name read before it is bound *)
| IOError (msg : string)              (* raised by [os.remove] or by a save *)
| ValueError (msg : string).          (* raised by [folium.Map] on a NaN centre *)

(** What the script takes from its libraries and its operating system.
    The environment is that of one run on one table.  [parse_datetime] is the
    conversion as it is made on the "Query Time" column of that table, the
    format the library infers from the column included; the statements below
    speak of one table at a time and never carry a conversion over from one
    column to another.  [eval_location] takes a Location cell to be the text
    of a mapping: its evaluation gives a value or raises, and does nothing
    else. *)
Record Env : Type := mkEnv {
  (* [pd.to_datetime(..., errors="coerce")] on a text cell of the column:
     the timestamp, or [None] where the cell comes out as NaT *)
  parse_datetime : string -> option Z;
  (* [eval(x)[key]] on a Location cell: the number, or [None] where the
     evaluation or the subscript raises *)
  eval_location : string -> string -> option Q;
  (* whether [os.remove(path)] raises, and with which message *)
  remove_fault : string -> option string;
  (* whether writing the artifact at [path] raises, and with which message *)
  save_fault : string -> option string
}.

(** ** The dataframe operations the renderers call *)

Module Pandas.

(** [pd.to_datetime(col, errors="coerce")] on one cell of the column, with
    the outcome the environment gives for that column. *)
Definition to_datetime (E : Env) (c : TimeCell) : TimeCell :=
  match c with
  | TText s =>
      match parse_datetime E s with
      | Some t => TStamp t
      | None => NaT
      end
  | TStamp t => TStamp t
  | NaT => NaT
  end.

Definition isna_time (c : TimeCell) : bool :=
  match c with NaT => true | _ => false end.

Definition isna (c : option Q) : bool :=
  match c with None => true | Some _ => false end.

(** [df.dropna(subset=["Query Time"])]: a new frame. *)
Definition dropna_Query_Time (l : list Row) : list Row :=
  filter (fun r => negb (isna_time (Query_Time r))) l.

(** [df.dropna(subset=["Regular Price", "Premium Price"])]: a new frame. *)
Definition dropna_prices (l : list Row) : list Row :=
  filter (fun r => negb (isna (Regular_Price r) || isna (Premium_Price r))) l.

Definition ns_per_day : Z := 86400000000000.

(** [.dt.date] on one cell: the calendar day, counted from the epoch. *)
Definition dt_date (c : TimeCell) : option Z :=
  match c with
  | TStamp t => Some (t / ns_per_day)%Z
  | _ => None
  end.

(** [.str.lower().str.strip()] on one cell. *)
Definition normalize_tag (s : string) : string := PyStr.strip (PyStr.lower s).

(** A pivot table: the sorted index (dates), the sorted columns (tags) and
    one line of cells per index entry. *)
Record Pivot : Type := mkPivot {
  p_index : list Z;
  p_columns : list string;
  p_data : list (list (option Q))
}.

(** The cells of [values] in the group of one (date, tag) key. *)
Definition group_cells (values : Row -> option Q) (l : list Row)
           (d : Z) (tag : string) : list (option Q) :=
  map values
      (filter (fun r => match Date r with
                        | Some d' => (d' =? d)%Z && String.eqb (Time_Tag r) tag
                        | None => false
                        end) l).

(** The (date, tag) keys of the rows; a row without a date has a NaN key
    and belongs to no group. *)
Fixpoint group_keys (l : list Row) : list (Z * string) :=
  match l with
  | [] => []
  | r :: l' =>
      match Date r with
      | Some d => (d, Time_Tag r) :: group_keys l'
      | None => group_keys l'
      end
  end.

(** [df.pivot_table(index="Date", columns="Time Tag", values=...,
    aggfunc="mean")]: the groups whose mean is NaN are dropped before the
    table is laid out, a cell without a group is NaN. *)
Definition pivot_table (values : Row -> option Q) (l : list Row) : Pivot :=
  let kept :=
    filter (fun k => negb (isna (Num.mean (group_cells values l (fst k) (snd k)))))
           (group_keys l) in
  let idx := sort_unique Z.eqb Z.leb (map fst kept) in
  let cols := sort_unique String.eqb String.leb (map snd kept) in
  mkPivot idx cols
          (map (fun d => map (fun tag => Num.mean (group_cells values l d tag)) cols)
               idx).

(** [tag in pivot.columns]. *)
Definition in_columns (tag : string) (p : Pivot) : bool :=
  mem String.eqb tag (p_columns p).

Fixpoint position (tag : string) (cols : list string) : option nat :=
  match cols with
  | [] => None
  | c :: cols' =>
      if String.eqb c tag then Some O else option_map S (position tag cols')
  end.

(** [pivot[tag]]: one column of the table, a cell per index entry. *)
Definition column (p : Pivot) (tag : string) : list (option Q) :=
  match position tag (p_columns p) with
  | Some j => map (fun line => nth j line None) (p_data p)
  | None => []
  end.

Fixpoint line_at (idx : list Z) (data : list (list (option Q))) (d : Z)
  : option (list (option Q)) :=
  match idx, data with
  | d' :: idx', line :: data' =>
      if (d' =? d)%Z then Some line else line_at idx' data' d
  | _, _ => None
  end.

(** [pivot.loc[d, tag]]: the cell of the table at a date and a tag, [None]
    where the table has no such entry, NaN ([Some None]) where the entry is
    empty. *)
Definition lookup (p : Pivot) (d : Z) (tag : string) : option (option Q) :=
  match position tag (p_columns p), line_at (p_index p) (p_data p) d with
  | Some j, Some line => Some (nth j line None)
  | _, _ => None
  end.

End Pandas.

(** ** What the renderers draw *)

(** One [plt.plot] call of the time-series chart. *)
Record Line : Type := mkLine {
  l_x : list Z;
  l_y : list (option Q);
  l_linestyle : string;
  l_label : string;
  l_marker : string
}.

Record TsFigure : Type := mkTsFigure {
  ts_figsize : Z * Z;
  ts_lines : list Line;
  ts_xlabel : string;
  ts_ylabel : string;
  ts_title : string;
  ts_legend : bool;
  ts_grid : bool
}.

(** [cm.LinearColormap(colors=..., vmin=..., vmax=..., caption=...)]. *)
Record Colormap : Type := mkColormap {
  cm_colors : list string;
  cm_vmin : option Q;
  cm_vmax : option Q;
  cm_caption : string
}.

(** The colour a colour scale gives to a value; the interpolation itself is
    the library's. *)
Inductive Color : Type :=
| ScaleColor (scale : Colormap) (value : option Q).

(** [folium.CircleMarker(...)]. *)
Record Marker : Type := mkMarker {
  mk_location : Q * Q;
  mk_radius : Z;
  mk_popup : string;
  mk_color : Color;
  mk_fill : bool;
  mk_fill_color : Color;
  mk_fill_opacity : Q
}.

(** What is attached to the map, in the order it is attached. *)
Inductive MapChild : Type :=
| FeatureGroup (name : string) (markers : list Marker)
| Legend (scale : Colormap)
| LayerControl.

Record FoliumMap : Type := mkFoliumMap {
  map_location : option Q * option Q;
  map_zoom_start : Z;
  map_children : list MapChild
}.

(** One [go.Scatter] trace and the subplot cell it is added to. *)
Record Trace : Type := mkTrace {
  t_x : list TimeCell;
  t_y : list (option Q);
  t_mode : string;
  t_name : string;
  t_color : string;
  t_size : Z;
  t_symbol : option string;
  t_hovertext : list string;
  t_hoverinfo : string;
  t_row : Z;
  t_col : Z
}.

Record ItFigure : Type := mkItFigure {
  it_subplot_titles : string * string;
  it_traces : list Trace;
  it_height : Z;
  it_title_text : string;
  it_template : string;
  it_legend_title_text : string;
  it_axis_titles : list string
}.

(** The content of an output file. *)
Inductive Artifact : Type :=
| TimeSeriesPng (fig : TsFigure) (dpi : Z)
| HeatMapHtml (m : FoliumMap)
| InteractiveHtml (fig : ItFigure).

(** The messages handed to [logging.debug], by their format string. *)
Inductive LogMsg : Type :=
| MsgVisualizing                      (* "\nVisualizing gas prices data..." *)
| MsgDeleting (path : string)         (* "File {path} already exists. Deleting it." *)
| MsgTimeGraphSaved (path : string)   (* "Time graph saved to '{path}'." *)
| MsgMapSaved                         (* "Interactive map with toggleable layers ..." *)
| MsgGraphSaved                       (* "Interactive graph saved as ..." *)
| MsgInvalidThresholds (kind : string) (vmin vmax : option Q)
                                      (* "Warning: Invalid thresholds for {kind} prices. ..." *)
| MsgError (e : Exn).                 (* "An error occurred: {e}" *)

(** ** The world of a run and the computations over it *)

(** [heap]: the dataframe objects that are passed between functions, by
    reference.  [fs]: the files under ./output.  [log]: the lines appended to
    the log file, oldest first.  [calls] is a ghost component: the renderers
    entered so far, oldest first. *)
Record World : Type := mkWorld {
  heap : list Frame;
  fs : string -> option Artifact;
  log : list LogMsg;
  calls : list string
}.

Inductive Outcome (A : Type) : Type :=
| Ok (a : A)
| Raise (e : Exn).

Arguments Ok {A} a.
Arguments Raise {A} e.

Definition M (A : Type) : Type := World -> Outcome A * World.

Definition ret {A : Type} (a : A) : M A := fun w => (Ok a, w).

Definition raise {A : Type} (e : Exn) : M A := fun w => (Raise e, w).

Definition bind {A B : Type} (m : M A) (k : A -> M B) : M B :=
  fun w =>
    match m w with
    | (Ok a, w') => k a w'
    | (Raise e, w') => (Raise e, w')
    end.

(** [try: m  except Exception as e: h e]. *)
Definition try_except {A : Type} (m : M A) (h : Exn -> M A) : M A :=
  fun w =>
    match m w with
    | (Ok a, w') => (Ok a, w')
    | (Raise e, w') => h e w'
    end.

Declare Scope py_scope.
Delimit Scope py_scope with py.
Notation "x <- m ;; k" := (bind m (fun x => k))
  (at level 61, m at next level, right associativity) : py_scope.
Notation "m ;; k" := (bind m (fun _ => k))
  (at level 61, right associativity) : py_scope.
Local Open Scope py_scope.

Definition lift {A : Type} (o : Outcome A) : M A := fun w => (o, w).

Definition empty_frame : Frame := mkFrame [] [].

(** Reading through a reference.  References come from [new_object] only, so
    the default is never met. *)
Definition deref (r : nat) : M Frame :=
  fun w => (Ok (nth r (heap w) empty_frame), w).

Fixpoint replace_nth (r : nat) (f : Frame) (h : list Frame) : list Frame :=
  match h, r with
  | [], _ => []
  | _ :: h', O => f :: h'
  | g :: h', S r' => g :: replace_nth r' f h'
  end.

(** In-place update of the object behind a reference. *)
Definition assign (r : nat) (f : Frame) : M unit :=
  fun w => (Ok tt, mkWorld (replace_nth r f (heap w)) (fs w) (log w) (calls w)).

Definition new_object (f : Frame) : M nat :=
  fun w => (Ok (length (heap w)),
            mkWorld (heap w ++ [f]) (fs w) (log w) (calls w)).

Definition logging_debug (m : LogMsg) : M unit :=
  fun w => (Ok tt, mkWorld (heap w) (fs w) (log w ++ [m]) (calls w)).

Definition enter (name : string) : M unit :=
  fun w => (Ok tt, mkWorld (heap w) (fs w) (log w) (calls w ++ [name])).

Definition fs_set (p : string) (v : option Artifact)
           (files : string -> option Artifact) : string -> option Artifact :=
  fun q => if String.eqb q p then v else files q.

Definition os_path_exists (p : string) : M bool :=
  fun w => (Ok (match fs w p with Some _ => true | None => false end), w).

Definition os_remove (E : Env) (p : string) : M unit :=
  fun w =>
    match remove_fault E p with
    | Some msg => (Raise (IOError msg), w)
    | None => (Ok tt, mkWorld (heap w) (fs_set p None (fs w)) (log w) (calls w))
    end.

(** [plt.savefig], [Map.save] and [plot(fig, filename=...)]: the artifact is
    at the path afterwards, or the call raises and leaves the files alone. *)
Definition write_file (E : Env) (p : string) (a : Artifact) : M unit :=
  fun w =>
    match save_fault E p with
    | Some msg => (Raise (IOError msg), w)
    | None => (Ok tt, mkWorld (heap w) (fs_set p (Some a) (fs w)) (log w) (calls w))
    end.

(** The block every renderer ends with:
    [try: if os.path.exists(p): log; os.remove(p)
          save; log
     except Exception as e: log].
    The calls that can fail are [os.remove] and the save; [plt.close()],
    which follows [plt.savefig] in [plotTimeGraph], and [logging.debug] are
    taken to return. *)
Definition save_step (E : Env) (p : string) (a : Artifact) (saved : LogMsg)
  : M unit :=
  try_except
    (present <- os_path_exists p ;;
     (if present : bool
      then logging_debug (MsgDeleting p) ;; os_remove E p
      else ret tt) ;;
     write_file E p a ;;
     logging_debug saved)
    (fun e => logging_debug (MsgError e)).

(** ** Output paths *)

Definition hm_output_path : string := "./output/heatmap.html".
Definition ts_output_path : string := "./output/time_series.png".
Definition it_output_path : string := "./output/interactive_graph.html".

(** ** plotTimeGraph *)

(** [df["Query Time"] = pd.to_datetime(df["Query Time"], errors="coerce")],
    on the rows of the frame the assignment is made to. *)
Definition coerce_Query_Time (E : Env) (l : list Row) : list Row :=
  map (fun r => set_Query_Time (Pandas.to_datetime E (Query_Time r)) r) l.

(** Lines 32-34, on the coerced rows: the local frame the pivots are built
    from. *)
Definition ts_local (l : list Row) : list Row :=
  let df := Pandas.dropna_Query_Time l in
  let df := map (fun r => set_Date (Pandas.dt_date (Query_Time r)) r) df in
  map (fun r => set_Time_Tag (Pandas.normalize_tag (Time_Tag r)) r) df.

Definition pivot_regular (df : list Row) : Pandas.Pivot :=
  Pandas.pivot_table Regular_Price df.

Definition pivot_premium (df : list Row) : Pandas.Pivot :=
  Pandas.pivot_table Premium_Price df.

(** The loop of lines 47-62. *)
Definition ts_lines_of (df : list Row) : list Line :=
  flat_map
    (fun tag =>
       (if Pandas.in_columns tag (pivot_regular df)
        then [mkLine (Pandas.p_index (pivot_regular df))
                     (Pandas.column (pivot_regular df) tag)
                     "-" ("Regular " ++ tag) "o"]
        else [])
       ++
       (if Pandas.in_columns tag (pivot_premium df)
        then [mkLine (Pandas.p_index (pivot_premium df))
                     (Pandas.column (pivot_premium df) tag)
                     "--" ("Premium " ++ tag) "x"]
        else []))
    (unique String.eqb (map Time_Tag df)).

Definition ts_figure (df : list Row) : TsFigure :=
  mkTsFigure (12, 6)%Z (ts_lines_of df)
             "Date" "Price (cents/liter)" "Gas Price Trends by Time of Day"
             true true.

Definition plotTimeGraph (E : Env) (df : nat) : M unit :=
  enter "plotTimeGraph" ;;
  f <- deref df ;;
  assign df (mkFrame (with_column "Query Time" (columns f))
                     (coerce_Query_Time E (rows f))) ;;
  f <- deref df ;;
  let local := ts_local (rows f) in
  save_step E ts_output_path (TimeSeriesPng (ts_figure local) 300)
            (MsgTimeGraphSaved ts_output_path).

(** ** plotHeatMap *)

(** [df[key] = df["Location"].apply(lambda x: eval(x)[key])]: the cells are
    computed row by row, the first cell that raises ends the call. *)
Fixpoint apply_eval (E : Env) (key : string) (set : option Q -> Row -> Row)
         (l : list Row) : Outcome (list Row) :=
  match l with
  | [] => Ok []
  | r :: l' =>
      match eval_location E (Location r) key with
      | None => Raise (LocationError (Location r) key)
      | Some v =>
          match apply_eval E key set l' with
          | Ok l'' => Ok (set (Some v) r :: l'')
          | Raise e => Raise e
          end
      end
  end.

(** Lines 92-93. *)
Definition clip_prices (l : list Row) : list Row :=
  let df := map (fun r => set_Regular_Price
                            (Num.clip_cell 100 200 (Regular_Price r)) r) l in
  map (fun r => set_Premium_Price
                  (Num.clip_cell 150 250 (Premium_Price r)) r) df.

(** Lines 89-93 on the rows of the frame that has its coordinates. *)
Definition hm_local (l : list Row) : list Row :=
  clip_prices (Pandas.dropna_prices l).

(** The group key ["Station ID", "Station Name", "Latitude", "Longitude"]. *)
Record Key : Type := mkKey {
  k_id : string;
  k_name : string;
  k_lat : Q;
  k_lon : Q
}.

(** The key of a row; a row with a NaN in a key column has none and belongs
    to no group. *)
Definition key_of (r : Row) : option Key :=
  match Latitude r, Longitude r with
  | Some la, Some lo => Some (mkKey (Station_ID r) (Station_Name r) la lo)
  | _, _ => None
  end.

Definition key_eqb (a b : Key) : bool :=
  String.eqb (k_id a) (k_id b) && String.eqb (k_name a) (k_name b)
  && Qeq_bool (k_lat a) (k_lat b) && Qeq_bool (k_lon a) (k_lon b).

Definition then_compare (c : comparison) (d : comparison) : comparison :=
  match c with Eq => d | _ => c end.

Definition key_compare (a b : Key) : comparison :=
  then_compare (String.compare (k_id a) (k_id b))
    (then_compare (String.compare (k_name a) (k_name b))
       (then_compare (Qcompare (k_lat a) (k_lat b))
          (Qcompare (k_lon a) (k_lon b)))).

Definition key_leb (a b : Key) : bool :=
  match key_compare a b with Gt => false | _ => true end.

Fixpoint keys_of (l : list Row) : list Key :=
  match l with
  | [] => []
  | r :: l' =>
      match key_of r with
      | Some k => k :: keys_of l'
      | None => keys_of l'
      end
  end.

Definition in_group (k : Key) (r : Row) : bool :=
  match key_of r with
  | Some k' => key_eqb k' k
  | None => false
  end.

(** One row of [avg_prices]. *)
Record AggRow : Type := mkAggRow {
  a_key : Key;
  a_regular : option Q;
  a_premium : option Q
}.

(** Lines 96-98: [groupby([...], as_index=False).agg({"Regular Price":
    "mean", "Premium Price": "mean"})], one row per key.  The rows come in
    the order of the keys; ids and names are held as text here and compared
    as text, which is the order of the frame when the columns are of
    strings, and need not be when the ids were read as numbers. *)
Definition avg_prices_of (l : list Row) : list AggRow :=
  map (fun k =>
         let g := filter (in_group k) l in
         mkAggRow k (Num.mean (map Regular_Price g))
                    (Num.mean (map Premium_Price g)))
      (sort_unique key_eqb key_leb (keys_of l)).

Definition format_price (c : option Q) : string :=
  match c with
  | Some q => Num.format_2f q
  | None => "nan"
  end.

Definition regular_popup (row : AggRow) : string :=
  ("Station: " ++ k_name (a_key row) ++ "<br>"
   ++ "Regular Price: " ++ format_price (a_regular row))%string.

Definition premium_popup (row : AggRow) : string :=
  ("Station: " ++ k_name (a_key row) ++ "<br>"
   ++ "Premium Price: " ++ format_price (a_premium row))%string.

(** Reading a local name that is bound only on some paths. *)
Definition local_name {A : Type} (name : string) (v : option A) : M A :=
  match v with
  | Some a => ret a
  | None => raise (UnboundLocalError name)
  end.

Fixpoint for_each {A B : Type} (body : A -> M B) (l : list A) : M (list B) :=
  match l with
  | [] => ret []
  | a :: l' => b <- body a ;; bs <- for_each body l' ;; ret (b :: bs)
  end.

Definition circle_marker (row : AggRow) (popup : string) (color : Color)
  : Marker :=
  mkMarker (k_lat (a_key row), k_lon (a_key row)) 7 popup color true color
           (8 # 10).

(** [folium.Map(location=..., zoom_start=...)] of line 132: the library
    checks the location and raises [ValueError] on a coordinate that is NaN,
    which is what the means of an empty aggregated table are. *)
Definition folium_Map (location : option Q * option Q) (zoom_start : Z)
  : M FoliumMap :=
  match location with
  | (Some _, Some _) => ret (mkFoliumMap location zoom_start [])
  | _ => raise (ValueError "Location values cannot contain NaNs.")
  end.

(** [add_child] / [add_to] for what is attached after the map is made. *)
Definition add_children (m : FoliumMap) (cs : list MapChild) : FoliumMap :=
  mkFoliumMap (map_location m) (map_zoom_start m) (map_children m ++ cs).

(** Lines 100-177 on the aggregated table: the map that is saved.  The
    exceptions this part of the function can meet are the [ValueError] of
    [folium.Map] and the read of a colour-scale name that was never bound;
    the other constructors of the mapping library ([LinearColormap],
    [FeatureGroup], [CircleMarker], [LayerControl]) are taken to accept what
    they are given. *)
Definition build_map (avg_prices : list AggRow) : M FoliumMap :=
  let min_regular := Num.col_min (map a_regular avg_prices) in
  let max_regular := Num.col_max (map a_regular avg_prices) in
  regular_color_scale <-
    (if Num.float_lt min_regular max_regular
     then ret (Some (mkColormap ["green"; "yellow"; "red"]%string
                                min_regular max_regular "Regular Gas Prices"))
     else logging_debug (MsgInvalidThresholds "regular" min_regular max_regular) ;;
          ret None) ;;
  let min_premium := Num.col_min (map a_premium avg_prices) in
  let max_premium := Num.col_max (map a_premium avg_prices) in
  premium_color_scale <-
    (if Num.float_lt min_premium max_premium
     then ret (Some (mkColormap ["blue"; "purple"; "pink"]%string
                                min_premium max_premium "Premium Gas Prices"))
     else logging_debug (MsgInvalidThresholds "premium" min_premium max_premium) ;;
          ret None) ;;
  let map_center :=
    (Num.mean (map (fun row => Some (k_lat (a_key row))) avg_prices),
     Num.mean (map (fun row => Some (k_lon (a_key row))) avg_prices)) in
  map_gas_prices <- folium_Map map_center 12 ;;
  regular_children <-
    (if Num.float_lt min_regular max_regular
     then
       markers <-
         for_each
           (fun row =>
              scale <- local_name "regular_color_scale" regular_color_scale ;;
              ret (circle_marker row (regular_popup row)
                                 (ScaleColor scale (a_regular row))))
           avg_prices ;;
       legend <- local_name "regular_color_scale" regular_color_scale ;;
       ret [FeatureGroup "Regular Gas Prices" markers; Legend legend]
     else ret []) ;;
  premium_children <-
    (if Num.float_lt min_premium max_premium
     then
       markers <-
         for_each
           (fun row =>
              scale <- local_name "premium_color_scale" premium_color_scale ;;
              ret (circle_marker row (premium_popup row)
                                 (ScaleColor scale (a_premium row))))
           avg_prices ;;
       legend <- local_name "premium_color_scale" premium_color_scale ;;
       ret [FeatureGroup "Premium Gas Prices" markers; Legend legend]
     else ret []) ;;
  ret (add_children map_gas_prices
                    (regular_children ++ premium_children ++ [LayerControl])).

Definition plotHeatMap (E : Env) (df : nat) : M unit :=
  enter "plotHeatMap" ;;
  f <- deref df ;;
  with_lat <- lift (apply_eval E "Latitude" set_Latitude (rows f)) ;;
  assign df (mkFrame (with_column "Latitude" (columns f)) with_lat) ;;
  f <- deref df ;;
  with_lon <- lift (apply_eval E "Longitude" set_Longitude (rows f)) ;;
  assign df (mkFrame (with_column "Longitude" (columns f)) with_lon) ;;
  f <- deref df ;;
  let local := hm_local (rows f) in
  let avg_prices := avg_prices_of local in
  map_gas_prices <- build_map avg_prices ;;
  save_step E hm_output_path (HeatMapHtml map_gas_prices) MsgMapSaved.

(** ** plotInteractive *)

(** Lines 194-198: the local frame the traces are built from. *)
Definition it_local (E : Env) (l : list Row) : list Row :=
  let df := l in
  let df := coerce_Query_Time E df in
  let df := Pandas.dropna_Query_Time df in
  let df := map (fun r => set_Date (Pandas.dt_date (Query_Time r)) r) df in
  map (fun r => set_Time_Tag (Pandas.normalize_tag (Time_Tag r)) r) df.

Definition time_colors : list (string * string) :=
  [("morning", "orange"); ("afternoon", "green"); ("evening", "blue");
   ("midnight", "purple")]%string.

(** [dict.get(key, default)]. *)
Fixpoint dict_get (d : list (string * string)) (key default : string) : string :=
  match d with
  | [] => default
  | (k, v) :: d' => if String.eqb k key then v else dict_get d' key default
  end.

Definition hovertext_of (row : Row) : string :=
  ("Station: " ++ Station_Name row ++ "<br>ID: " ++ Station_ID row
   ++ "<br>Add: " ++ Address row)%string.

Definition rows_with_tag (tag : string) (df : list Row) : list Row :=
  filter (fun r => String.eqb (Time_Tag r) tag) df.

Definition regular_trace (df : list Row) (tag : string) : Trace :=
  let sub_df := rows_with_tag tag df in
  mkTrace (map Query_Time sub_df) (map Regular_Price sub_df) "markers"
          ("Regular - " ++ tag) (dict_get time_colors tag "gray") 9 None
          (map hovertext_of sub_df) "text+x+y" 1 1.

Definition premium_trace (df : list Row) (tag : string) : Trace :=
  let sub_df := rows_with_tag tag df in
  mkTrace (map Query_Time sub_df) (map Premium_Price sub_df) "markers"
          ("Premium - " ++ tag) (dict_get time_colors tag "gray") 9
          (Some "diamond"%string)
          (map hovertext_of sub_df) "text+x+y" 2 1.

Definition it_traces_of (df : list Row) : list Trace :=
  let tags := unique String.eqb (map Time_Tag df) in
  map (regular_trace df) tags ++ map (premium_trace df) tags.

Definition it_figure (df : list Row) : ItFigure :=
  mkItFigure ("Regular Gas Prices", "Premium Gas Prices")%string
             (it_traces_of df) 1600
             "Gas Prices by Time of Day and Type (Interactive)"
             "plotly_white" "Fuel Type & Time Tag"
             ["Date"; "Price (cents/liter)"; "Date"; "Price (cents/liter)"]%string.

Definition plotInteractive (E : Env) (df : nat) : M unit :=
  enter "plotInteractive" ;;
  f <- deref df ;;
  let local := it_local E (rows f) in
  save_step E it_output_path (InteractiveHtml (it_figure local)) MsgGraphSaved.

(** ** The module body *)

(** [pd.read_excel]: a new dataframe object with the loaded columns. *)
Definition read_excel (table : list Row) : M nat :=
  new_object (mkFrame loaded_columns table).

(** Lines 24-27 and 269-271. *)
Definition script (E : Env) (table : list Row) : M unit :=
  logging_debug MsgVisualizing ;;
  df <- read_excel table ;;
  plotTimeGraph E df ;;
  plotHeatMap E df ;;
  plotInteractive E df.

(** The module body up to the call of [plotHeatMap], and up to the call of
    [plotInteractive]: the result is the reference the next renderer is
    called with. *)
Definition script_until_plotHeatMap (E : Env) (table : list Row) : M nat :=
  logging_debug MsgVisualizing ;;
  df <- read_excel table ;;
  plotTimeGraph E df ;;
  ret df.

Definition script_until_plotInteractive (E : Env) (table : list Row) : M nat :=
  logging_debug MsgVisualizing ;;
  df <- read_excel table ;;
  plotTimeGraph E df ;;
  plotHeatMap E df ;;
  ret df.

(** The frame a renderer receives: the object behind the reference, in the
    world the call is made in. *)
Definition received (run : Outcome nat * World) : option Frame :=
  match run with
  | (Ok df, w) => nth_error (heap w) df
  | (Raise _, _) => None
  end.

(** A loaded row: the derived cells are not there yet. *)
Definition observation (id name address location tag : string)
           (query_time : TimeCell) (regular premium : option Q) : Row :=
  mkRow id name address location tag query_time regular premium None None None.

(** The world a run starts in: no dataframe object, the files and the log as
    they are found. *)
Definition initial_world (files : string -> option Artifact)
           (lines : list LogMsg) : World :=
  mkWorld [] files lines [].

(** ** Derived descriptions used in the statements *)

(** What is at path [p] once [save_step] is over, from what was there
    before: left alone when [os.remove] raises, absent when the save raises,
    the new artifact otherwise. *)
Definition after_save (E : Env) (p : string) (a : Artifact)
           (before : option Artifact) : option Artifact :=
  match before, remove_fault E p with
  | Some _, Some _ => before
  | _, _ =>
      match save_fault E p with
      | Some _ => None
      | None => Some a
      end
  end.

(** The lines [save_step] appends to the log. *)
Definition save_log (E : Env) (p : string) (saved : LogMsg)
           (before : option Artifact) : list LogMsg :=
  (match before with Some _ => [MsgDeleting p] | None => [] end)
  ++
  match before, remove_fault E p with
  | Some _, Some msg => [MsgError (IOError msg)]
  | _, _ =>
      match save_fault E p with
      | Some msg => [MsgError (IOError msg)]
      | None => [saved]
      end
  end.

(** The two price types of the heat map. *)
Inductive Fuel : Type := Regular | Premium.

Definition other (s : Fuel) : Fuel :=
  match s with Regular => Premium | Premium => Regular end.

Definition fuel_price (s : Fuel) : AggRow -> option Q :=
  match s with Regular => a_regular | Premium => a_premium end.

Definition fuel_caption (s : Fuel) : string :=
  match s with
  | Regular => "Regular Gas Prices"
  | Premium => "Premium Gas Prices"
  end.

Definition fuel_word (s : Fuel) : string :=
  match s with Regular => "regular" | Premium => "premium" end.

Definition fuel_colors (s : Fuel) : list string :=
  match s with
  | Regular => ["green"; "yellow"; "red"]%string
  | Premium => ["blue"; "purple"; "pink"]%string
  end.

Definition fuel_popup (s : Fuel) : AggRow -> string :=
  match s with Regular => regular_popup | Premium => premium_popup end.

Definition fuel_min (s : Fuel) (avg : list AggRow) : option Q :=
  Num.col_min (map (fuel_price s) avg).

Definition fuel_max (s : Fuel) (avg : list AggRow) : option Q :=
  Num.col_max (map (fuel_price s) avg).

(** [min < max] for one price type of the aggregated table. *)
Definition valid_range (s : Fuel) (avg : list AggRow) : bool :=
  Num.float_lt (fuel_min s avg) (fuel_max s avg).

Definition fuel_scale (s : Fuel) (avg : list AggRow) : Colormap :=
  mkColormap (fuel_colors s) (fuel_min s avg) (fuel_max s avg) (fuel_caption s).

Definition fuel_markers (s : Fuel) (avg : list AggRow) : list Marker :=
  map (fun row => circle_marker row (fuel_popup s row)
                                (ScaleColor (fuel_scale s avg) (fuel_price s row)))
      avg.

(** The children a price type contributes to the map when it is drawn. *)
Definition fuel_children (s : Fuel) (avg : list AggRow) : list MapChild :=
  if valid_range s avg
  then [FeatureGroup (fuel_caption s) (fuel_markers s avg);
        Legend (fuel_scale s avg)]
  else [].

Definition fuel_warning (s : Fuel) (avg : list AggRow) : list LogMsg :=
  if valid_range s avg
  then []
  else [MsgInvalidThresholds (fuel_word s) (fuel_min s avg) (fuel_max s avg)].

(** A child of the map that belongs to a price type: its marker layer or
    its legend. *)
Definition belongs_to (s : Fuel) (c : MapChild) : bool :=
  match c with
  | FeatureGroup name _ => String.eqb name (fuel_caption s)
  | Legend scale => String.eqb (cm_caption scale) (fuel_caption s)
  | LayerControl => false
  end.

(** [map_center] of line 131. *)
Definition map_center_of (avg : list AggRow) : option Q * option Q :=
  (Num.mean (map (fun row => Some (k_lat (a_key row))) avg),
   Num.mean (map (fun row => Some (k_lon (a_key row))) avg)).

(** A row on which [eval(x)[key]] returns. *)
Definition has_key (E : Env) (key : string) (r : Row) : bool :=
  match eval_location E (Location r) key with Some _ => true | None => false end.

(** A row whose Location cell evaluates, with both subscripts. *)
Definition evaluates (E : Env) (r : Row) : bool :=
  match eval_location E (Location r) "Latitude",
        eval_location E (Location r) "Longitude" with
  | Some _, Some _ => true
  | _, _ => false
  end.

(** The rows of lines 85-86 once both assignments have been made. *)
Definition with_coordinates (E : Env) (l : list Row) : list Row :=
  map (fun r => set_Longitude (eval_location E (Location r) "Longitude")
                  (set_Latitude (eval_location E (Location r) "Latitude") r))
      l.

(** The columns of the shared frame once [plotHeatMap] has added its two. *)
Definition located_columns (cols : list string) : list string :=
  with_column "Longitude" (with_column "Latitude" cols).

(** The artifacts of one run on a loaded table. *)
Definition ts_artifact (E : Env) (table : list Row) : Artifact :=
  TimeSeriesPng (ts_figure (ts_local (coerce_Query_Time E table))) 300.

Definition hm_map (l : list Row) : FoliumMap :=
  let avg := avg_prices_of (hm_local l) in
  mkFoliumMap (map_center_of avg) 12
              (fuel_children Regular avg ++ fuel_children Premium avg
               ++ [LayerControl]).

Definition hm_artifact (E : Env) (table : list Row) : Artifact :=
  HeatMapHtml (hm_map (with_coordinates E (coerce_Query_Time E table))).

Definition it_artifact (E : Env) (table : list Row) : Artifact :=
  InteractiveHtml
    (it_figure (it_local E (with_coordinates E (coerce_Query_Time E table)))).

(** Lines 92-93 on one row. *)
Definition clip_row (r : Row) : Row :=
  set_Premium_Price (Num.clip_cell 150 250 (Premium_Price r))
    (set_Regular_Price (Num.clip_cell 100 200 (Regular_Price r)) r).

(** The rows of a loaded table that [plotTimeGraph] puts in the pivot cell
    of date [d] and tag [tag]: the timestamp converts and falls on [d], the
    tag normalises to [tag]. *)
Definition table_group (E : Env) (table : list Row) (d : Z) (tag : string)
  : list Row :=
  filter (fun r =>
            match Pandas.dt_date (Pandas.to_datetime E (Query_Time r)) with
            | Some d' =>
                (d' =? d)%Z
                && String.eqb (Pandas.normalize_tag (Time_Tag r)) tag
            | None => false
            end)
         table.

(** The rows of a table that [plotInteractive] puts in the traces of [tag]:
    the timestamp converts, the tag normalises to [tag]. *)
Definition table_tagged (E : Env) (table : list Row) (tag : string)
  : list Row :=
  filter (fun r =>
            negb (Pandas.isna_time (Pandas.to_datetime E (Query_Time r)))
            && String.eqb (Pandas.normalize_tag (Time_Tag r)) tag)
         table.

(** A row whose "Query Time" cell converts to a timestamp. *)
Definition parses (E : Env) (r : Row) : bool :=
  negb (Pandas.isna_time (Pandas.to_datetime E (Query_Time r))).

(** What lines 31-34 and 195-198 make of a loaded row that is kept: the
    timestamp converted, the date derived, the tag normalised. *)
Definition local_row (E : Env) (r : Row) : Row :=
  set_Time_Tag (Pandas.normalize_tag (Time_Tag r))
    (set_Date (Pandas.dt_date (Pandas.to_datetime E (Query_Time r)))
       (set_Query_Time (Pandas.to_datetime E (Query_Time r)) r)).

(** A renderer called on a freshly loaded table, without the other two. *)
Definition alone (render : Env -> nat -> M unit) (E : Env) (table : list Row)
  : M unit :=
  df <- read_excel table ;;
  render E df.

(** Two rows that the heat map cannot tell apart: the same group key and
    the same two prices. *)
Definition same_for_heat_map (a b : Row) : Prop :=
  key_of a = key_of b
  /\ Regular_Price a = Regular_Price b
  /\ Premium_Price a = Premium_Price b.

(** Two rows that the dashboard cannot tell apart once their timestamps are
    converted: every cell a trace shows is the same. *)
Definition same_for_dashboard (E : Env) (a b : Row) : Prop :=
  Station_ID a = Station_ID b
  /\ Station_Name a = Station_Name b
  /\ Address a = Address b
  /\ Time_Tag a = Time_Tag b
  /\ Pandas.to_datetime E (Query_Time a) = Pandas.to_datetime E (Query_Time b)
  /\ Regular_Price a = Regular_Price b
  /\ Premium_Price a = Premium_Price b.

(** ** Sample inputs *)

(** An environment that reads two spellings of a timestamp and one spelling
    of a coordinate mapping, and in which no file operation fails. *)
Definition sample_env : Env :=
  mkEnv
    (fun s => if String.eqb s "2024-05-01 08:00:00" then Some 1714550400000000000%Z
              else if String.eqb s "2024-05-01 19:30:00" then Some 1714591800000000000%Z
              else None)
    (fun cell key =>
       if String.eqb cell "{'Latitude': 43.65, 'Longitude': -79.38}"
       then if String.eqb key "Latitude" then Some (4365 # 100)
            else if String.eqb key "Longitude" then Some (- (7938 # 100))
            else None
       else if String.eqb cell "{'Latitude': 43.7, 'Longitude': -79.4}"
       then if String.eqb key "Latitude" then Some (437 # 10)
            else if String.eqb key "Longitude" then Some (- (794 # 10))
            else None
       else None)
    (fun _ => None)
    (fun _ => None).

(** The same environment with a disk that refuses the heat map. *)
Definition full_disk_env : Env :=
  mkEnv (parse_datetime sample_env) (eval_location sample_env)
        (fun _ => None)
        (fun p => if String.eqb p hm_output_path
                  then Some "No space left on device"%string else None).

Definition sample_location : string :=
  "{'Latitude': 43.65, 'Longitude': -79.38}".

Definition other_location : string :=
  "{'Latitude': 43.7, 'Longitude': -79.4}".

(** The three rows of the end-to-end scenario. *)
Definition scenario_table : list Row :=
  [observation "S1" "Main St Gas" "1 Main St" sample_location "Morning"
               (TText "2024-05-01 08:00:00") (Some 110) (Some 160);
   observation "S1" "Main St Gas" "1 Main St" sample_location "morning "
               (TText "2024-05-01 08:00:00") (Some 130) (Some 180);
   observation "S1" "Main St Gas" "1 Main St" sample_location "Evening"
               (TText "2024-05-01 19:30:00") (Some 999) (Some 5)].

(** Two stations, one of them with a timestamp that does not parse. *)
Definition two_station_table : list Row :=
  [observation "S1" "Main St Gas" "1 Main St" sample_location "Morning"
               (TText "2024-05-01 08:00:00") (Some 120) (Some 160);
   observation "S1" "Main St Gas" "1 Main St" sample_location "Evening"
               (TText "not recorded") (Some 140) (Some 180);
   observation "S2" "Hill Fuel" "9 Hill Rd" other_location "Morning"
               (TText "2024-05-01 08:00:00") (Some 150) (Some 170)].

Definition no_files : string -> option Artifact := fun _ => None.

(** One station only: the first two rows of the two-station sample. *)
Definition one_station_table : list Row := firstn 2 two_station_table.

(** A table in which no row has both prices. *)
Definition unpriced_table : list Row :=
  [observation "S1" "Main St Gas" "1 Main St" sample_location "Morning"
               (TText "2024-05-01 08:00:00") (Some 120) None;
   observation "S2" "Hill Fuel" "9 Hill Rd" other_location "Morning"
               (TText "2024-05-01 08:00:00") None (Some 170)].

(** Two stations, the first with two observations at 120 and 140 of which
    the first lacks its premium price. *)
Definition half_priced_table : list Row :=
  [observation "S1" "Main St Gas" "1 Main St" sample_location "Morning"
               (TText "2024-05-01 08:00:00") (Some 120) None;
   observation "S1" "Main St Gas" "1 Main St" sample_location "Evening"
               (TText "2024-05-01 19:30:00") (Some 140) (Some 180);
   observation "S2" "Hill Fuel" "9 Hill Rd" other_location "Morning"
               (TText "2024-05-01 08:00:00") (Some 150) (Some 170)].

(** The aggregated table of the two-station sample: the regular means
    differ (130 and 150), the premium means are both 170. *)
Definition sample_avg : list AggRow :=
  avg_prices_of
    (hm_local (with_coordinates sample_env
                                (coerce_Query_Time sample_env two_station_table))).

Definition empty_world : World := initial_world no_files [].

(** The two-station sample as [plotHeatMap] has it after lines 85-86 when
    it is called first, and as it has it in the script, after
    [plotTimeGraph]. *)
Definition sample_located : list Row :=
  with_coordinates sample_env two_station_table.

Definition sample_shared : list Row :=
  with_coordinates sample_env (coerce_Query_Time sample_env two_station_table).

Definition main_st_key : Key :=
  mkKey "S1" "Main St Gas" (4365 # 100) (- (7938 # 100)).

Definition blank_row : Row := observation "" "" "" "" "" NaT None None.

(** ** Properties *)

(** *** The library models on small inputs *)

Example normalize_tag_examples :
  Pandas.normalize_tag "morning " = "morning"%string
  /\ Pandas.normalize_tag "Morning" = "morning"%string
  /\ Pandas.normalize_tag "  Mid Night " = "mid night"%string.
Proof. repeat split; reflexivity. Qed.

Example format_2f_examples :
  Num.format_2f 130 = "130.00"%string
  /\ Num.format_2f (12345 # 100) = "123.45"%string
  /\ Num.format_2f (1 # 8) = "0.12"%string
  /\ Num.format_2f (- (1 # 1000)) = "-0.00"%string
  /\ Num.format_2f (1999 # 1000) = "2.00"%string.
Proof. repeat split; reflexivity. Qed.

Example mean_examples :
  Num.mean [Some 110%Q; None; Some 130%Q] = Some 120%Q
  /\ Num.mean [None] = None
  /\ Num.col_min [] = None
  /\ Num.float_lt None None = false.
Proof. repeat split; reflexivity. Qed.

Example unique_sort_examples :
  unique String.eqb ["b"; "a"; "b"; "c"; "a"]%string = ["b"; "a"; "c"]%string
  /\ sort_unique Z.eqb Z.leb [3; 1; 3; 2]%Z = [1; 2; 3]%Z.
Proof. split; reflexivity. Qed.

Example scenario_pivot :
  pivot_regular (ts_local (coerce_Query_Time sample_env scenario_table))
  = Pandas.mkPivot [19844%Z] ["evening"; "morning"]%string
                   [[Some 999%Q; Some 120%Q]].
Proof. reflexivity. Qed.

Example sample_avg_value :
  map (fun row => (k_id (a_key row), a_regular row, a_premium row)) sample_avg
  = [("S1"%string, Some 130%Q, Some 170%Q);
     ("S2"%string, Some 150%Q, Some 170%Q)].
Proof. reflexivity. Qed.

(** *** Numbers *)

Lemma Qltb_lt (x y : Q) : Num.Qltb x y = true <-> (x < y)%Q.
Proof.
  unfold Num.Qltb. rewrite negb_true_iff.
  split; intro H.
  - apply Qnot_le_lt. intro L. apply Qle_bool_iff in L. congruence.
  - destruct (Qle_bool y x) eqn:B; [|reflexivity].
    apply Qle_bool_iff in B. exfalso. exact (Qlt_not_le _ _ H B).
Qed.

Lemma Qltb_ge (x y : Q) : Num.Qltb x y = false <-> (y <= x)%Q.
Proof.
  unfold Num.Qltb. rewrite negb_false_iff. apply Qle_bool_iff.
Qed.

Lemma clip_below (lo hi x : Q) : (x < lo)%Q -> Num.clip lo hi x = lo.
Proof.
  intro H. unfold Num.clip. apply Qltb_lt in H. now rewrite H.
Qed.

Lemma clip_above (lo hi x : Q) :
  (lo <= hi)%Q -> (hi < x)%Q -> Num.clip lo hi x = hi.
Proof.
  intros B H. unfold Num.clip.
  assert (L : Num.Qltb x lo = false).
  { apply Qltb_ge. apply Qle_trans with hi; [exact B | now apply Qlt_le_weak]. }
  rewrite L. apply Qltb_lt in H. now rewrite H.
Qed.

Lemma clip_inside (lo hi x : Q) :
  (lo <= x)%Q -> (x <= hi)%Q -> Num.clip lo hi x = x.
Proof.
  intros L H. unfold Num.clip.
  apply Qltb_ge in L. apply Qltb_ge in H. now rewrite L, H.
Qed.

Lemma float_lt_irrefl (a : option Q) : Num.float_lt a a = false.
Proof.
  destruct a as [x|]; [|reflexivity]. simpl. apply Qltb_ge. apply Qle_refl.
Qed.

(** *** The save step *)

Lemma save_step_run (E : Env) (p : string) (a : Artifact) (saved : LogMsg)
      (w : World) :
  exists w',
    save_step E p a saved w = (Ok tt, w')
    /\ heap w' = heap w
    /\ calls w' = calls w
    /\ log w' = log w ++ save_log E p saved (fs w p)
    /\ fs w' p = after_save E p a (fs w p)
    /\ (forall q, q <> p -> fs w' q = fs w q).
Proof.
  unfold save_step, try_except, bind, os_path_exists, os_remove, write_file,
    logging_debug, ret, after_save, save_log, fs_set.
  destruct (fs w p) as [old|] eqn:F; simpl.
  - destruct (remove_fault E p) as [m|] eqn:R; simpl.
    + eexists; repeat split; simpl; try reflexivity.
      * now rewrite <- app_assoc.
      * exact F.
    + destruct (save_fault E p) as [m|] eqn:S; simpl.
      * eexists; repeat split; simpl; try reflexivity.
        -- now rewrite <- app_assoc.
        -- now rewrite String.eqb_refl.
        -- intros q Hq. apply String.eqb_neq in Hq. now rewrite Hq.
      * eexists; repeat split; simpl; try reflexivity.
        -- now rewrite <- !app_assoc.
        -- now rewrite String.eqb_refl.
        -- intros q Hq. apply String.eqb_neq in Hq. now rewrite Hq.
  - destruct (save_fault E p) as [m|] eqn:S; simpl.
    + eexists; repeat split; simpl; try reflexivity. exact F.
    + eexists; repeat split; simpl; try reflexivity.
      * now rewrite String.eqb_refl.
      * intros q Hq. apply String.eqb_neq in Hq. now rewrite Hq.
Qed.

(** *** The map of the heat-map renderer *)

Lemma for_each_pure (A B : Type) (body : A -> M B) (g : A -> B)
      (l : list A) (w : World) :
  (forall a w', body a w' = (Ok (g a), w')) ->
  for_each body l w = (Ok (map g l), w).
Proof.
  intro H. induction l as [|a l IH]; [reflexivity|].
  simpl. unfold bind. rewrite H, IH. reflexivity.
Qed.

Lemma map_center_Some (avg : list AggRow) :
  avg <> [] -> exists la lo, map_center_of avg = (Some la, Some lo).
Proof.
  destruct avg as [|a avg]; [congruence|]. intros _.
  unfold map_center_of, Num.mean. simpl. do 2 eexists. reflexivity.
Qed.

Lemma build_map_run (avg : list AggRow) (w : World) :
  avg <> [] ->
  build_map avg w
  = (Ok (mkFoliumMap (map_center_of avg) 12
                     (fuel_children Regular avg ++ fuel_children Premium avg
                      ++ [LayerControl])),
     mkWorld (heap w) (fs w)
             (log w ++ fuel_warning Regular avg ++ fuel_warning Premium avg)
             (calls w)).
Proof.
  intro N. destruct (map_center_Some N) as (la & lo & C).
  unfold build_map, fuel_children, fuel_warning, valid_range, fuel_min,
    fuel_max.
  simpl fuel_price.
  change (Num.mean (map (fun row => Some (k_lat (a_key row))) avg),
          Num.mean (map (fun row => Some (k_lon (a_key row))) avg))
    with (map_center_of avg).
  rewrite C.
  destruct (Num.float_lt (Num.col_min (map a_regular avg))
                         (Num.col_max (map a_regular avg))) eqn:R;
    destruct (Num.float_lt (Num.col_min (map a_premium avg))
                           (Num.col_max (map a_premium avg))) eqn:P;
    cbv beta iota delta [bind ret logging_debug local_name folium_Map
                         add_children map_location map_zoom_start map_children];
    repeat (erewrite for_each_pure by (intros; reflexivity));
    destruct w as [h f lg c]; simpl;
    rewrite ?app_nil_r, <- ?app_assoc; reflexivity.
Qed.

(** On the empty aggregated table the two warnings are logged and the map
    is not made. *)
Lemma build_map_empty (w : World) :
  build_map [] w
  = (Raise (ValueError "Location values cannot contain NaNs."),
     mkWorld (heap w) (fs w)
             (log w ++ [MsgInvalidThresholds "regular" None None;
                        MsgInvalidThresholds "premium" None None])
             (calls w)).
Proof.
  destruct w as [h f lg c]. unfold build_map, bind, logging_debug, ret. simpl.
  now rewrite <- app_assoc.
Qed.

(** *** Running computations *)

Lemma bind_Ok (A B : Type) (m : M A) (k : A -> M B) (w w' : World) (a : A) :
  m w = (Ok a, w') -> bind m k w = k a w'.
Proof. intro H. unfold bind. now rewrite H. Qed.

Lemma bind_Raise (A B : Type) (m : M A) (k : A -> M B) (w w' : World)
      (e : Exn) :
  m w = (Raise e, w') -> bind m k w = (Raise e, w').
Proof. intro H. unfold bind. now rewrite H. Qed.

Lemma nth_replace_nth (r : nat) (f d : Frame) (h : list Frame) :
  (r < length h)%nat -> nth r (replace_nth r f h) d = f.
Proof.
  revert r. induction h as [|g h IH]; intros r H; simpl in H; [lia|].
  destruct r as [|r]; simpl; [reflexivity|]. apply IH. lia.
Qed.

Lemma replace_nth_length (r : nat) (f : Frame) (h : list Frame) :
  length (replace_nth r f h) = length h.
Proof.
  revert r. induction h as [|g h IH]; intros r; [now destruct r|].
  destruct r; simpl; [reflexivity|]. now rewrite IH.
Qed.

Lemma replace_nth_again (r : nat) (f g : Frame) (h : list Frame) :
  replace_nth r f (replace_nth r g h) = replace_nth r f h.
Proof.
  revert r. induction h as [|x h IH]; intros r; [now destruct r|].
  destruct r; simpl; [reflexivity|]. now rewrite IH.
Qed.

(** *** plotTimeGraph as a whole *)

Lemma plotTimeGraph_run (E : Env) (df : nat) (w : World) (f : Frame) :
  nth_error (heap w) df = Some f ->
  exists w',
    plotTimeGraph E df w = (Ok tt, w')
    /\ heap w' = replace_nth df (mkFrame (with_column "Query Time" (columns f))
                                         (coerce_Query_Time E (rows f)))
                             (heap w)
    /\ calls w' = calls w ++ ["plotTimeGraph"%string]
    /\ log w' = log w ++ save_log E ts_output_path
                                  (MsgTimeGraphSaved ts_output_path)
                                  (fs w ts_output_path)
    /\ fs w' ts_output_path
       = after_save E ts_output_path (ts_artifact E (rows f))
                    (fs w ts_output_path)
    /\ (forall q, q <> ts_output_path -> fs w' q = fs w q).
Proof.
  intro Hf.
  assert (Hlt : (df < length (heap w))%nat)
    by (apply nth_error_Some; congruence).
  assert (Hn : nth df (heap w) empty_frame = f)
    by (now apply nth_error_nth).
  unfold plotTimeGraph, bind, enter, deref, assign. simpl.
  rewrite Hn, nth_replace_nth by exact Hlt. simpl.
  match goal with
  | |- context [save_step E ?p ?a ?m ?w0] =>
      destruct (save_step_run E p a m w0) as (w' & Hs & Hh & Hc & Hl & Hp & Hq)
  end.
  rewrite Hs. exists w'. simpl in *.
  repeat split; assumption.
Qed.

(** *** plotHeatMap as a whole *)

Lemma apply_eval_Ok (E : Env) (key : string) (set : option Q -> Row -> Row)
      (l : list Row) :
  forallb (has_key E key) l = true ->
  apply_eval E key set l
  = Ok (map (fun r => set (eval_location E (Location r) key) r) l).
Proof.
  induction l as [|r l IH]; intro H; [reflexivity|].
  simpl in H. apply andb_true_iff in H. destruct H as [Hr Hl].
  unfold has_key in Hr. simpl.
  destruct (eval_location E (Location r) key); [|discriminate].
  now rewrite (IH Hl).
Qed.

Lemma apply_eval_Raise (E : Env) (key : string) (set : option Q -> Row -> Row)
      (l : list Row) :
  forallb (has_key E key) l = false ->
  exists cell, apply_eval E key set l = Raise (LocationError cell key).
Proof.
  induction l as [|r l IH]; intro H; [discriminate|].
  simpl in H. simpl. unfold has_key in H at 1.
  destruct (eval_location E (Location r) key).
  - simpl in H. destruct (IH H) as [cell Hc]. rewrite Hc. now exists cell.
  - now exists (Location r).
Qed.

Lemma evaluates_split (E : Env) (l : list Row) :
  forallb (evaluates E) l
  = forallb (has_key E "Latitude") l
    && forallb (has_key E "Longitude")
               (map (fun r => set_Latitude
                                (eval_location E (Location r) "Latitude") r) l).
Proof.
  induction l as [|r l IH]; [reflexivity|].
  simpl. rewrite IH. unfold evaluates, has_key. simpl.
  destruct (eval_location E (Location r) "Latitude"),
    (eval_location E (Location r) "Longitude"); simpl;
    rewrite ?andb_false_r; reflexivity.
Qed.

Lemma plotHeatMap_run (E : Env) (df : nat) (w : World) (f : Frame) :
  nth_error (heap w) df = Some f ->
  forallb (evaluates E) (rows f) = true ->
  avg_prices_of (hm_local (with_coordinates E (rows f))) <> [] ->
  let avg := avg_prices_of (hm_local (with_coordinates E (rows f))) in
  exists w',
    plotHeatMap E df w = (Ok tt, w')
    /\ heap w' = replace_nth df (mkFrame (located_columns (columns f))
                                         (with_coordinates E (rows f)))
                             (heap w)
    /\ calls w' = calls w ++ ["plotHeatMap"%string]
    /\ log w' = log w ++ fuel_warning Regular avg ++ fuel_warning Premium avg
                ++ save_log E hm_output_path MsgMapSaved (fs w hm_output_path)
    /\ fs w' hm_output_path
       = after_save E hm_output_path
                    (HeatMapHtml (hm_map (with_coordinates E (rows f))))
                    (fs w hm_output_path)
    /\ (forall q, q <> hm_output_path -> fs w' q = fs w q).
Proof.
  intros Hf Hev Hne avg.
  assert (Hlt : (df < length (heap w))%nat)
    by (apply nth_error_Some; congruence).
  assert (Hn : nth df (heap w) empty_frame = f)
    by (now apply nth_error_nth).
  rewrite evaluates_split in Hev. apply andb_true_iff in Hev.
  destruct Hev as [Hlat Hlon].
  unfold plotHeatMap, bind at 1, enter. cbv beta iota.
  unfold bind at 1, deref at 1. simpl heap. rewrite Hn. cbv beta iota.
  unfold bind at 1, lift at 1. rewrite (apply_eval_Ok E _ set_Latitude _ Hlat).
  cbv beta iota.
  unfold bind at 1, assign at 1. cbv beta iota.
  unfold bind at 1, deref at 1. simpl heap.
  rewrite nth_replace_nth by exact Hlt. cbv beta iota. simpl rows. simpl columns.
  unfold bind at 1, lift at 1. rewrite (apply_eval_Ok E _ set_Longitude _ Hlon).
  cbv beta iota.
  unfold bind at 1, assign at 1. cbv beta iota.
  unfold bind at 1, deref at 1. simpl heap.
  rewrite replace_nth_again.
  rewrite nth_replace_nth by exact Hlt. cbv beta iota. simpl rows.
  rewrite map_map.
  change (map (fun x : Row =>
                 set_Longitude
                   (eval_location E
                      (Location
                         (set_Latitude
                            (eval_location E (Location x) "Latitude") x))
                      "Longitude")
                   (set_Latitude (eval_location E (Location x) "Latitude") x))
              (rows f))
    with (with_coordinates E (rows f)).
  fold avg.
  unfold bind at 1. rewrite (build_map_run _ Hne). cbv beta iota.
  match goal with
  | |- context [save_step E ?p ?a ?m ?w0] =>
      destruct (save_step_run E p a m w0) as (w' & Hs & Hh & Hc & Hl & Hp & Hq)
  end.
  rewrite Hs. exists w'. simpl in Hh, Hc, Hl, Hp, Hq.
  repeat split; try assumption.
  rewrite Hl. now rewrite <- !app_assoc.
Qed.

Lemma plotHeatMap_stops (E : Env) (df : nat) (w : World) (f : Frame) :
  nth_error (heap w) df = Some f ->
  forallb (evaluates E) (rows f) = false ->
  exists cell key w',
    plotHeatMap E df w = (Raise (LocationError cell key), w')
    /\ calls w' = calls w ++ ["plotHeatMap"%string]
    /\ log w' = log w
    /\ fs w' = fs w.
Proof.
  intros Hf Hev.
  assert (Hlt : (df < length (heap w))%nat)
    by (apply nth_error_Some; congruence).
  assert (Hn : nth df (heap w) empty_frame = f)
    by (now apply nth_error_nth).
  rewrite evaluates_split in Hev.
  unfold plotHeatMap, bind at 1, enter. cbv beta iota.
  unfold bind at 1, deref at 1. simpl heap. rewrite Hn. cbv beta iota.
  unfold bind at 1, lift at 1.
  destruct (forallb (has_key E "Latitude") (rows f)) eqn:Hlat.
  - simpl in Hev.
    rewrite (apply_eval_Ok E _ set_Latitude _ Hlat). cbv beta iota.
    unfold bind at 1, assign at 1. cbv beta iota.
    unfold bind at 1, deref at 1. simpl heap.
    rewrite nth_replace_nth by exact Hlt. cbv beta iota. simpl rows.
    unfold bind at 1, lift at 1.
    destruct (apply_eval_Raise E _ set_Longitude _ Hev) as [cell Hc].
    rewrite Hc. do 3 eexists. repeat split.
  - destruct (apply_eval_Raise E _ set_Latitude _ Hlat) as [cell Hc].
    rewrite Hc. do 3 eexists. repeat split.
Qed.

Lemma plotHeatMap_no_station (E : Env) (df : nat) (w : World) (f : Frame) :
  nth_error (heap w) df = Some f ->
  forallb (evaluates E) (rows f) = true ->
  avg_prices_of (hm_local (with_coordinates E (rows f))) = [] ->
  exists w',
    plotHeatMap E df w
    = (Raise (ValueError "Location values cannot contain NaNs."), w')
    /\ heap w' = replace_nth df (mkFrame (located_columns (columns f))
                                         (with_coordinates E (rows f)))
                             (heap w)
    /\ calls w' = calls w ++ ["plotHeatMap"%string]
    /\ log w' = log w ++ [MsgInvalidThresholds "regular" None None;
                          MsgInvalidThresholds "premium" None None]
    /\ fs w' = fs w.
Proof.
  intros Hf Hev Hempty.
  assert (Hlt : (df < length (heap w))%nat)
    by (apply nth_error_Some; congruence).
  assert (Hn : nth df (heap w) empty_frame = f)
    by (now apply nth_error_nth).
  rewrite evaluates_split in Hev. apply andb_true_iff in Hev.
  destruct Hev as [Hlat Hlon].
  unfold plotHeatMap, bind at 1, enter. cbv beta iota.
  unfold bind at 1, deref at 1. simpl heap. rewrite Hn. cbv beta iota.
  unfold bind at 1, lift at 1. rewrite (apply_eval_Ok E _ set_Latitude _ Hlat).
  cbv beta iota.
  unfold bind at 1, assign at 1. cbv beta iota.
  unfold bind at 1, deref at 1. simpl heap.
  rewrite nth_replace_nth by exact Hlt. cbv beta iota. simpl rows. simpl columns.
  unfold bind at 1, lift at 1. rewrite (apply_eval_Ok E _ set_Longitude _ Hlon).
  cbv beta iota.
  unfold bind at 1, assign at 1. cbv beta iota.
  unfold bind at 1, deref at 1. simpl heap.
  rewrite replace_nth_again.
  rewrite nth_replace_nth by exact Hlt. cbv beta iota. simpl rows.
  rewrite map_map.
  change (map (fun x : Row =>
                 set_Longitude
                   (eval_location E
                      (Location
                         (set_Latitude
                            (eval_location E (Location x) "Latitude") x))
                      "Longitude")
                   (set_Latitude (eval_location E (Location x) "Latitude") x))
              (rows f))
    with (with_coordinates E (rows f)).
  rewrite Hempty.
  unfold bind at 1. rewrite build_map_empty.
  eexists. split; [reflexivity|]. simpl. repeat split.
Qed.

(** *** plotInteractive as a whole *)

Lemma plotInteractive_run (E : Env) (df : nat) (w : World) :
  let f := nth df (heap w) empty_frame in
  exists w',
    plotInteractive E df w = (Ok tt, w')
    /\ heap w' = heap w
    /\ calls w' = calls w ++ ["plotInteractive"%string]
    /\ log w' = log w ++ save_log E it_output_path MsgGraphSaved
                                  (fs w it_output_path)
    /\ fs w' it_output_path
       = after_save E it_output_path
                    (InteractiveHtml (it_figure (it_local E (rows f))))
                    (fs w it_output_path)
    /\ (forall q, q <> it_output_path -> fs w' q = fs w q).
Proof.
  intro f. unfold plotInteractive, bind, enter, deref. simpl. fold f.
  match goal with
  | |- context [save_step E ?p ?a ?m ?w0] =>
      destruct (save_step_run E p a m w0) as (w' & Hs & Hh & Hc & Hl & Hp & Hq)
  end.
  rewrite Hs. exists w'. simpl in *.
  repeat split; assumption.
Qed.

(** *** The script as a whole *)

Lemma evaluates_coerce (E : Env) (l : list Row) :
  forallb (evaluates E) (coerce_Query_Time E l) = forallb (evaluates E) l.
Proof.
  unfold coerce_Query_Time. induction l as [|r l IH]; [reflexivity|].
  simpl. now rewrite IH.
Qed.

Lemma paths_distinct :
  ts_output_path <> hm_output_path
  /\ ts_output_path <> it_output_path
  /\ hm_output_path <> it_output_path.
Proof. repeat split; discriminate. Qed.

Lemma script_run (E : Env) (table : list Row)
      (files : string -> option Artifact) (lines : list LogMsg) :
  forallb (evaluates E) table = true ->
  avg_prices_of (hm_local (with_coordinates E (coerce_Query_Time E table)))
  <> [] ->
  let avg :=
    avg_prices_of (hm_local (with_coordinates E (coerce_Query_Time E table))) in
  exists w',
    script E table (initial_world files lines) = (Ok tt, w')
    /\ heap w' = [mkFrame (located_columns loaded_columns)
                          (with_coordinates E (coerce_Query_Time E table))]
    /\ calls w' = ["plotTimeGraph"; "plotHeatMap"; "plotInteractive"]%string
    /\ log w' = lines ++ [MsgVisualizing]
                ++ save_log E ts_output_path (MsgTimeGraphSaved ts_output_path)
                            (files ts_output_path)
                ++ fuel_warning Regular avg ++ fuel_warning Premium avg
                ++ save_log E hm_output_path MsgMapSaved (files hm_output_path)
                ++ save_log E it_output_path MsgGraphSaved (files it_output_path)
    /\ fs w' ts_output_path
       = after_save E ts_output_path (ts_artifact E table) (files ts_output_path)
    /\ fs w' hm_output_path
       = after_save E hm_output_path (hm_artifact E table) (files hm_output_path)
    /\ fs w' it_output_path
       = after_save E it_output_path (it_artifact E table) (files it_output_path)
    /\ (forall q, q <> ts_output_path -> q <> hm_output_path ->
                  q <> it_output_path -> fs w' q = files q).
Proof.
  intros Hev Hne avg.
  destruct paths_distinct as (Hth & Hti & Hhi).
  unfold script, bind at 1, logging_debug at 1. cbv beta iota.
  unfold bind at 1, read_excel, new_object. cbv beta iota.
  simpl length. simpl app.
  set (w0 := mkWorld _ _ _ _).
  destruct (plotTimeGraph_run E 0 w0 (f := mkFrame loaded_columns table)
                              eq_refl)
    as (w1 & R1 & H1 & C1 & L1 & F1 & O1).
  rewrite (@bind_Ok _ _ _ _ _ _ _ R1).
  subst w0. simpl in H1, C1, L1, F1, O1.
  assert (Hev1 : forallb (evaluates E) (coerce_Query_Time E table) = true)
    by (now rewrite evaluates_coerce).
  destruct (plotHeatMap_run E 0 w1
              (f := mkFrame loaded_columns (coerce_Query_Time E table)))
    as (w2 & R2 & H2 & C2 & L2 & F2 & O2).
  { now rewrite H1. }
  { exact Hev1. }
  { exact Hne. }
  rewrite (@bind_Ok _ _ _ _ _ _ _ R2).
  simpl in H2, C2, L2, F2, O2. rewrite H1 in H2. simpl in H2.
  destruct (plotInteractive_run E 0 w2) as (w3 & R3 & H3 & C3 & L3 & F3 & O3).
  rewrite R3. exists w3.
  rewrite H2 in F3. simpl in F3.
  repeat split.
  - now rewrite H3, H2.
  - now rewrite C3, C2, C1.
  - rewrite L3, L2, L1.
    rewrite (O2 it_output_path), (O1 it_output_path) by congruence.
    rewrite (O1 hm_output_path) by congruence.
    fold avg. now rewrite <- !app_assoc.
  - rewrite (O3 ts_output_path), (O2 ts_output_path) by congruence.
    exact F1.
  - rewrite (O3 hm_output_path) by congruence.
    rewrite F2, (O1 hm_output_path) by congruence. reflexivity.
  - rewrite F3, (O2 it_output_path), (O1 it_output_path) by congruence.
    reflexivity.
  - intros q Q1 Q2 Q3. now rewrite (O3 q), (O2 q), (O1 q).
Qed.

Lemma script_stops (E : Env) (table : list Row)
      (files : string -> option Artifact) (lines : list LogMsg) :
  forallb (evaluates E) table = false ->
  exists cell key w',
    script E table (initial_world files lines)
    = (Raise (LocationError cell key), w')
    /\ calls w' = ["plotTimeGraph"; "plotHeatMap"]%string
    /\ fs w' ts_output_path
       = after_save E ts_output_path (ts_artifact E table) (files ts_output_path)
    /\ (forall q, q <> ts_output_path -> fs w' q = files q).
Proof.
  intros Hev.
  unfold script, bind at 1, logging_debug at 1. cbv beta iota.
  unfold bind at 1, read_excel, new_object. cbv beta iota.
  simpl length. simpl app.
  set (w0 := mkWorld _ _ _ _).
  destruct (plotTimeGraph_run E 0 w0 (f := mkFrame loaded_columns table)
                              eq_refl)
    as (w1 & R1 & H1 & C1 & L1 & F1 & O1).
  rewrite (@bind_Ok _ _ _ _ _ _ _ R1).
  subst w0. simpl in H1, C1, L1, F1, O1.
  assert (Hev1 : forallb (evaluates E) (coerce_Query_Time E table) = false)
    by (now rewrite evaluates_coerce).
  destruct (plotHeatMap_stops E 0 w1
              (f := mkFrame loaded_columns (coerce_Query_Time E table)))
    as (cell & key & w2 & R2 & C2 & L2 & F2).
  { now rewrite H1. }
  { exact Hev1. }
  rewrite (@bind_Raise _ _ _ _ _ _ _ R2).
  exists cell, key, w2. repeat split.
  - now rewrite C2, C1.
  - now rewrite F2.
  - intros q Q. rewrite F2. now apply O1.
Qed.

Lemma script_no_station (E : Env) (table : list Row)
      (files : string -> option Artifact) (lines : list LogMsg) :
  forallb (evaluates E) table = true ->
  avg_prices_of (hm_local (with_coordinates E (coerce_Query_Time E table)))
  = [] ->
  exists w',
    script E table (initial_world files lines)
    = (Raise (ValueError "Location values cannot contain NaNs."), w')
    /\ calls w' = ["plotTimeGraph"; "plotHeatMap"]%string
    /\ log w' = lines ++ [MsgVisualizing]
                ++ save_log E ts_output_path (MsgTimeGraphSaved ts_output_path)
                            (files ts_output_path)
                ++ [MsgInvalidThresholds "regular" None None;
                    MsgInvalidThresholds "premium" None None]
    /\ fs w' ts_output_path
       = after_save E ts_output_path (ts_artifact E table) (files ts_output_path)
    /\ (forall q, q <> ts_output_path -> fs w' q = files q).
Proof.
  intros Hev Hempty.
  unfold script, bind at 1, logging_debug at 1. cbv beta iota.
  unfold bind at 1, read_excel, new_object. cbv beta iota.
  simpl length. simpl app.
  set (w0 := mkWorld _ _ _ _).
  destruct (plotTimeGraph_run E 0 w0 (f := mkFrame loaded_columns table)
                              eq_refl)
    as (w1 & R1 & H1 & C1 & L1 & F1 & O1).
  rewrite (@bind_Ok _ _ _ _ _ _ _ R1).
  subst w0. simpl in H1, C1, L1, F1, O1.
  assert (Hev1 : forallb (evaluates E) (coerce_Query_Time E table) = true)
    by (now rewrite evaluates_coerce).
  destruct (plotHeatMap_no_station E 0 w1
              (f := mkFrame loaded_columns (coerce_Query_Time E table)))
    as (w2 & R2 & _ & C2 & L2 & F2).
  { now rewrite H1. }
  { exact Hev1. }
  { exact Hempty. }
  rewrite (@bind_Raise _ _ _ _ _ _ _ R2).
  exists w2. repeat split.
  - now rewrite C2, C1.
  - rewrite L2, L1. now rewrite <- !app_assoc.
  - now rewrite F2.
  - intros q Q. rewrite F2. now apply O1.
Qed.

(** *** Failures of the save step *)

Lemma after_save_idem (E : Env) (p : string) (a : Artifact)
      (x : option Artifact) :
  after_save E p a (after_save E p a x) = after_save E p a x.
Proof.
  unfold after_save.
  destruct x as [old|], (remove_fault E p), (save_fault E p); reflexivity.
Qed.

Lemma save_fault_effect (E : Env) (p msg : string) (a : Artifact)
      (saved : LogMsg) (x : option Artifact) :
  (x <> None /\ remove_fault E p = Some msg)
  \/ ((x = None \/ remove_fault E p = None) /\ save_fault E p = Some msg) ->
  In (MsgError (IOError msg)) (save_log E p saved x)
  /\ after_save E p a x
     = match x, remove_fault E p with
       | Some _, Some _ => x
       | _, _ => None
       end.
Proof.
  unfold save_log, after_save.
  intros [[Hx Hr] | [[Hx | Hr] Hs]].
  - destruct x as [old|]; [|congruence]. rewrite Hr. split; [|reflexivity].
    simpl. auto.
  - subst x. rewrite Hs. split; [|reflexivity]. simpl. auto.
  - rewrite Hr, Hs. destruct x; split; simpl; auto.
Qed.

(** C6.  Whatever exception the delete-then-save step of a renderer meets --
    [os.remove] raising on the file found at the path, or the save raising --
    it is caught and logged as [MsgError]; the renderer returns, so the
    script ends normally with the three renderers entered in order; and the
    renderer's file is not written: the path holds what was there before
    when the removal failed, and nothing when the save failed.  (The run is
    one in which nothing outside the save steps raises: the Location cells
    evaluate and the aggregated table has a station, so that [plotHeatMap]
    reaches its own save step.) *)
Theorem save_failure_is_contained
        (E : Env) (table : list Row) (files : string -> option Artifact)
        (lines : list LogMsg) (p msg : string) :
  forallb (evaluates E) table = true ->
  avg_prices_of (hm_local (with_coordinates E (coerce_Query_Time E table)))
  <> [] ->
  In p [ts_output_path; hm_output_path; it_output_path] ->
  (files p <> None /\ remove_fault E p = Some msg)
  \/ ((files p = None \/ remove_fault E p = None)
      /\ save_fault E p = Some msg) ->
  exists w' appended,
    script E table (initial_world files lines) = (Ok tt, w')
    /\ calls w' = ["plotTimeGraph"; "plotHeatMap"; "plotInteractive"]%string
    /\ log w' = lines ++ appended
    /\ In (MsgError (IOError msg)) appended
    /\ fs w' p = match files p, remove_fault E p with
                 | Some _, Some _ => files p
                 | _, _ => None
                 end.
Proof.
  intros Hev Hne Hp Hfault.
  destruct (script_run E table files lines Hev Hne)
    as (w' & R & _ & C & L & Fts & Fhm & Fit & _).
  exists w'. eexists. split; [exact R|]. split; [exact C|].
  split; [exact L|].
  simpl in Hp. destruct Hp as [<- | [<- | [<- | []]]].
  - destruct (@save_fault_effect E ts_output_path msg (ts_artifact E table)
                (MsgTimeGraphSaved ts_output_path) _ Hfault) as [Hin Heq].
    split; [|now rewrite Fts].
    apply in_or_app; right. apply in_or_app; left. exact Hin.
  - destruct (@save_fault_effect E hm_output_path msg (hm_artifact E table)
                MsgMapSaved _ Hfault) as [Hin Heq].
    split; [|now rewrite Fhm].
    apply in_or_app; right. apply in_or_app; right. apply in_or_app; right.
    apply in_or_app; right. apply in_or_app; left. exact Hin.
  - destruct (@save_fault_effect E it_output_path msg (it_artifact E table)
                MsgGraphSaved _ Hfault) as [Hin Heq].
    split; [|now rewrite Fit].
    apply in_or_app; right. apply in_or_app; right. apply in_or_app; right.
    apply in_or_app; right. apply in_or_app; right. exact Hin.
Qed.

Lemma save_failure_is_contained_witness :
  forallb (evaluates full_disk_env) two_station_table = true
  /\ length (avg_prices_of
               (hm_local (with_coordinates full_disk_env
                            (coerce_Query_Time full_disk_env
                                               two_station_table)))) = 2%nat
  /\ save_fault full_disk_env hm_output_path = Some "No space left on device"%string
  /\ exists w' appended,
       script full_disk_env two_station_table (initial_world no_files [])
       = (Ok tt, w')
       /\ calls w' = ["plotTimeGraph"; "plotHeatMap"; "plotInteractive"]%string
       /\ log w' = [] ++ appended
       /\ In (MsgError (IOError "No space left on device")) appended
       /\ fs w' hm_output_path
          = match no_files hm_output_path,
                  remove_fault full_disk_env hm_output_path with
            | Some _, Some _ => no_files hm_output_path
            | _, _ => None
            end.
Proof.
  split; [reflexivity|]. split; [reflexivity|]. split; [reflexivity|].
  apply (@save_failure_is_contained full_disk_env two_station_table no_files []
           hm_output_path "No space left on device").
  - reflexivity.
  - discriminate.
  - simpl. right. left. reflexivity.
  - right. split; [left; reflexivity | reflexivity].
Defined.

(** Without any assumption on the table: the first renderer always returns,
    the last one too, and the heat map ends either normally, on a Location
    cell or on the centre of an empty map, never on its save step. *)
Lemma renderers_return (E : Env) (df : nat) (w : World) (f : Frame) :
  nth_error (heap w) df = Some f ->
  fst (plotTimeGraph E df w) = Ok tt
  /\ fst (plotInteractive E df w) = Ok tt
  /\ (fst (plotHeatMap E df w) = Ok tt
      \/ (exists cell key,
            fst (plotHeatMap E df w) = Raise (LocationError cell key))
      \/ (exists msg, fst (plotHeatMap E df w) = Raise (ValueError msg))).
Proof.
  intro Hf. repeat split.
  - destruct (plotTimeGraph_run E df w Hf) as (w' & R & _). now rewrite R.
  - destruct (plotInteractive_run E df w) as (w' & R & _). now rewrite R.
  - destruct (forallb (evaluates E) (rows f)) eqn:Hev.
    + destruct (avg_prices_of (hm_local (with_coordinates E (rows f))))
        as [|a avg] eqn:A.
      * right. right. destruct (plotHeatMap_no_station E df w Hf Hev A)
          as (w' & R & _).
        eexists. now rewrite R.
      * left. destruct (plotHeatMap_run E df w Hf Hev) as (w' & R & _).
        { rewrite A. discriminate. }
        now rewrite R.
    + right. left. destruct (plotHeatMap_stops E df w Hf Hev)
        as (cell & key & w' & R & _).
      exists cell, key. now rewrite R.
Qed.

(** *** Running the script twice *)

(** C8.  A second run of the script on the same table, started from the
    files and the log the first run left, leaves at every path the artifact
    the first run left there. *)
Theorem rerun_leaves_same_files
        (E : Env) (table : list Row) (files : string -> option Artifact)
        (lines : list LogMsg) (p : string) :
  let w1 := snd (script E table (initial_world files lines)) in
  let w2 := snd (script E table (initial_world (fs w1) (log w1))) in
  fs w2 p = fs w1 p.
Proof.
  cbv zeta.
  destruct (forallb (evaluates E) table) eqn:Hev.
  - destruct (avg_prices_of
                (hm_local (with_coordinates E (coerce_Query_Time E table))))
      as [|a avg] eqn:A.
    + destruct (script_no_station E table files lines Hev A)
        as (w1 & R1 & _ & _ & T1 & O1).
      rewrite R1. simpl snd.
      destruct (script_no_station E table (fs w1) (log w1) Hev A)
        as (w2 & R2 & _ & _ & T2 & O2).
      rewrite R2. simpl snd.
      destruct (String.eqb_spec p ts_output_path) as [-> | Nt].
      { rewrite T2, T1. apply after_save_idem. }
      now apply O2.
    + assert (Hne : avg_prices_of
                      (hm_local (with_coordinates E
                                   (coerce_Query_Time E table))) <> [])
        by (rewrite A; discriminate).
      destruct (script_run E table files lines Hev Hne)
        as (w1 & R1 & _ & _ & _ & T1 & H1 & I1 & O1).
      rewrite R1. simpl snd.
      destruct (script_run E table (fs w1) (log w1) Hev Hne)
        as (w2 & R2 & _ & _ & _ & T2 & H2 & I2 & O2).
      rewrite R2. simpl snd.
      destruct (String.eqb_spec p ts_output_path) as [-> | Nt].
      { rewrite T2, T1. apply after_save_idem. }
      destruct (String.eqb_spec p hm_output_path) as [-> | Nh].
      { rewrite H2, H1. apply after_save_idem. }
      destruct (String.eqb_spec p it_output_path) as [-> | Ni].
      { rewrite I2, I1. apply after_save_idem. }
      now apply O2.
  - destruct (script_stops E table files lines Hev)
      as (c1 & k1 & w1 & R1 & _ & T1 & O1).
    rewrite R1. simpl snd.
    destruct (script_stops E table (fs w1) (log w1) Hev)
      as (c2 & k2 & w2 & R2 & _ & T2 & O2).
    rewrite R2. simpl snd.
    destruct (String.eqb_spec p ts_output_path) as [-> | Nt].
    { rewrite T2, T1. apply after_save_idem. }
    now apply O2.
Qed.

(** *** Degenerate ranges and the colour scales *)

Lemma fuel_children_belong (s t : Fuel) (avg : list AggRow) (c : MapChild) :
  In c (fuel_children t avg) -> belongs_to s c = true -> s = t.
Proof.
  unfold fuel_children. destruct (valid_range t avg); [|intros []].
  intros [<- | [<- | []]]; destruct s, t; simpl; intro H;
    try reflexivity; discriminate.
Qed.

(** C5.  For either price type [s]: when the minimum of the aggregated
    prices of [s] is not strictly below their maximum, the map that
    [plotHeatMap] builds and saves has no child that belongs to [s] (neither
    the marker layer nor the legend), the warning for [s] is logged, and if
    the range of the other price type is not degenerate then its marker
    layer, with one marker per station, and its legend are on the map.
    (The aggregated table has a station, so that there are aggregated prices
    to compare and a map to put layers on.) *)
Theorem degenerate_range_omits_layer
        (s : Fuel) (avg : list AggRow) (w : World) :
  avg <> [] ->
  valid_range s avg = false ->
  exists m appended,
    build_map avg w
    = (Ok m, mkWorld (heap w) (fs w) (log w ++ appended) (calls w))
    /\ (forall c, In c (map_children m) -> belongs_to s c = false)
    /\ In (MsgInvalidThresholds (fuel_word s) (fuel_min s avg) (fuel_max s avg))
          appended
    /\ (valid_range (other s) avg = true ->
        In (FeatureGroup (fuel_caption (other s)) (fuel_markers (other s) avg))
           (map_children m)
        /\ length (fuel_markers (other s) avg) = length avg
        /\ In (Legend (fuel_scale (other s) avg)) (map_children m)).
Proof.
  intros Hne Hs. rewrite (build_map_run _ Hne).
  do 2 eexists. split; [reflexivity|].
  simpl map_children. repeat split.
  - intros c Hc. destruct (belongs_to s c) eqn:B; [|reflexivity]. exfalso.
    apply in_app_or in Hc. destruct Hc as [Hc | Hc].
    + pose proof (fuel_children_belong s Regular avg c Hc B) as ->.
      unfold fuel_children in Hc. rewrite Hs in Hc. destruct Hc.
    + apply in_app_or in Hc. destruct Hc as [Hc | [<- | []]].
      * pose proof (fuel_children_belong s Premium avg c Hc B) as ->.
        unfold fuel_children in Hc. rewrite Hs in Hc. destruct Hc.
      * discriminate.
  - unfold fuel_warning. destruct s; rewrite Hs.
    + apply in_or_app; left. simpl. auto.
    + apply in_or_app; right. simpl. auto.
  - unfold fuel_children. destruct s; simpl other in *; rewrite H.
    + apply in_or_app; right. simpl. auto.
    + apply in_or_app; left. simpl. auto.
  - unfold fuel_markers. apply length_map.
  - unfold fuel_children. destruct s; simpl other in *; rewrite H.
    + apply in_or_app; right. simpl. auto.
    + apply in_or_app; left. simpl. auto.
Qed.

Lemma degenerate_range_omits_layer_witness :
  length sample_avg = 2%nat
  /\ valid_range Premium sample_avg = false
  /\ valid_range Regular sample_avg = true
  /\ exists m appended,
       build_map sample_avg empty_world
       = (Ok m, mkWorld (heap empty_world) (fs empty_world)
                        (log empty_world ++ appended) (calls empty_world))
       /\ (forall c, In c (map_children m) -> belongs_to Premium c = false)
       /\ In (MsgInvalidThresholds (fuel_word Premium)
                                   (fuel_min Premium sample_avg)
                                   (fuel_max Premium sample_avg))
             appended
       /\ (valid_range (other Premium) sample_avg = true ->
           In (FeatureGroup (fuel_caption (other Premium))
                            (fuel_markers (other Premium) sample_avg))
              (map_children m)
           /\ length (fuel_markers (other Premium) sample_avg)
              = length sample_avg
           /\ In (Legend (fuel_scale (other Premium) sample_avg))
                 (map_children m)).
Proof.
  split; [reflexivity|]. split; [reflexivity|]. split; [reflexivity|].
  apply (@degenerate_range_omits_layer Premium sample_avg empty_world).
  - discriminate.
  - reflexivity.
Defined.

Lemma apply_eval_outcome (E : Env) (key : string)
      (set : option Q -> Row -> Row) (l : list Row) :
  (exists l', apply_eval E key set l = Ok l')
  \/ (exists cell, apply_eval E key set l = Raise (LocationError cell key)).
Proof.
  destruct (forallb (has_key E key) l) eqn:H.
  - left. eexists. now apply apply_eval_Ok.
  - right. now apply apply_eval_Raise.
Qed.

Lemma plotHeatMap_outcome (E : Env) (df : nat) (w : World) :
  exists o w',
    plotHeatMap E df w = (o, w')
    /\ (o = Ok tt
        \/ (exists cell key, o = Raise (LocationError cell key))
        \/ (exists msg, o = Raise (ValueError msg))).
Proof.
  unfold plotHeatMap, bind at 1, enter. cbv beta iota.
  unfold bind at 1, deref at 1. cbv beta iota.
  unfold bind at 1, lift at 1.
  destruct (apply_eval_outcome E "Latitude" set_Latitude
              (rows (nth df (heap (mkWorld (heap w) (fs w) (log w)
                                           (calls w ++ ["plotHeatMap"%string])))
                         empty_frame)))
    as [[l1 H1] | [cell H1]]; rewrite H1; cbv beta iota;
    [|do 2 eexists; split; [reflexivity|];
      right; left; now exists cell, "Latitude"%string].
  unfold bind at 1, assign at 1. cbv beta iota.
  unfold bind at 1, deref at 1. cbv beta iota.
  unfold bind at 1, lift at 1.
  match goal with
  | |- context [apply_eval E "Longitude" set_Longitude ?l] =>
      destruct (apply_eval_outcome E "Longitude" set_Longitude l)
        as [[l2 H2] | [cell H2]]
  end; rewrite H2; cbv beta iota;
    [|do 2 eexists; split; [reflexivity|];
      right; left; now exists cell, "Longitude"%string].
  unfold bind at 1, assign at 1. cbv beta iota.
  unfold bind at 1, deref at 1. cbv beta iota.
  unfold bind at 1.
  match goal with
  | |- context [build_map ?a] => destruct a as [|row avg] eqn:A
  end.
  - rewrite build_map_empty. do 2 eexists. split; [reflexivity|].
    right. right. eexists. reflexivity.
  - rewrite build_map_run by discriminate. cbv beta iota.
    match goal with
    | |- context [save_step E ?p ?a ?m ?w0] =>
        destruct (save_step_run E p a m w0) as (w' & Hs & _)
    end.
    rewrite Hs. do 2 eexists. split; [reflexivity|]. now left.
Qed.

Lemma build_map_outcome (avg : list AggRow) (w : World) :
  (exists m, fst (build_map avg w) = Ok m)
  \/ (exists msg, fst (build_map avg w) = Raise (ValueError msg)).
Proof.
  destruct avg as [|row avg].
  - right. rewrite build_map_empty. eexists. reflexivity.
  - left. rewrite build_map_run by discriminate. eexists. reflexivity.
Qed.

(** C10, as the code has it.  The colour-scale names are read only where
    they are bound: neither [plotHeatMap], whatever the frame, nor the
    construction of the map, whatever the aggregated table -- the empty one
    included -- ends on an unbound local name.  On an aggregated table that
    has a station the map is made, the layer and the legend of a price type
    are on it exactly when its comparison [min < max] holds, and when both
    comparisons fail the map carries the layer control alone. *)
Theorem color_scales_never_unbound :
  (forall (E : Env) (df : nat) (w : World) (name : string),
      fst (plotHeatMap E df w) <> Raise (UnboundLocalError name))
  /\ (forall (avg : list AggRow) (w : World) (name : string),
         fst (build_map avg w) <> Raise (UnboundLocalError name))
  /\ (forall (avg : list AggRow) (w : World),
         avg <> [] ->
         exists m,
           fst (build_map avg w) = Ok m
           /\ map_children m
              = (if valid_range Regular avg
                 then [FeatureGroup "Regular Gas Prices"
                                    (fuel_markers Regular avg);
                       Legend (fuel_scale Regular avg)]
                 else [])
                ++ (if valid_range Premium avg
                    then [FeatureGroup "Premium Gas Prices"
                                       (fuel_markers Premium avg);
                          Legend (fuel_scale Premium avg)]
                    else [])
                ++ [LayerControl])
  /\ (forall (avg : list AggRow) (w : World),
         avg <> [] ->
         valid_range Regular avg = false ->
         valid_range Premium avg = false ->
         exists m,
           fst (build_map avg w) = Ok m /\ map_children m = [LayerControl]).
Proof.
  repeat split.
  - intros E df w name H.
    destruct (plotHeatMap_outcome E df w)
      as (o & w' & R & [-> | [(cell & key & ->) | (msg & ->)]]);
      rewrite R in H; discriminate.
  - intros avg w name H.
    destruct (build_map_outcome avg w) as [(m & R) | (msg & R)];
      rewrite R in H; discriminate.
  - intros avg w Hne. rewrite (build_map_run _ Hne). eexists.
    split; reflexivity.
  - intros avg w Hne Hr Hp. rewrite (build_map_run _ Hne). eexists.
    split; [reflexivity|]. simpl. unfold fuel_children. now rewrite Hr, Hp.
Qed.

Lemma color_scales_never_unbound_witness :
  fst (plotHeatMap sample_env 0
         (mkWorld [mkFrame loaded_columns two_station_table] no_files [] []))
  <> Raise (UnboundLocalError "regular_color_scale")
  /\ length sample_avg = 2%nat
  /\ exists m,
       fst (build_map sample_avg empty_world) = Ok m
       /\ map_children m
          = [FeatureGroup "Regular Gas Prices" (fuel_markers Regular sample_avg);
             Legend (fuel_scale Regular sample_avg); LayerControl].
Proof.
  split; [apply (proj1 color_scales_never_unbound)|].
  split; [reflexivity|].
  destruct (proj1 (proj2 (proj2 color_scales_never_unbound))
                  sample_avg empty_world) as (m & R & C).
  - discriminate.
  - exists m. split; [exact R | exact C].
Defined.

(** On the empty aggregated table [plotHeatMap] does not return a map with
    both layers left out: the two warnings are logged, then [folium.Map]
    raises on the NaN centre and the function ends there, outside any
    [try]. *)
Lemma empty_table_ends_the_heat_map :
  build_map [] empty_world
  = (Raise (ValueError "Location values cannot contain NaNs."),
     mkWorld [] no_files
             [MsgInvalidThresholds "regular" None None;
              MsgInvalidThresholds "premium" None None] [])
  /\ fst (plotHeatMap sample_env 0
            (mkWorld [mkFrame loaded_columns unpriced_table] no_files [] []))
     = Raise (ValueError "Location values cannot contain NaNs.")
  /\ ~ (exists m w', build_map [] empty_world = (Ok m, w')).
Proof.
  split; [reflexivity|]. split; [reflexivity|].
  intros (m & w' & H). discriminate H.
Qed.

(** *** Converted timestamps *)

Lemma to_datetime_idem (E : Env) (c : TimeCell) :
  Pandas.to_datetime E (Pandas.to_datetime E c) = Pandas.to_datetime E c.
Proof.
  destruct c as [s| |]; simpl; try reflexivity.
  now destruct (parse_datetime E s).
Qed.

Lemma coerced_rows_have_timestamps (E : Env) (l : list Row) (r : Row) :
  In r (ts_local (coerce_Query_Time E l)) \/ In r (it_local E l) ->
  exists t, Query_Time r = TStamp t.
Proof.
  assert (G : In r (it_local E l) -> exists t, Query_Time r = TStamp t).
  { unfold it_local, coerce_Query_Time, Pandas.dropna_Query_Time. intro H.
    apply in_map_iff in H. destruct H as (r1 & <- & H).
    apply in_map_iff in H. destruct H as (r0 & <- & H).
    apply filter_In in H. destruct H as [H N].
    apply in_map_iff in H. destruct H as (r2 & <- & H).
    simpl in *.
    destruct (Pandas.to_datetime E (Query_Time r2)) as [s|t|] eqn:Q;
      simpl in N; try discriminate.
    - destruct (Query_Time r2) as [s'| |]; simpl in Q; try discriminate.
      destruct (parse_datetime E s'); discriminate.
    - now exists t. }
  intros [H | H]; [|now apply G]. apply G. exact H.
Qed.

(** *** Distinct values and sorting *)

Section ListFacts.
Variable A : Type.
Variable eqb : A -> A -> bool.
Variable leb : A -> A -> bool.
Hypothesis eqb_refl : forall x, eqb x x = true.
Hypothesis eqb_trans : forall x y z, eqb x y = true -> eqb y z = true -> eqb x z = true.

Lemma unique_incl (l : list A) (x : A) : In x (unique eqb l) -> In x l.
Proof.
  revert x. induction l as [|a l IH]; intros x H; [exact H|].
  simpl in H. destruct H as [-> | H]; [now left|].
  apply filter_In in H. right. apply IH. tauto.
Qed.

Lemma unique_covers (l : list A) (x : A) :
  In x l -> exists y, In y (unique eqb l) /\ eqb y x = true.
Proof.
  induction l as [|a l IH]; intros H; [destruct H|].
  destruct H as [-> | H].
  - exists x. split; [now left | apply eqb_refl].
  - destruct (IH H) as (y & Hy & Hyx).
    destruct (eqb a y) eqn:Hay.
    + exists a. split; [now left | now apply eqb_trans with y].
    + exists y. split; [|exact Hyx]. simpl. right.
      apply filter_In. split; [exact Hy | now rewrite Hay].
Qed.

Lemma insert_sorted_In (x y : A) (l : list A) :
  In y (insert_sorted leb x l) <-> y = x \/ In y l.
Proof.
  induction l as [|a l IH]; simpl.
  - split; intros [H | H]; auto.
  - destruct (leb x a); simpl.
    + split; intros [H | H]; auto.
    + rewrite IH. split; intros H; tauto.
Qed.

Lemma sort_In (y : A) (l : list A) : In y (sort leb l) <-> In y l.
Proof.
  unfold sort. induction l as [|a l IH]; simpl; [tauto|].
  rewrite insert_sorted_In, IH. split; intros [H | H]; auto.
Qed.

Lemma sort_unique_covers (l : list A) (x : A) :
  In x l -> exists y, In y (sort_unique eqb leb l) /\ eqb y x = true.
Proof.
  intro H. destruct (unique_covers l x H) as (y & Hy & Hyx).
  exists y. split; [|exact Hyx]. unfold sort_unique.
  exact (proj2 (sort_In y (unique eqb l)) Hy).
Qed.

Lemma sort_unique_incl (l : list A) (x : A) :
  In x (sort_unique eqb leb l) -> In x l.
Proof.
  unfold sort_unique. intro H. apply unique_incl.
  exact (proj1 (sort_In x (unique eqb l)) H).
Qed.

End ListFacts.

(** *** Group keys *)

Lemma Qeq_bool_trans (x y z : Q) :
  Qeq_bool x y = true -> Qeq_bool y z = true -> Qeq_bool x z = true.
Proof.
  rewrite !Qeq_bool_iff. apply Qeq_trans.
Qed.

Lemma key_eqb_refl (k : Key) : key_eqb k k = true.
Proof.
  unfold key_eqb. rewrite !String.eqb_refl. simpl.
  now rewrite !Qeq_bool_refl.
Qed.

Lemma key_eqb_parts (a b : Key) :
  key_eqb a b = true <->
  k_id a = k_id b /\ k_name a = k_name b
  /\ Qeq_bool (k_lat a) (k_lat b) = true /\ Qeq_bool (k_lon a) (k_lon b) = true.
Proof.
  unfold key_eqb. rewrite !andb_true_iff, !String.eqb_eq. tauto.
Qed.

Lemma key_eqb_sym (a b : Key) : key_eqb a b = true -> key_eqb b a = true.
Proof.
  rewrite !key_eqb_parts. intros (H1 & H2 & H3 & H4).
  repeat split; try congruence.
  - apply Qeq_bool_iff. symmetry. now apply Qeq_bool_iff.
  - apply Qeq_bool_iff. symmetry. now apply Qeq_bool_iff.
Qed.

Lemma key_eqb_trans (a b c : Key) :
  key_eqb a b = true -> key_eqb b c = true -> key_eqb a c = true.
Proof.
  rewrite !key_eqb_parts. intros (H1 & H2 & H3 & H4) (G1 & G2 & G3 & G4).
  repeat split; try congruence.
  - now apply Qeq_bool_trans with (k_lat b).
  - now apply Qeq_bool_trans with (k_lon b).
Qed.

Lemma in_group_equiv (k k' : Key) (r : Row) :
  key_eqb k' k = true -> in_group k' r = in_group k r.
Proof.
  intro H. unfold in_group. destruct (key_of r) as [kr|]; [|reflexivity].
  destruct (key_eqb kr k) eqn:B.
  - apply key_eqb_trans with k; [exact B | now apply key_eqb_sym].
  - destruct (key_eqb kr k') eqn:B'; [|reflexivity].
    rewrite (key_eqb_trans _ _ _ B' H) in B. discriminate.
Qed.

Lemma keys_of_In (l : list Row) (k : Key) :
  In k (keys_of l) <-> exists r, In r l /\ key_of r = Some k.
Proof.
  induction l as [|a l IH]; simpl.
  - split; [intros [] | intros (r & [] & _)].
  - destruct (key_of a) as [ka|] eqn:Ka; simpl; rewrite IH; split.
    + intros [<- | (r & Hr & Hk)]; [exists a; auto|].
      exists r. auto.
    + intros (r & [<- | Hr] & Hk); [left; congruence|].
      right. now exists r.
    + intros (r & Hr & Hk). exists r. auto.
    + intros (r & [<- | Hr] & Hk); [congruence|]. now exists r.
Qed.

(** The row of [avg_prices] of a station that has a row in the frame. *)
Lemma avg_prices_group (l : list Row) (r : Row) (k : Key) :
  In r l -> key_of r = Some k ->
  exists agg,
    In agg (avg_prices_of l)
    /\ key_eqb (a_key agg) k = true
    /\ filter (in_group (a_key agg)) l = filter (in_group k) l
    /\ a_regular agg = Num.mean (map Regular_Price (filter (in_group k) l))
    /\ a_premium agg = Num.mean (map Premium_Price (filter (in_group k) l)).
Proof.
  intros Hr Hk.
  assert (Hin : In k (keys_of l)) by (apply keys_of_In; now exists r).
  destruct (sort_unique_covers key_eqb key_leb key_eqb_refl key_eqb_trans
              (keys_of l) k Hin) as (k' & Hk' & Heq).
  assert (Hf : filter (in_group k') l = filter (in_group k) l).
  { apply filter_ext. intro x. now apply in_group_equiv. }
  exists (mkAggRow k' (Num.mean (map Regular_Price (filter (in_group k') l)))
                   (Num.mean (map Premium_Price (filter (in_group k') l)))).
  split.
  - unfold avg_prices_of. apply in_map_iff. exists k'. auto.
  - simpl. rewrite Hf. auto.
Qed.

Lemma avg_prices_In (l : list Row) (agg : AggRow) :
  In agg (avg_prices_of l) ->
  a_regular agg
  = Num.mean (map Regular_Price (filter (in_group (a_key agg)) l))
  /\ a_premium agg
     = Num.mean (map Premium_Price (filter (in_group (a_key agg)) l))
  /\ exists r, In r l /\ key_of r = Some (a_key agg).
Proof.
  unfold avg_prices_of. intro H. apply in_map_iff in H.
  destruct H as (k & <- & Hk). simpl. repeat split.
  apply sort_unique_incl in Hk. now apply keys_of_In.
Qed.

(** *** Clipping and the per-station means *)

Lemma hm_local_map (l : list Row) :
  hm_local l = map clip_row (Pandas.dropna_prices l).
Proof.
  unfold hm_local, clip_prices. rewrite map_map. reflexivity.
Qed.

Lemma filter_map_comm (A : Type) (p : A -> bool) (f : A -> A) (l : list A) :
  (forall x, p (f x) = p x) -> filter p (map f l) = map f (filter p l).
Proof.
  intro H. induction l as [|a l IH]; [reflexivity|].
  simpl. rewrite H. destruct (p a); simpl; now rewrite IH.
Qed.

Lemma filter_filter_comm (A : Type) (p q : A -> bool) (l : list A) :
  filter p (filter q l) = filter q (filter p l).
Proof.
  induction l as [|a l IH]; [reflexivity|].
  simpl. destruct (p a) eqn:P, (q a) eqn:Q; simpl; rewrite ?P, ?Q, IH;
    reflexivity.
Qed.

Lemma group_of_hm_local (k : Key) (l : list Row) :
  filter (in_group k) (hm_local l)
  = map clip_row (Pandas.dropna_prices (filter (in_group k) l)).
Proof.
  rewrite hm_local_map. rewrite filter_map_comm by reflexivity.
  unfold Pandas.dropna_prices. now rewrite filter_filter_comm.
Qed.

Lemma dropna_prices_In (l : list Row) (r : Row) :
  In r (Pandas.dropna_prices l) <->
  In r l /\ exists x y, Regular_Price r = Some x /\ Premium_Price r = Some y.
Proof.
  unfold Pandas.dropna_prices. rewrite filter_In.
  split; intros [H G]; (split; [exact H|]).
  - destruct (Regular_Price r) as [x|], (Premium_Price r) as [y|];
      try discriminate. now exists x, y.
  - destruct G as (x & y & -> & ->). reflexivity.
Qed.

(** C4.  In the heat-map renderer, a row that survives the missing-price
    drop is still there after the clipping, at the same position and with the
    same group key; its regular price has become [clip 100 200] of what it
    was, which is exactly 100 below 100 and exactly 200 above 200, and its
    premium price [clip 150 250] of what it was, exactly 150 below 150 and
    exactly 250 above 250; the frame has as many rows after the clipping as
    before it; and every per-station mean is the mean of the clipped prices
    of the surviving rows of the station. *)
Theorem prices_clipped_before_means (l : list Row) (i : nat) (r : Row) :
  nth_error (Pandas.dropna_prices l) i = Some r ->
  exists x y r',
    Regular_Price r = Some x /\ Premium_Price r = Some y
    /\ nth_error (hm_local l) i = Some r'
    /\ key_of r' = key_of r
    /\ Regular_Price r' = Some (Num.clip 100 200 x)
    /\ Premium_Price r' = Some (Num.clip 150 250 y)
    /\ ((x < 100)%Q -> Regular_Price r' = Some 100%Q)
    /\ ((200 < x)%Q -> Regular_Price r' = Some 200%Q)
    /\ ((y < 150)%Q -> Premium_Price r' = Some 150%Q)
    /\ ((250 < y)%Q -> Premium_Price r' = Some 250%Q)
    /\ length (hm_local l) = length (Pandas.dropna_prices l)
    /\ (forall agg, In agg (avg_prices_of (hm_local l)) ->
          a_regular agg
          = Num.mean (map (fun r0 => Num.clip_cell 100 200 (Regular_Price r0))
                          (Pandas.dropna_prices
                             (filter (in_group (a_key agg)) l)))
          /\ a_premium agg
             = Num.mean (map (fun r0 => Num.clip_cell 150 250 (Premium_Price r0))
                             (Pandas.dropna_prices
                                (filter (in_group (a_key agg)) l)))).
Proof.
  intro H.
  assert (Hin : In r (Pandas.dropna_prices l)) by (eapply nth_error_In; eauto).
  apply dropna_prices_In in Hin. destruct Hin as (_ & x & y & Hx & Hy).
  exists x, y, (clip_row r).
  split; [exact Hx|]. split; [exact Hy|].
  split. { rewrite hm_local_map. now apply map_nth_error. }
  split; [reflexivity|].
  assert (Rx : Regular_Price (clip_row r) = Some (Num.clip 100 200 x))
    by (simpl; now rewrite Hx).
  assert (Ry : Premium_Price (clip_row r) = Some (Num.clip 150 250 y))
    by (simpl; now rewrite Hy).
  split; [exact Rx|]. split; [exact Ry|].
  split. { intro L. rewrite Rx. now rewrite clip_below. }
  split. { intro L. rewrite Rx. rewrite clip_above; [reflexivity| |exact L].
           discriminate. }
  split. { intro L. rewrite Ry. now rewrite clip_below. }
  split. { intro L. rewrite Ry. rewrite clip_above; [reflexivity| |exact L].
           discriminate. }
  split. { rewrite hm_local_map. apply length_map. }
  intros agg Hagg. apply avg_prices_In in Hagg.
  destruct Hagg as (Hr & Hp & _).
  rewrite Hr, Hp, group_of_hm_local, !map_map. split; reflexivity.
Qed.

Lemma prices_clipped_before_means_witness :
  nth_error (Pandas.dropna_prices
               (with_coordinates sample_env scenario_table)) 2
  = Some (nth 2 (with_coordinates sample_env scenario_table)
              (observation "" "" "" "" "" NaT None None))
  /\ map Regular_Price (hm_local (with_coordinates sample_env scenario_table))
     = [Some 110%Q; Some 130%Q; Some 200%Q]
  /\ map Premium_Price (hm_local (with_coordinates sample_env scenario_table))
     = [Some 160%Q; Some 180%Q; Some 150%Q]
  /\ exists r',
       nth_error (hm_local (with_coordinates sample_env scenario_table)) 2
       = Some r'
       /\ Regular_Price r' = Some 200%Q /\ Premium_Price r' = Some 150%Q.
Proof.
  split; [reflexivity|]. split; [reflexivity|]. split; [reflexivity|].
  destruct (@prices_clipped_before_means
              (with_coordinates sample_env scenario_table) 2
              (nth 2 (with_coordinates sample_env scenario_table)
                   (observation "" "" "" "" "" NaT None None))
              eq_refl)
    as (x & y & r' & Hx & Hy & Hn & _ & _ & _ & _ & Hhi & Hlo & _).
  exists r'. split; [exact Hn|].
  simpl in Hx, Hy. inversion Hx; subst x. inversion Hy; subst y.
  split; [apply Hhi | apply Hlo]; reflexivity.
Defined.

(** *** One station, two observations *)

(** C7.  When the rows of a station, by its key (station id, station name,
    latitude, longitude), are exactly two observations with regular prices
    120 and 140 that both have a premium price, the aggregated table has a
    row for the station whose mean regular price is 130, and the map is
    built.  When the aggregated regular prices of the stations are not all
    the same (min < max), the layer "Regular Gas Prices" of the map that
    [build_map] returns has a marker at the station's coordinates whose
    popup reads "Station: <name><br>Regular Price: 130.00" and whose colour
    is that of 130 on the regular scale; otherwise the map has no such
    layer, and the mean is displayed nowhere. *)
Theorem two_observations_mean_130
        (l : list Row) (k : Key) (r1 r2 : Row) (p1 p2 : Q) (w : World) :
  key_of r1 = Some k ->
  filter (in_group k) l = [r1; r2] ->
  Regular_Price r1 = Some 120%Q -> Regular_Price r2 = Some 140%Q ->
  Premium_Price r1 = Some p1 -> Premium_Price r2 = Some p2 ->
  let avg_prices := avg_prices_of (hm_local l) in
  exists agg m w',
    In agg avg_prices
    /\ key_eqb (a_key agg) k = true
    /\ a_regular agg = Some 130%Q
    /\ build_map avg_prices w = (Ok m, w')
    /\ (valid_range Regular avg_prices = true ->
        exists markers marker,
          In (FeatureGroup "Regular Gas Prices" markers) (map_children m)
          /\ In marker markers
          /\ mk_popup marker
             = ("Station: " ++ k_name k ++ "<br>Regular Price: 130.00")%string
          /\ mk_location marker = (k_lat (a_key agg), k_lon (a_key agg))
          /\ mk_color marker
             = ScaleColor (fuel_scale Regular avg_prices) (Some 130%Q)
          /\ mk_fill_color marker = mk_color marker)
    /\ (valid_range Regular avg_prices = false ->
        forall markers,
          ~ In (FeatureGroup "Regular Gas Prices" markers) (map_children m)).
Proof.
  intros Hk Hg R1 R2 P1 P2 avg_prices.
  assert (Hin1 : In r1 l).
  { assert (H : In r1 (filter (in_group k) l)) by (rewrite Hg; now left).
    apply filter_In in H. tauto. }
  assert (Hc : In (clip_row r1) (hm_local l)).
  { rewrite hm_local_map. apply in_map. apply dropna_prices_In.
    split; [exact Hin1|]. now exists 120%Q, p1. }
  destruct (avg_prices_group (hm_local l) (clip_row r1) (k := k) Hc Hk)
    as (agg & Hagg & Heq & _ & Hr & _).
  assert (Hne : avg_prices <> []).
  { intro E0. fold avg_prices in Hagg. rewrite E0 in Hagg. destruct Hagg. }
  exists agg. eexists. eexists.
  split; [exact Hagg|]. split; [exact Heq|].
  assert (Hmean : a_regular agg = Some 130%Q).
  { rewrite Hr, group_of_hm_local, Hg.
    unfold Pandas.dropna_prices. simpl. rewrite R1, R2, P1, P2. simpl.
    rewrite R1, R2. reflexivity. }
  split; [exact Hmean|].
  split; [apply (@build_map_run avg_prices w Hne)|].
  cbn [map_children]. split.
  - intro Hv. exists (fuel_markers Regular avg_prices).
    exists (circle_marker agg (regular_popup agg)
              (ScaleColor (fuel_scale Regular avg_prices) (Some 130%Q))).
    split.
    { unfold fuel_children at 1. rewrite Hv. now left. }
    split.
    { unfold fuel_markers. apply in_map_iff. exists agg.
      split; [|exact Hagg]. simpl. now rewrite Hmean. }
    split.
    { simpl. unfold regular_popup. rewrite Hmean.
      apply key_eqb_parts in Heq. destruct Heq as (_ & -> & _). reflexivity. }
    repeat split.
  - intros Hv markers H. unfold fuel_children at 1 in H. rewrite Hv in H.
    simpl in H. unfold fuel_children in H.
    destruct (valid_range Premium avg_prices); simpl in H;
      repeat (destruct H as [H | H]; [discriminate H|]); exact H.
Qed.

Lemma two_observations_mean_130_witness :
  key_of (nth 0 sample_located blank_row) = Some main_st_key
  /\ filter (in_group main_st_key) sample_located
     = [nth 0 sample_located blank_row; nth 1 sample_located blank_row]
  /\ map Regular_Price (filter (in_group main_st_key) sample_located)
     = [Some 120%Q; Some 140%Q]
  /\ valid_range Regular (avg_prices_of (hm_local sample_located)) = true
  /\ exists m w' markers marker,
       build_map (avg_prices_of (hm_local sample_located)) empty_world
       = (Ok m, w')
       /\ In (FeatureGroup "Regular Gas Prices" markers) (map_children m)
       /\ In marker markers
       /\ mk_popup marker
          = "Station: Main St Gas<br>Regular Price: 130.00"%string.
Proof.
  split; [reflexivity|]. split; [reflexivity|]. split; [reflexivity|].
  split; [reflexivity|].
  destruct (@two_observations_mean_130 sample_located main_st_key
              (nth 0 sample_located blank_row) (nth 1 sample_located blank_row)
              160%Q 180%Q empty_world
              eq_refl eq_refl eq_refl eq_refl eq_refl eq_refl)
    as (agg & m & w' & _ & _ & _ & Hb & Hyes & _).
  destruct (Hyes eq_refl) as (markers & marker & Hl & Hm & Hp & _).
  exists m, w', markers, marker.
  split; [exact Hb|]. split; [exact Hl|]. split; [exact Hm | exact Hp].
Defined.

(** A station with exactly two observations at 120 and 140 whose mean is
    displayed nowhere, and one whose mean is not 130.  In the table of one
    station the aggregated table has the single mean 130, so [min < max]
    fails and the map has no marker at all.  In the table where the
    observation at 120 lacks its premium price, line 89 drops that row and
    the station's mean, and popup, is 140.00. *)
Lemma lone_station_has_no_popup :
  (let l := with_coordinates sample_env one_station_table in
   filter (in_group main_st_key) l = l
   /\ map Regular_Price l = [Some 120%Q; Some 140%Q]
   /\ map a_regular (avg_prices_of (hm_local l)) = [Some 130%Q]
   /\ exists m w',
        build_map (avg_prices_of (hm_local l)) empty_world = (Ok m, w')
        /\ map_children m = [LayerControl]
        /\ log w' = [MsgInvalidThresholds "regular" (Some 130%Q) (Some 130%Q);
                     MsgInvalidThresholds "premium" (Some 170%Q) (Some 170%Q)])
  /\ (let l := with_coordinates sample_env half_priced_table in
      map Regular_Price (filter (in_group main_st_key) l)
      = [Some 120%Q; Some 140%Q]
      /\ map (fun a => (k_id (a_key a), a_regular a))
             (avg_prices_of (hm_local l))
         = [("S1"%string, Some 140%Q); ("S2"%string, Some 150%Q)]
      /\ exists m w' markers,
           build_map (avg_prices_of (hm_local l)) empty_world = (Ok m, w')
           /\ In (FeatureGroup "Regular Gas Prices" markers) (map_children m)
           /\ map mk_popup markers
              = ["Station: Main St Gas<br>Regular Price: 140.00";
                 "Station: Hill Fuel<br>Regular Price: 150.00"]%string).
Proof.
  split.
  - cbv zeta. split; [reflexivity|]. split; [reflexivity|].
    split; [reflexivity|].
    eexists. eexists. split.
    + apply build_map_run. intro H. apply (f_equal (@length AggRow)) in H.
      discriminate H.
    + split; reflexivity.
  - cbv zeta. split; [reflexivity|]. split; [reflexivity|].
    eexists. eexists. eexists. split.
    + apply build_map_run. intro H. apply (f_equal (@length AggRow)) in H.
      discriminate H.
    + split; [left; reflexivity | reflexivity].
Qed.

(** *** Rows without a timestamp in the heat map *)

(** C9.  The heat-map aggregation does not look at "Query Time": a row of
    the frame whose timestamp is missing or does not parse, whose Location
    cell gave its two coordinates (so that the row has a group key) and whose
    two prices are present, is one of the rows averaged for its station --
    its clipped prices are among the values of the group whose means make the
    station's row of [avg_prices]. *)
Theorem heat_map_keeps_untimed_rows
        (E : Env) (l : list Row) (r : Row) (k : Key) (x y : Q) :
  In r l ->
  Pandas.to_datetime E (Query_Time r) = NaT ->
  key_of r = Some k ->
  Regular_Price r = Some x -> Premium_Price r = Some y ->
  exists agg,
    let group := filter (in_group (a_key agg)) (hm_local l) in
    In agg (avg_prices_of (hm_local l))
    /\ key_eqb (a_key agg) k = true
    /\ In (clip_row r) group
    /\ Query_Time (clip_row r) = Query_Time r
    /\ In (Some (Num.clip 100 200 x)) (map Regular_Price group)
    /\ In (Some (Num.clip 150 250 y)) (map Premium_Price group)
    /\ a_regular agg = Num.mean (map Regular_Price group)
    /\ a_premium agg = Num.mean (map Premium_Price group).
Proof.
  intros Hin _ Hk Hx Hy.
  assert (Hc : In (clip_row r) (hm_local l)).
  { rewrite hm_local_map. apply in_map. apply dropna_prices_In.
    split; [exact Hin|]. now exists x, y. }
  destruct (avg_prices_group (hm_local l) (clip_row r) (k := k) Hc Hk)
    as (agg & Hagg & Heq & Hf & Hr & Hp).
  exists agg. cbv zeta. rewrite Hf.
  assert (Hg : In (clip_row r) (filter (in_group k) (hm_local l))).
  { apply filter_In. split; [exact Hc|].
    unfold in_group.
    change (key_of (clip_row r)) with (key_of r).
    rewrite Hk. apply key_eqb_refl. }
  split; [exact Hagg|]. split; [exact Heq|]. split; [exact Hg|].
  split; [reflexivity|].
  split. { apply in_map_iff. exists (clip_row r). split; [|exact Hg].
           simpl. now rewrite Hx. }
  split. { apply in_map_iff. exists (clip_row r). split; [|exact Hg].
           simpl. now rewrite Hy. }
  split; assumption.
Qed.

Lemma heat_map_keeps_untimed_rows_witness :
  In (nth 1 sample_shared blank_row) sample_shared
  /\ Query_Time (nth 1 sample_shared blank_row) = NaT
  /\ key_of (nth 1 sample_shared blank_row) = Some main_st_key
  /\ exists agg,
       In agg (avg_prices_of (hm_local sample_shared))
       /\ key_eqb (a_key agg) main_st_key = true
       /\ In (Some 140%Q)
             (map Regular_Price
                  (filter (in_group (a_key agg)) (hm_local sample_shared)))
       /\ a_regular agg
          = Num.mean (map Regular_Price
                          (filter (in_group (a_key agg))
                                  (hm_local sample_shared))).
Proof.
  assert (Hin : In (nth 1 sample_shared blank_row) sample_shared)
    by (right; left; reflexivity).
  split; [exact Hin|]. split; [reflexivity|]. split; [reflexivity|].
  destruct (@heat_map_keeps_untimed_rows sample_env sample_shared
              (nth 1 sample_shared blank_row) main_st_key 140%Q 180%Q
              Hin eq_refl eq_refl eq_refl eq_refl)
    as (agg & Ha & Hk & _ & _ & Hr & _ & Hm & _).
  exists agg. split; [exact Ha|]. split; [exact Hk|].
  split; [exact Hr | exact Hm].
Defined.

(** *** Cells of a pivot table *)

Lemma position_nth_map (g : string -> option Q) (cols : list string)
      (tag : string) :
  In tag cols ->
  exists j, Pandas.position tag cols = Some j
            /\ nth j (map g cols) None = g tag.
Proof.
  induction cols as [|c cols IH]; intro H; [destruct H|].
  simpl. destruct (String.eqb_spec c tag) as [-> | N].
  - exists O. split; reflexivity.
  - destruct H as [H | H]; [congruence|].
    destruct (IH H) as (j & Hj & Hn). exists (S j). rewrite Hj. split;
      [reflexivity | exact Hn].
Qed.

Lemma line_at_map (f : Z -> list (option Q)) (idx : list Z) (d : Z) :
  In d idx -> Pandas.line_at idx (map f idx) d = Some (f d).
Proof.
  induction idx as [|d' idx IH]; intro H; [destruct H|].
  simpl. destruct (Z.eqb_spec d' d) as [-> | N]; [reflexivity|].
  destruct H as [H | H]; [congruence|]. now apply IH.
Qed.

Lemma group_keys_In (l : list Row) (d : Z) (tag : string) :
  In (d, tag) (Pandas.group_keys l) <->
  exists r, In r l /\ Date r = Some d /\ Time_Tag r = tag.
Proof.
  induction l as [|a l IH]; simpl.
  - split; [intros [] | intros (r & [] & _)].
  - destruct (Date a) as [da|] eqn:Da; simpl; rewrite IH; split.
    + intros [H | (r & Hr & Hd & Ht)].
      * inversion H; subst. exists a. auto.
      * exists r. auto.
    + intros (r & [<- | Hr] & Hd & Ht).
      * left. congruence.
      * right. now exists r.
    + intros (r & Hr & Hd & Ht). exists r. auto.
    + intros (r & [<- | Hr] & Hd & Ht); [congruence|]. now exists r.
Qed.

Lemma Z_eqb_trans (x y z : Z) :
  (x =? y)%Z = true -> (y =? z)%Z = true -> (x =? z)%Z = true.
Proof. rewrite !Z.eqb_eq. congruence. Qed.

Lemma string_eqb_trans (x y z : string) :
  String.eqb x y = true -> String.eqb y z = true -> String.eqb x z = true.
Proof. rewrite !String.eqb_eq. congruence. Qed.

(** A group with a mean has its cell in the pivot table, and the cell is
    the mean of the group. *)
Lemma pivot_table_cell (values : Row -> option Q) (l : list Row) (r : Row)
      (d : Z) (m : Q) :
  In r l -> Date r = Some d ->
  Num.mean (Pandas.group_cells values l d (Time_Tag r)) = Some m ->
  Pandas.lookup (Pandas.pivot_table values l) d (Time_Tag r) = Some (Some m).
Proof.
  intros Hr Hd Hm.
  set (kept := filter (fun k => negb (Pandas.isna
                (Num.mean (Pandas.group_cells values l (fst k) (snd k)))))
               (Pandas.group_keys l)).
  assert (Hk : In (d, Time_Tag r) kept).
  { apply filter_In. split.
    - apply group_keys_In. now exists r.
    - simpl. now rewrite Hm. }
  assert (Hi : In d (sort_unique Z.eqb Z.leb (map fst kept))).
  { destruct (sort_unique_covers Z.eqb Z.leb Z.eqb_refl Z_eqb_trans
                (map fst kept) d) as (d0 & H0 & E0).
    - apply in_map_iff. now exists (d, Time_Tag r).
    - apply Z.eqb_eq in E0. now subst d0. }
  assert (Hc : In (Time_Tag r)
                  (sort_unique String.eqb String.leb (map snd kept))).
  { destruct (sort_unique_covers String.eqb String.leb String.eqb_refl
                string_eqb_trans (map snd kept) (Time_Tag r))
      as (t0 & H0 & E0).
    - apply in_map_iff. now exists (d, Time_Tag r).
    - apply String.eqb_eq in E0. now subst t0. }
  unfold Pandas.lookup, Pandas.pivot_table. fold kept. simpl.
  rewrite (line_at_map _ _ d Hi).
  destruct (position_nth_map
              (fun tag => Num.mean (Pandas.group_cells values l d tag))
              _ _ Hc) as (j & Hj & Hn).
  rewrite Hj, Hn, Hm. reflexivity.
Qed.

(** *** The end-to-end scenario *)

Lemma dt_date_Some (c : TimeCell) (d : Z) :
  Pandas.dt_date c = Some d -> exists t, c = TStamp t.
Proof.
  destruct c as [s|t|]; simpl; intro H; try discriminate. now exists t.
Qed.

Arguments Pandas.dt_date c : simpl never.

Lemma scenario_local (E : Env) (id name address location : string)
      (q1 q2 q3 : TimeCell) (d d' : Z) :
  Pandas.dt_date (Pandas.to_datetime E q1) = Some d ->
  Pandas.dt_date (Pandas.to_datetime E q2) = Some d ->
  Pandas.dt_date (Pandas.to_datetime E q3) = Some d' ->
  ts_local (coerce_Query_Time E
     [observation id name address location "Morning" q1 (Some 110) (Some 160);
      observation id name address location "morning " q2 (Some 130) (Some 180);
      observation id name address location "Evening" q3 (Some 999) (Some 5)])
  = [mkRow id name address location "morning" (Pandas.to_datetime E q1)
           (Some 110) (Some 160) (Some d) None None;
     mkRow id name address location "morning" (Pandas.to_datetime E q2)
           (Some 130) (Some 180) (Some d) None None;
     mkRow id name address location "evening" (Pandas.to_datetime E q3)
           (Some 999) (Some 5) (Some d') None None].
Proof.
  intros H1 H2 H3.
  destruct (dt_date_Some _ H1) as [t1 T1].
  destruct (dt_date_Some _ H2) as [t2 T2].
  destruct (dt_date_Some _ H3) as [t3 T3].
  rewrite T1 in H1. rewrite T2 in H2. rewrite T3 in H3.
  unfold ts_local, coerce_Query_Time, Pandas.dropna_Query_Time, observation.
  simpl. rewrite T1, T2, T3. simpl.
  rewrite H1, H2, H3. reflexivity.
Qed.

(** C1, as the code has it.  For the three rows of the scenario, the first
    two on one date [d] and the third on a date [d']: the tags of the first
    two rows both normalise to "morning" and the pivots of [plotTimeGraph]
    hold one "morning" cell at [d], mean regular price 120 and mean premium
    price 170; the "evening" cell at [d'] is computed from the prices as they
    are, regular 999 and premium 5, because [plotTimeGraph] does not clip.
    The clipping to 200 and to 150 is made by [plotHeatMap], on its own copy
    of the rows. *)
Theorem scenario_time_series_unclipped
        (E : Env) (id name address location : string)
        (q1 q2 q3 : TimeCell) (d d' : Z) :
  Pandas.dt_date (Pandas.to_datetime E q1) = Some d ->
  Pandas.dt_date (Pandas.to_datetime E q2) = Some d ->
  Pandas.dt_date (Pandas.to_datetime E q3) = Some d' ->
  let table :=
    [observation id name address location "Morning" q1 (Some 110) (Some 160);
     observation id name address location "morning " q2 (Some 130) (Some 180);
     observation id name address location "Evening" q3 (Some 999) (Some 5)] in
  let local := ts_local (coerce_Query_Time E table) in
  map Time_Tag local = ["morning"; "morning"; "evening"]%string
  /\ Pandas.lookup (pivot_regular local) d "morning" = Some (Some 120%Q)
  /\ Pandas.lookup (pivot_premium local) d "morning" = Some (Some 170%Q)
  /\ Pandas.lookup (pivot_regular local) d' "evening" = Some (Some 999%Q)
  /\ Pandas.lookup (pivot_premium local) d' "evening" = Some (Some 5%Q)
  /\ map Regular_Price (hm_local table) = [Some 110%Q; Some 130%Q; Some 200%Q]
  /\ map Premium_Price (hm_local table) = [Some 160%Q; Some 180%Q; Some 150%Q].
Proof.
  intros H1 H2 H3 table local. subst local table.
  rewrite (scenario_local E id name address location q1 q2 q3 H1 H2 H3).
  set (m := mkRow id name address location "morning" (Pandas.to_datetime E q1)
                  (Some 110%Q) (Some 160%Q) (Some d) None None).
  set (e := mkRow id name address location "evening" (Pandas.to_datetime E q3)
                  (Some 999%Q) (Some 5%Q) (Some d') None None).
  split; [reflexivity|].
  split.
  { apply (@pivot_table_cell Regular_Price _ m d 120%Q);
      [now left | reflexivity |].
    unfold Pandas.group_cells. simpl.
    rewrite ?Z.eqb_refl, ?andb_false_r. reflexivity. }
  split.
  { apply (@pivot_table_cell Premium_Price _ m d 170%Q);
      [now left | reflexivity |].
    unfold Pandas.group_cells. simpl.
    rewrite ?Z.eqb_refl, ?andb_false_r. reflexivity. }
  split.
  { apply (@pivot_table_cell Regular_Price _ e d' 999%Q);
      [right; right; now left | reflexivity |].
    unfold Pandas.group_cells. simpl.
    rewrite ?Z.eqb_refl, ?andb_false_r. reflexivity. }
  split.
  { apply (@pivot_table_cell Premium_Price _ e d' 5%Q);
      [right; right; now left | reflexivity |].
    unfold Pandas.group_cells. simpl.
    rewrite ?Z.eqb_refl, ?andb_false_r. reflexivity. }
  split; reflexivity.
Qed.

Lemma scenario_time_series_unclipped_witness :
  Pandas.dt_date (Pandas.to_datetime sample_env (TText "2024-05-01 08:00:00"))
  = Some 19844%Z
  /\ Pandas.dt_date (Pandas.to_datetime sample_env (TText "2024-05-01 19:30:00"))
     = Some 19844%Z
  /\ Pandas.lookup
       (pivot_regular (ts_local (coerce_Query_Time sample_env scenario_table)))
       19844 "morning" = Some (Some 120%Q)
  /\ Pandas.lookup
       (pivot_regular (ts_local (coerce_Query_Time sample_env scenario_table)))
       19844 "evening" = Some (Some 999%Q).
Proof.
  split; [reflexivity|]. split; [reflexivity|].
  pose proof
    (@scenario_time_series_unclipped sample_env "S1" "Main St Gas" "1 Main St"
       sample_location (TText "2024-05-01 08:00:00")
       (TText "2024-05-01 08:00:00") (TText "2024-05-01 19:30:00")
       19844 19844 eq_refl eq_refl eq_refl)
    as (_ & Hm & _ & He & _).
  split; [exact Hm | exact He].
Defined.

(** On the scenario the "evening" cells of the time-series pivots are 999
    and 5: no pair of cells equal to the clipped 200 and 150 is there. *)
Lemma scenario_evening_point_is_not_clipped :
  Pandas.lookup
    (pivot_regular (ts_local (coerce_Query_Time sample_env scenario_table)))
    19844 "evening" = Some (Some 999%Q)
  /\ Pandas.lookup
       (pivot_premium (ts_local (coerce_Query_Time sample_env scenario_table)))
       19844 "evening" = Some (Some 5%Q)
  /\ ~ (exists regular premium,
          Pandas.lookup
            (pivot_regular
               (ts_local (coerce_Query_Time sample_env scenario_table)))
            19844 "evening" = Some (Some regular)
          /\ Pandas.lookup
               (pivot_premium
                  (ts_local (coerce_Query_Time sample_env scenario_table)))
               19844 "evening" = Some (Some premium)
          /\ (regular == 200)%Q /\ (premium == 150)%Q).
Proof.
  split; [reflexivity|]. split; [reflexivity|].
  intros (regular & premium & Hr & _ & Er & _).
  vm_compute in Hr. inversion Hr; subst regular. discriminate Er.
Qed.

(** *** The frame the renderers share *)

(** C2, on a table of three rows.  The renderers do not work on independent
    copies of the loaded table: the frame [plotHeatMap] receives has the
    "Query Time" column as [plotTimeGraph] converted it (the text that does
    not parse has become NaT), and the frame [plotInteractive] receives has
    in addition the "Latitude" and "Longitude" columns [plotHeatMap] added.
    The tag normalisation and the clipping, made after a rebinding, are not
    seen. *)
Theorem renderers_share_the_loaded_frame :
  let loaded := mkFrame loaded_columns two_station_table in
  let for_heat_map :=
    received (script_until_plotHeatMap sample_env two_station_table
                                       empty_world) in
  let for_interactive :=
    received (script_until_plotInteractive sample_env two_station_table
                                           empty_world) in
  for_heat_map
  = Some (mkFrame loaded_columns
                  (coerce_Query_Time sample_env two_station_table))
  /\ for_heat_map <> Some loaded
  /\ map Query_Time two_station_table
     = [TText "2024-05-01 08:00:00"; TText "not recorded";
        TText "2024-05-01 08:00:00"]
  /\ option_map (fun f => map Query_Time (rows f)) for_heat_map
     = Some [TStamp 1714550400000000000; NaT; TStamp 1714550400000000000]
  /\ has_column "Latitude" loaded = false
  /\ option_map (has_column "Latitude") for_interactive = Some true
  /\ option_map (has_column "Longitude") for_interactive = Some true
  /\ option_map (fun f => map Latitude (rows f)) for_interactive
     = Some [Some (4365 # 100); Some (4365 # 100); Some (437 # 10)]
  /\ option_map (fun f => map Time_Tag (rows f)) for_interactive
     = Some (map Time_Tag two_station_table)
  /\ option_map (fun f => map Regular_Price (rows f)) for_interactive
     = Some (map Regular_Price two_station_table).
Proof.
  cbv zeta. repeat split; try reflexivity.
  intro H. vm_compute in H. discriminate H.
Qed.

(** The same in general: whatever the table, [plotHeatMap] is called on the
    frame with the converted "Query Time" column. *)
Lemma plotHeatMap_receives_coerced_frame
      (E : Env) (table : list Row) (files : string -> option Artifact)
      (lines : list LogMsg) :
  received (script_until_plotHeatMap E table (initial_world files lines))
  = Some (mkFrame loaded_columns (coerce_Query_Time E table)).
Proof.
  unfold script_until_plotHeatMap, bind at 1, logging_debug at 1.
  cbv beta iota.
  unfold bind at 1, read_excel, new_object. cbv beta iota.
  simpl length. simpl app.
  set (w0 := mkWorld _ _ _ _).
  destruct (plotTimeGraph_run E 0 w0 (f := mkFrame loaded_columns table)
                              eq_refl)
    as (w1 & R1 & H1 & _).
  rewrite (@bind_Ok _ _ _ _ _ _ _ R1).
  subst w0. simpl in H1. unfold ret, received. now rewrite H1.
Qed.

(** *** Tag normalisation *)

Lemma is_space_lower (c : ascii) :
  PyStr.is_space (PyStr.lower_ascii c) = PyStr.is_space c.
Proof. destruct c as [[] [] [] [] [] [] [] []]; reflexivity. Qed.

Lemma lower_ascii_idem (c : ascii) :
  PyStr.lower_ascii (PyStr.lower_ascii c) = PyStr.lower_ascii c.
Proof. destruct c as [[] [] [] [] [] [] [] []]; reflexivity. Qed.

Lemma lower_idem (s : string) : PyStr.lower (PyStr.lower s) = PyStr.lower s.
Proof.
  induction s as [|c s IH]; [reflexivity|].
  simpl. now rewrite lower_ascii_idem, IH.
Qed.

Lemma lstrip_lower (s : string) :
  PyStr.lstrip (PyStr.lower s) = PyStr.lower (PyStr.lstrip s).
Proof.
  induction s as [|c s IH]; [reflexivity|].
  simpl. rewrite is_space_lower. now destruct (PyStr.is_space c).
Qed.

Lemma rstrip_lower (s : string) :
  PyStr.rstrip (PyStr.lower s) = PyStr.lower (PyStr.rstrip s).
Proof.
  induction s as [|c s IH]; [reflexivity|].
  simpl. rewrite IH, is_space_lower.
  destruct (PyStr.rstrip s); simpl; [now destruct (PyStr.is_space c)|].
  reflexivity.
Qed.

Lemma rstrip_idem (s : string) : PyStr.rstrip (PyStr.rstrip s) = PyStr.rstrip s.
Proof.
  induction s as [|c s IH]; [reflexivity|].
  simpl. destruct (PyStr.rstrip s) as [|c' t] eqn:R.
  - destruct (PyStr.is_space c) eqn:Sp; simpl; [reflexivity|].
    now rewrite Sp.
  - simpl. simpl in IH. now rewrite IH.
Qed.

Lemma lstrip_rstrip_lstrip (s : string) :
  PyStr.lstrip (PyStr.rstrip (PyStr.lstrip s)) = PyStr.rstrip (PyStr.lstrip s).
Proof.
  induction s as [|c s IH]; [reflexivity|].
  simpl. destruct (PyStr.is_space c) eqn:Sp; [exact IH|].
  simpl. destruct (PyStr.rstrip s); rewrite ?Sp; simpl; now rewrite Sp.
Qed.

Lemma strip_idem (s : string) : PyStr.strip (PyStr.strip s) = PyStr.strip s.
Proof.
  unfold PyStr.strip. now rewrite lstrip_rstrip_lstrip, rstrip_idem.
Qed.

Lemma strip_lower (s : string) :
  PyStr.strip (PyStr.lower s) = PyStr.lower (PyStr.strip s).
Proof.
  unfold PyStr.strip. now rewrite lstrip_lower, rstrip_lower.
Qed.

(** X1.  [.str.lower().str.strip()] is idempotent, and its result is left
    alone by [lower] and by [strip] taken apart: a tag that has been
    normalised has no ASCII capital and no white space at either end, so the
    normalisation of lines 34 and 198 gives the same tag on a table that was
    normalised before. *)
Theorem normalize_tag_is_idempotent (s : string) :
  Pandas.normalize_tag (Pandas.normalize_tag s) = Pandas.normalize_tag s
  /\ PyStr.lower (Pandas.normalize_tag s) = Pandas.normalize_tag s
  /\ PyStr.strip (Pandas.normalize_tag s) = Pandas.normalize_tag s.
Proof.
  unfold Pandas.normalize_tag. repeat split.
  - now rewrite strip_lower, strip_idem, <- strip_lower, lower_idem.
  - now rewrite <- strip_lower, lower_idem.
  - apply strip_idem.
Qed.

(** *** The cells of the time-series pivots *)

Lemma position_Some_nth (g : string -> option Q) (cols : list string)
      (tag : string) (j : nat) :
  Pandas.position tag cols = Some j -> nth j (map g cols) None = g tag.
Proof.
  revert j. induction cols as [|c cols IH]; intros j H; [discriminate|].
  simpl in H. destruct (String.eqb_spec c tag) as [-> | N].
  - inversion H. reflexivity.
  - destruct (Pandas.position tag cols) as [j'|]; [|discriminate].
    inversion H. simpl. now apply IH.
Qed.

Lemma line_at_map_Some (f : Z -> list (option Q)) (idx : list Z) (d : Z)
      (line : list (option Q)) :
  Pandas.line_at idx (map f idx) d = Some line -> line = f d /\ In d idx.
Proof.
  induction idx as [|d' idx IH]; intro H; [discriminate|].
  simpl in H. destruct (Z.eqb_spec d' d) as [-> | N].
  - inversion H. split; [reflexivity | now left].
  - destruct (IH H) as [L I]. split; [exact L | now right].
Qed.

Lemma lookup_sound (values : Row -> option Q) (l : list Row) (d : Z)
      (tag : string) (c : option Q) :
  Pandas.lookup (Pandas.pivot_table values l) d tag = Some c ->
  c = Num.mean (Pandas.group_cells values l d tag).
Proof.
  unfold Pandas.lookup, Pandas.pivot_table. simpl.
  destruct (Pandas.position tag _) as [j|] eqn:P; [|discriminate].
  destruct (Pandas.line_at _ _ d) as [line|] eqn:L; [|discriminate].
  intro H. inversion H; subst c.
  apply line_at_map_Some in L. destruct L as [-> _].
  now rewrite (position_Some_nth _ _ _ P).
Qed.

Lemma to_datetime_not_text (E : Env) (c : TimeCell) (s : string) :
  Pandas.to_datetime E c <> TText s.
Proof.
  destruct c as [s'|t|]; simpl; try discriminate.
  destruct (parse_datetime E s'); discriminate.
Qed.

Lemma group_cells_of_table (E : Env) (values : Row -> option Q)
      (table : list Row) (d : Z) (tag : string) :
  (forall r q dd t,
      values (set_Time_Tag t (set_Date dd (set_Query_Time q r))) = values r) ->
  Pandas.group_cells values (ts_local (coerce_Query_Time E table)) d tag
  = map values (table_group E table d tag).
Proof.
  intro Hv.
  unfold Pandas.group_cells, ts_local, coerce_Query_Time,
    Pandas.dropna_Query_Time, table_group.
  induction table as [|r table IH]; [reflexivity|].
  simpl.
  destruct (Pandas.to_datetime E (Query_Time r)) as [s|t|] eqn:T.
  - exfalso. exact (to_datetime_not_text E _ T).
  - simpl.
    destruct ((t / Pandas.ns_per_day =? d)%Z
              && String.eqb (Pandas.normalize_tag (Time_Tag r)) tag).
    + simpl. rewrite Hv. f_equal. exact IH.
    + exact IH.
  - simpl. exact IH.
Qed.

Lemma mean_Some_has_row (values : Row -> option Q) (l : list Row) (m : Q) :
  Num.mean (map values l) = Some m -> exists r, In r l /\ values r <> None.
Proof.
  unfold Num.mean. induction l as [|r l IH]; simpl; [discriminate|].
  destruct (values r) as [v|] eqn:V.
  - intros _. exists r. split; [now left | congruence].
  - intro H. destruct (IH H) as (r' & Hr & Hv). exists r'. auto.
Qed.

(** X2.  On a loaded table, the cell of either pivot of [plotTimeGraph] at a
    date and a tag is the mean of the prices -- as loaded, missing ones
    skipped -- of the rows whose "Query Time" converts to a timestamp of
    that date and whose tag normalises to that tag: every cell the pivot has
    is that mean, and every such group with a mean has its cell. *)
Theorem pivot_cell_is_mean_of_table_group
        (E : Env) (table : list Row) (d : Z) (tag : string) :
  let local := ts_local (coerce_Query_Time E table) in
  (forall c, Pandas.lookup (pivot_regular local) d tag = Some c ->
             c = Num.mean (map Regular_Price (table_group E table d tag)))
  /\ (forall m, Num.mean (map Regular_Price (table_group E table d tag)) = Some m ->
                Pandas.lookup (pivot_regular local) d tag = Some (Some m))
  /\ (forall c, Pandas.lookup (pivot_premium local) d tag = Some c ->
                c = Num.mean (map Premium_Price (table_group E table d tag)))
  /\ (forall m, Num.mean (map Premium_Price (table_group E table d tag)) = Some m ->
                Pandas.lookup (pivot_premium local) d tag = Some (Some m)).
Proof.
  intro local. subst local.
  assert (G : forall values : Row -> option Q,
             (forall r q dd t,
                 values (set_Time_Tag t (set_Date dd (set_Query_Time q r)))
                 = values r) ->
             (forall c,
                 Pandas.lookup
                   (Pandas.pivot_table values
                      (ts_local (coerce_Query_Time E table))) d tag = Some c ->
                 c = Num.mean (map values (table_group E table d tag)))
             /\ (forall m,
                    Num.mean (map values (table_group E table d tag)) = Some m ->
                    Pandas.lookup
                      (Pandas.pivot_table values
                         (ts_local (coerce_Query_Time E table))) d tag
                    = Some (Some m))).
  { intros values Hv. split.
    - intros c H. apply lookup_sound in H.
      now rewrite (group_cells_of_table E values table d tag Hv) in H.
    - intros m H.
      rewrite <- (group_cells_of_table E values table d tag Hv) in H.
      pose proof H as H'. unfold Pandas.group_cells in H'.
      apply mean_Some_has_row in H'. destruct H' as (r & Hr & _).
      apply filter_In in Hr. destruct Hr as [Hr Hc].
      destruct (Date r) as [d'|] eqn:D; [|discriminate].
      apply andb_true_iff in Hc. destruct Hc as [Hd Ht].
      apply Z.eqb_eq in Hd. apply String.eqb_eq in Ht. subst d' tag.
      now apply (@pivot_table_cell values _ r d m). }
  destruct (G Regular_Price) as [R1 R2]; [reflexivity|].
  destruct (G Premium_Price) as [P1 P2]; [reflexivity|].
  unfold pivot_regular, pivot_premium. repeat split; assumption.
Qed.

Lemma pivot_cell_is_mean_of_table_group_witness :
  map Regular_Price (table_group sample_env scenario_table 19844 "morning")
  = [Some 110%Q; Some 130%Q]
  /\ Pandas.lookup
       (pivot_regular (ts_local (coerce_Query_Time sample_env scenario_table)))
       19844 "morning" = Some (Some 120%Q).
Proof.
  split; [reflexivity|].
  apply (proj1 (proj2 (@pivot_cell_is_mean_of_table_group
                         sample_env scenario_table 19844 "morning"))).
  reflexivity.
Defined.

(** *** Sorted lists of distinct values *)

Section SortFacts.
Variable A : Type.
Variable eqb : A -> A -> bool.
Variable leb : A -> A -> bool.
Hypothesis eqb_sym : forall x y, eqb x y = eqb y x.
Hypothesis leb_total : forall x y, leb x y = false -> leb y x = true.


Lemma pairwise_filter (p : A -> bool) (l : list A) :
  ForallOrdPairs (fun a b => eqb a b = false) l -> ForallOrdPairs (fun a b => eqb a b = false) (filter p l).
Proof.
  induction 1 as [|a l Ha Hl IH]; simpl; [constructor|].
  destruct (p a); [|exact IH]. constructor; [|exact IH].
  apply Forall_forall. intros x Hx. apply filter_In in Hx.
  rewrite Forall_forall in Ha. apply Ha. tauto.
Qed.

Lemma pairwise_unique (l : list A) : ForallOrdPairs (fun a b => eqb a b = false) (unique eqb l).
Proof.
  induction l as [|a l IH]; simpl; constructor.
  - apply Forall_forall. intros x Hx. apply filter_In in Hx.
    destruct Hx as [_ Hx]. now apply negb_true_iff in Hx.
  - now apply pairwise_filter.
Qed.

Lemma pairwise_insert (x : A) (l : list A) :
  Forall (fun b => eqb x b = false) l -> ForallOrdPairs (fun a b => eqb a b = false) l ->
  ForallOrdPairs (fun a b => eqb a b = false) (insert_sorted leb x l).
Proof.
  intros Hx Hl. induction Hl as [|a l Ha Hl IH]; simpl.
  - constructor; [constructor | constructor].
  - destruct (leb x a).
    + constructor; [exact Hx | now constructor].
    + inversion Hx as [|? ? Hxa Hxl]; subst.
      constructor; [|now apply IH].
      apply Forall_forall. intros y Hy.
      apply insert_sorted_In in Hy. destruct Hy as [-> | Hy].
      * simpl in Hxa. now rewrite eqb_sym.
      * rewrite Forall_forall in Ha. now apply Ha.
Qed.

Lemma pairwise_sort (l : list A) :
  ForallOrdPairs (fun a b => eqb a b = false) l -> ForallOrdPairs (fun a b => eqb a b = false) (sort leb l).
Proof.
  induction 1 as [|a l Ha Hl IH]; simpl; [constructor|].
  apply pairwise_insert; [|exact IH].
  apply Forall_forall. intros y Hy.
  apply (proj1 (sort_In leb y l)) in Hy.
  rewrite Forall_forall in Ha. now apply Ha.
Qed.

Lemma pairwise_sort_unique (l : list A) :
  ForallOrdPairs (fun a b => eqb a b = false) (sort_unique eqb leb l).
Proof. unfold sort_unique. apply pairwise_sort. apply pairwise_unique. Qed.

Lemma sorted_insert (x : A) (l : list A) :
  Sorted (fun a b => leb a b = true) l -> Sorted (fun a b => leb a b = true) (insert_sorted leb x l).
Proof.
  induction 1 as [|a l Hl IH Ha]; simpl.
  - constructor; constructor.
  - destruct (leb x a) eqn:L.
    + constructor; [now constructor | now constructor].
    + constructor; [exact IH|].
      destruct l as [|b l]; simpl.
      * constructor. now apply leb_total.
      * destruct (leb x b); constructor.
        -- now apply leb_total.
        -- now inversion Ha.
Qed.

Lemma sorted_sort (l : list A) : Sorted (fun a b => leb a b = true) (sort leb l).
Proof.
  induction l as [|a l IH]; simpl; [constructor|]. now apply sorted_insert.
Qed.

End SortFacts.

Lemma strictly_increasing (l : list Z) :
  Sorted (fun a b => Z.leb a b = true) l ->
  ForallOrdPairs (fun a b => Z.eqb a b = false) l ->
  Sorted Z.lt l.
Proof.
  induction 1 as [|a l Hl IH Ha]; intro P; [constructor|].
  inversion P as [|? ? Pa Pl]; subst.
  constructor; [now apply IH|].
  destruct Ha as [|b l Hab]; constructor.
  inversion Pa as [|? ? Pab _]; subst.
  apply Z.leb_le in Hab. apply Z.eqb_neq in Pab. lia.
Qed.

Lemma pivot_index_increasing (values : Row -> option Q) (l : list Row) :
  Sorted Z.lt (Pandas.p_index (Pandas.pivot_table values l)).
Proof.
  unfold Pandas.pivot_table. simpl. unfold sort_unique.
  apply strictly_increasing.
  - apply sorted_sort. intros x y H. apply Z.leb_le. apply Z.leb_gt in H. lia.
  - apply pairwise_sort; [apply Z.eqb_sym | apply pairwise_unique].
Qed.

Lemma mem_string_In (x : string) (l : list string) :
  mem String.eqb x l = true <-> In x l.
Proof.
  unfold mem. rewrite existsb_exists. split.
  - intros (y & Hy & E). apply String.eqb_eq in E. now subst.
  - intro H. exists x. split; [exact H | apply String.eqb_refl].
Qed.

Lemma pivot_column_length (values : Row -> option Q) (l : list Row)
      (tag : string) :
  Pandas.in_columns tag (Pandas.pivot_table values l) = true ->
  length (Pandas.column (Pandas.pivot_table values l) tag)
  = length (Pandas.p_index (Pandas.pivot_table values l)).
Proof.
  unfold Pandas.in_columns. rewrite mem_string_In. intro H.
  destruct (position_nth_map (fun _ => None) _ _ H) as (j & Hj & _).
  unfold Pandas.column. rewrite Hj.
  unfold Pandas.pivot_table. simpl. now rewrite !length_map.
Qed.

(** X3.  Every line [plotTimeGraph] plots is well formed: its x values are
    the dates of the pivot index in strictly increasing order, and it has
    exactly one y value per x value. *)
Theorem time_series_lines_are_well_formed (df : list Row) (line : Line) :
  In line (ts_lines_of df) ->
  Sorted Z.lt (l_x line) /\ length (l_y line) = length (l_x line).
Proof.
  unfold ts_lines_of. intro H. apply in_flat_map in H.
  destruct H as (tag & _ & H). apply in_app_or in H.
  unfold pivot_regular, pivot_premium in H.
  destruct H as [H | H].
  - destruct (Pandas.in_columns tag (Pandas.pivot_table Regular_Price df))
      eqn:C; [|destruct H].
    destruct H as [<- | []]. simpl. split.
    + apply pivot_index_increasing.
    + now apply pivot_column_length.
  - destruct (Pandas.in_columns tag (Pandas.pivot_table Premium_Price df))
      eqn:C; [|destruct H].
    destruct H as [<- | []]. simpl. split.
    + apply pivot_index_increasing.
    + now apply pivot_column_length.
Qed.

Lemma time_series_lines_are_well_formed_witness :
  In (mkLine [19844%Z] [Some 120%Q] "-" "Regular morning" "o")
     (ts_lines_of (ts_local (coerce_Query_Time sample_env scenario_table)))
  /\ Sorted Z.lt [19844%Z]
  /\ length [Some 120%Q] = length [19844%Z].
Proof.
  assert (H : In (mkLine [19844%Z] [Some 120%Q] "-" "Regular morning" "o")
                 (ts_lines_of
                    (ts_local (coerce_Query_Time sample_env scenario_table))))
    by (left; reflexivity).
  split; [exact H|].
  exact (@time_series_lines_are_well_formed _ _ H).
Defined.

(** *** Which tags get a line *)

Lemma mean_has_row_Some (values : Row -> option Q) (l : list Row) (r : Row) :
  In r l -> values r <> None -> Num.mean (map values l) <> None.
Proof.
  unfold Num.mean. induction l as [|a l IH]; intros Hr Hv; [destruct Hr|].
  simpl. destruct (values a) as [v|] eqn:V; [discriminate|].
  destruct Hr as [-> | Hr]; [congruence|]. now apply IH.
Qed.

Lemma in_columns_iff (values : Row -> option Q) (l : list Row) (tag : string) :
  Pandas.in_columns tag (Pandas.pivot_table values l) = true <->
  exists r, In r l /\ Date r <> None /\ Time_Tag r = tag /\ values r <> None.
Proof.
  unfold Pandas.in_columns. rewrite mem_string_In.
  unfold Pandas.pivot_table. simpl. split.
  - intro H. apply sort_unique_incl in H. apply in_map_iff in H.
    destruct H as ((d & t) & Ht & H). simpl in Ht. subst t.
    apply filter_In in H. destruct H as [_ H]. simpl in H.
    destruct (Num.mean (Pandas.group_cells values l d tag)) as [m|] eqn:M;
      [|discriminate].
    unfold Pandas.group_cells in M. apply mean_Some_has_row in M.
    destruct M as (r & Hr & Hv). apply filter_In in Hr.
    destruct Hr as [Hr Hc]. exists r.
    destruct (Date r) as [d'|]; [|discriminate].
    apply andb_true_iff in Hc. destruct Hc as [_ Hc].
    apply String.eqb_eq in Hc. repeat split; try assumption. discriminate.
  - intros (r & Hr & Hd & Ht & Hv).
    destruct (Date r) as [d|] eqn:D; [|congruence].
    assert (K : In (d, tag)
                   (filter (fun k => negb (Pandas.isna
                              (Num.mean (Pandas.group_cells values l
                                           (fst k) (snd k)))))
                           (Pandas.group_keys l))).
    { apply filter_In. split.
      - apply group_keys_In. now exists r.
      - simpl.
        destruct (Num.mean (Pandas.group_cells values l d tag)) eqn:M;
          [reflexivity|].
        exfalso. revert M. unfold Pandas.group_cells.
        apply (mean_has_row_Some values _ r); [|exact Hv].
        apply filter_In. split; [exact Hr|].
        rewrite D, Z.eqb_refl, Ht, String.eqb_refl. reflexivity. }
    match goal with
    | |- In tag (sort_unique _ _ ?keys) =>
        destruct (sort_unique_covers String.eqb String.leb String.eqb_refl
                    string_eqb_trans keys tag) as (t0 & H0 & E0)
    end.
    + apply in_map_iff. now exists (d, tag).
    + apply String.eqb_eq in E0. now subst t0.
Qed.

Lemma ts_local_has_dates (E : Env) (table : list Row) (r : Row) :
  In r (ts_local (coerce_Query_Time E table)) -> Date r <> None.
Proof.
  unfold ts_local, coerce_Query_Time, Pandas.dropna_Query_Time. intro H.
  apply in_map_iff in H. destruct H as (r1 & <- & H).
  apply in_map_iff in H. destruct H as (r0 & <- & H).
  apply filter_In in H. destruct H as [H N].
  apply in_map_iff in H. destruct H as (r2 & <- & H).
  simpl in *.
  destruct (Pandas.to_datetime E (Query_Time r2)) as [s|t|] eqn:Q;
    simpl in N; try discriminate.
  exfalso. exact (to_datetime_not_text E _ Q).
Qed.

Lemma line_is_plotted_iff (df : list Row) (tag : string) :
  (forall r, In r df -> Date r <> None) ->
  (In (mkLine (Pandas.p_index (pivot_regular df))
              (Pandas.column (pivot_regular df) tag)
              "-" ("Regular " ++ tag) "o")
      (ts_lines_of df)
   <-> exists r, In r df /\ Time_Tag r = tag /\ Regular_Price r <> None)
  /\ (In (mkLine (Pandas.p_index (pivot_premium df))
                 (Pandas.column (pivot_premium df) tag)
                 "--" ("Premium " ++ tag) "x")
         (ts_lines_of df)
      <-> exists r, In r df /\ Time_Tag r = tag /\ Premium_Price r <> None).
Proof.
  intro Hd.
  assert (Tag : forall values,
             (exists r, In r df /\ Time_Tag r = tag /\ values r <> None) ->
             In tag (unique String.eqb (map Time_Tag df))
             /\ Pandas.in_columns tag (Pandas.pivot_table values df) = true).
  { intros values (r & Hr & Ht & Hv). split.
    - destruct (unique_covers String.eqb String.eqb_refl string_eqb_trans
                  (map Time_Tag df) tag) as (y & Hy & Ey).
      + apply in_map_iff. now exists r.
      + apply String.eqb_eq in Ey. now subst y.
    - apply in_columns_iff. exists r. repeat split; auto. }
  assert (Row : forall values,
             Pandas.in_columns tag (Pandas.pivot_table values df) = true ->
             exists r, In r df /\ Time_Tag r = tag /\ values r <> None).
  { intros values H. apply in_columns_iff in H.
    destruct H as (r & Hr & _ & Ht & Hv). now exists r. }
  unfold ts_lines_of, pivot_regular, pivot_premium. split; split.
  - intro H. apply in_flat_map in H. destruct H as (tag' & _ & H).
    apply in_app_or in H. destruct H as [H | H].
    + destruct (Pandas.in_columns tag' (Pandas.pivot_table Regular_Price df)) eqn:C;
        [|destruct H].
      destruct H as [H | []]. simpl in H. injection H. intros. subst tag'.
      now apply Row.
    + destruct (Pandas.in_columns tag' (Pandas.pivot_table Premium_Price df)); [|destruct H].
      destruct H as [H | []]. discriminate H.
  - intro H. destruct (Tag Regular_Price H) as [Hu Hc].
    apply in_flat_map. exists tag. split; [exact Hu|].
    apply in_or_app. left. rewrite Hc. now left.
  - intro H. apply in_flat_map in H. destruct H as (tag' & _ & H).
    apply in_app_or in H. destruct H as [H | H].
    + destruct (Pandas.in_columns tag' (Pandas.pivot_table Regular_Price df)); [|destruct H].
      destruct H as [H | []]. discriminate H.
    + destruct (Pandas.in_columns tag' (Pandas.pivot_table Premium_Price df)) eqn:C;
        [|destruct H].
      destruct H as [H | []]. simpl in H. injection H. intros. subst tag'.
      now apply Row.
  - intro H. destruct (Tag Premium_Price H) as [Hu Hc].
    apply in_flat_map. exists tag. split; [exact Hu|].
    apply in_or_app. right. rewrite Hc. now left.
Qed.

(** X4.  In the time-series chart of a loaded table, a tag gets its regular
    line (solid, circle markers, label "Regular <tag>") exactly when some row
    with a timestamp and that normalised tag has a regular price, and its
    premium line (dashed, cross markers, label "Premium <tag>") exactly when
    some such row has a premium price: a tag whose prices are all missing is
    not plotted. *)
Theorem tag_is_plotted_iff_it_has_a_price
        (E : Env) (table : list Row) (tag : string) :
  let local := ts_local (coerce_Query_Time E table) in
  (In (mkLine (Pandas.p_index (pivot_regular local))
              (Pandas.column (pivot_regular local) tag)
              "-" ("Regular " ++ tag) "o")
      (ts_lines_of local)
   <-> exists r, In r local /\ Time_Tag r = tag /\ Regular_Price r <> None)
  /\ (In (mkLine (Pandas.p_index (pivot_premium local))
                 (Pandas.column (pivot_premium local) tag)
                 "--" ("Premium " ++ tag) "x")
         (ts_lines_of local)
      <-> exists r, In r local /\ Time_Tag r = tag /\ Premium_Price r <> None).
Proof.
  intro local. apply line_is_plotted_iff.
  intros r Hr. now apply (ts_local_has_dates E table).
Qed.

Lemma tag_is_plotted_iff_it_has_a_price_witness :
  Regular_Price
    (nth 2 (ts_local (coerce_Query_Time sample_env scenario_table)) blank_row)
  = Some 999%Q
  /\ In (mkLine
           (Pandas.p_index
              (pivot_regular
                 (ts_local (coerce_Query_Time sample_env scenario_table))))
           (Pandas.column
              (pivot_regular
                 (ts_local (coerce_Query_Time sample_env scenario_table)))
              "evening")
           "-" "Regular evening" "o")
        (ts_lines_of (ts_local (coerce_Query_Time sample_env scenario_table))).
Proof.
  split; [reflexivity|].
  apply (proj2 (proj1 (@tag_is_plotted_iff_it_has_a_price
                         sample_env scenario_table "evening"))).
  exists (nth 2 (ts_local (coerce_Query_Time sample_env scenario_table))
              blank_row).
  split; [right; right; left; reflexivity|].
  split; [reflexivity | discriminate].
Defined.

(** *** The aggregated means *)

Lemma clip_in_range (lo hi x : Q) :
  (lo <= hi)%Q -> (lo <= Num.clip lo hi x)%Q /\ (Num.clip lo hi x <= hi)%Q.
Proof.
  intro B. unfold Num.clip.
  destruct (Num.Qltb x lo) eqn:L.
  - split; [apply Qle_refl | exact B].
  - apply Qltb_ge in L. destruct (Num.Qltb hi x) eqn:H.
    + split; [exact B | apply Qle_refl].
    + apply Qltb_ge in H. split; assumption.
Qed.

Lemma Qsum_bounds (lo hi : Q) (l : list Q) :
  (forall x, In x l -> (lo <= x)%Q /\ (x <= hi)%Q) ->
  (inject_Z (Z.of_nat (length l)) * lo <= Num.Qsum l)%Q
  /\ (Num.Qsum l <= inject_Z (Z.of_nat (length l)) * hi)%Q.
Proof.
  induction l as [|a l IH]; intro H.
  - change (inject_Z (Z.of_nat (@length Q []))) with 0%Q.
    change (Num.Qsum []) with 0%Q. split; lra.
  - destruct IH as [I1 I2]; [intros x Hx; apply H; now right|].
    destruct (H a (or_introl eq_refl)) as [A1 A2].
    change (length (a :: l)) with (S (length l)).
    rewrite Nat2Z.inj_succ, <- Z.add_1_r, inject_Z_plus.
    change (Num.Qsum (a :: l)) with (a + Num.Qsum l)%Q.
    change (inject_Z 1) with 1%Q.
    split; lra.
Qed.

Lemma mean_of_bounds (lo hi : Q) (l : list Q) :
  l <> [] ->
  (forall x, In x l -> (lo <= x)%Q /\ (x <= hi)%Q) ->
  exists m, Num.mean_of l = Some m /\ (lo <= m)%Q /\ (m <= hi)%Q.
Proof.
  intros N H. destruct (@Qsum_bounds lo hi l H) as [S1 S2].
  destruct l as [|a l]; [congruence|].
  unfold Num.mean_of. eexists. split; [reflexivity|].
  set (n := inject_Z (Z.of_nat (length (a :: l)))) in *.
  assert (Hn : (0 < n)%Q).
  { unfold n. change 0%Q with (inject_Z 0). rewrite <- Zlt_Qlt.
    simpl length. lia. }
  rewrite Qred_correct. split.
  - apply Qle_shift_div_l; [exact Hn|]. lra.
  - apply Qle_shift_div_r; [exact Hn|]. lra.
Qed.

Lemma group_mean_bounds (values : Row -> option Q) (lo hi : Q) (g : list Row) :
  g <> [] ->
  (forall r, In r g ->
             exists v, values r = Some v /\ (lo <= v)%Q /\ (v <= hi)%Q) ->
  exists m, Num.mean (map values g) = Some m /\ (lo <= m)%Q /\ (m <= hi)%Q.
Proof.
  intros N H. unfold Num.mean. apply mean_of_bounds.
  - destruct g as [|r g]; [congruence|].
    destruct (H r (or_introl eq_refl)) as (v & Hv & _).
    simpl. rewrite Hv. discriminate.
  - induction g as [|r g IH]; [intros x []|].
    destruct (H r (or_introl eq_refl)) as (v & Hv & B).
    simpl. rewrite Hv. intros x [<- | Hx]; [exact B|].
    destruct g as [|r' g]; [destruct Hx|].
    apply IH; [discriminate | | exact Hx].
    intros r0 Hr0. apply H. now right.
Qed.

Lemma hm_local_rows_clipped (l : list Row) (r : Row) :
  In r (hm_local l) ->
  exists x y,
    Regular_Price r = Some (Num.clip 100 200 x)
    /\ Premium_Price r = Some (Num.clip 150 250 y).
Proof.
  rewrite hm_local_map. intro H. apply in_map_iff in H.
  destruct H as (r0 & <- & H). apply dropna_prices_In in H.
  destruct H as (_ & x & y & Hx & Hy). exists x, y.
  simpl. now rewrite Hx, Hy.
Qed.

(** X5.  Every row of [avg_prices] has both means, none is NaN, and they
    stay within the clipping bounds: the mean regular price of a station is
    between 100 and 200 and its mean premium price between 150 and 250,
    whatever prices were loaded. *)
Theorem aggregated_means_are_within_bounds (l : list Row) (agg : AggRow) :
  In agg (avg_prices_of (hm_local l)) ->
  exists m p,
    a_regular agg = Some m /\ (100 <= m)%Q /\ (m <= 200)%Q
    /\ a_premium agg = Some p /\ (150 <= p)%Q /\ (p <= 250)%Q.
Proof.
  intro H. apply avg_prices_In in H. destruct H as (Hr & Hp & r & Hin & Hk).
  set (g := filter (in_group (a_key agg)) (hm_local l)) in *.
  assert (Hg : g <> []).
  { assert (In r g).
    { apply filter_In. split; [exact Hin|].
      unfold in_group. rewrite Hk. apply key_eqb_refl. }
    intro E. rewrite E in H. destruct H. }
  destruct (@group_mean_bounds Regular_Price 100 200 g Hg) as (m & Hm & M1 & M2).
  { intros r0 Hr0. apply filter_In in Hr0. destruct Hr0 as [Hr0 _].
    destruct (@hm_local_rows_clipped l r0 Hr0) as (x & y & Hx & _).
    exists (Num.clip 100 200 x). split; [exact Hx|].
    apply clip_in_range. discriminate. }
  destruct (@group_mean_bounds Premium_Price 150 250 g Hg) as (p & Hq & P1 & P2).
  { intros r0 Hr0. apply filter_In in Hr0. destruct Hr0 as [Hr0 _].
    destruct (@hm_local_rows_clipped l r0 Hr0) as (x & y & _ & Hy).
    exists (Num.clip 150 250 y). split; [exact Hy|].
    apply clip_in_range. discriminate. }
  exists m, p. rewrite Hr, Hp. repeat split; assumption.
Qed.

Lemma aggregated_means_are_within_bounds_witness :
  In (nth 0 sample_avg (mkAggRow main_st_key None None))
     (avg_prices_of (hm_local sample_shared))
  /\ exists m p,
       a_regular (nth 0 sample_avg (mkAggRow main_st_key None None)) = Some m
       /\ (100 <= m)%Q /\ (m <= 200)%Q
       /\ a_premium (nth 0 sample_avg (mkAggRow main_st_key None None)) = Some p
       /\ (150 <= p)%Q /\ (p <= 250)%Q.
Proof.
  assert (H : In (nth 0 sample_avg (mkAggRow main_st_key None None))
                 (avg_prices_of (hm_local sample_shared)))
    by (left; reflexivity).
  split; [exact H|].
  exact (@aggregated_means_are_within_bounds sample_shared _ H).
Defined.

(** *** The rows of the aggregated table *)

Lemma key_eqb_comm (a b : Key) : key_eqb a b = key_eqb b a.
Proof.
  destruct (key_eqb a b) eqn:H1, (key_eqb b a) eqn:H2; try reflexivity.
  - now rewrite (key_eqb_sym _ _ H1) in H2.
  - now rewrite (key_eqb_sym _ _ H2) in H1.
Qed.

Lemma avg_prices_keys (l : list Row) :
  map a_key (avg_prices_of l) = sort_unique key_eqb key_leb (keys_of l).
Proof.
  unfold avg_prices_of. rewrite map_map. simpl. apply map_id.
Qed.

(** X6.  The aggregated table has one row per station: no two of its rows
    have the same key (station id, station name, latitude, longitude), every
    key is that of a row of the frame, and every row of the frame that has a
    key finds its station in the table. *)
Theorem one_aggregate_per_station (l : list Row) :
  let keys := map a_key (avg_prices_of l) in
  ForallOrdPairs (fun a b => key_eqb a b = false) keys
  /\ (forall k, In k keys -> exists r, In r l /\ key_of r = Some k)
  /\ (forall r k, In r l -> key_of r = Some k ->
                  exists k', In k' keys /\ key_eqb k' k = true).
Proof.
  cbv zeta. rewrite avg_prices_keys. repeat split.
  - apply pairwise_sort_unique. exact key_eqb_comm.
  - intros k H. apply sort_unique_incl in H. now apply keys_of_In.
  - intros r k Hr Hk.
    apply (sort_unique_covers key_eqb key_leb key_eqb_refl key_eqb_trans).
    apply keys_of_In. now exists r.
Qed.

Lemma one_aggregate_per_station_witness :
  In (nth 1 sample_shared blank_row) sample_shared
  /\ key_of (nth 1 sample_shared blank_row) = Some main_st_key
  /\ exists k',
       In k' (map a_key (avg_prices_of sample_shared))
       /\ key_eqb k' main_st_key = true.
Proof.
  assert (H : In (nth 1 sample_shared blank_row) sample_shared)
    by (right; left; reflexivity).
  split; [exact H|]. split; [reflexivity|].
  exact (proj2 (proj2 (@one_aggregate_per_station sample_shared))
               _ _ H eq_refl).
Defined.

(** *** The domain of a colour scale *)

Lemma min_of_None (l : list Q) : Num.min_of l = None -> l = [].
Proof.
  destruct l as [|x l]; [reflexivity|]. simpl.
  destruct (Num.min_of l); discriminate.
Qed.

Lemma max_of_None (l : list Q) : Num.max_of l = None -> l = [].
Proof.
  destruct l as [|x l]; [reflexivity|]. simpl.
  destruct (Num.max_of l); discriminate.
Qed.

Lemma min_of_le (l : list Q) (m : Q) :
  Num.min_of l = Some m -> forall x, In x l -> (m <= x)%Q.
Proof.
  revert m. induction l as [|a l IH]; intros m H x Hx; [destruct Hx|].
  simpl in H. destruct (Num.min_of l) as [m'|] eqn:M.
  - destruct (Num.Qltb m' a) eqn:L; inversion H; subst m.
    + apply Qltb_lt in L. destruct Hx as [<- | Hx].
      * now apply Qlt_le_weak.
      * now apply IH.
    + apply Qltb_ge in L. destruct Hx as [<- | Hx].
      * apply Qle_refl.
      * apply Qle_trans with m'; [exact L | now apply IH].
  - inversion H; subst m. apply min_of_None in M. subst l.
    destruct Hx as [<- | []]. apply Qle_refl.
Qed.

Lemma max_of_ge (l : list Q) (m : Q) :
  Num.max_of l = Some m -> forall x, In x l -> (x <= m)%Q.
Proof.
  revert m. induction l as [|a l IH]; intros m H x Hx; [destruct Hx|].
  simpl in H. destruct (Num.max_of l) as [m'|] eqn:M.
  - destruct (Num.Qltb a m') eqn:L; inversion H; subst m.
    + apply Qltb_lt in L. destruct Hx as [<- | Hx].
      * now apply Qlt_le_weak.
      * now apply IH.
    + apply Qltb_ge in L. destruct Hx as [<- | Hx].
      * apply Qle_refl.
      * apply Qle_trans with m'; [now apply IH | exact L].
  - inversion H; subst m. apply max_of_None in M. subst l.
    destruct Hx as [<- | []]. apply Qle_refl.
Qed.

Lemma In_present (x : Q) (l : list (option Q)) :
  In (Some x) l -> In x (Num.present l).
Proof.
  induction l as [|c l IH]; intro H; [destruct H|].
  destruct H as [-> | H]; simpl.
  - now left.
  - destruct c; [right|]; now apply IH.
Qed.

(** X7.  A colour scale is only built over a proper range and only asked
    for values of that range: when the layer of a price type is drawn, the
    minimum and the maximum of the aggregated prices are numbers with
    [min < max], the aggregated price of every station lies between them,
    and the table has at least two stations. *)
Theorem color_scale_covers_every_marker (s : Fuel) (avg : list AggRow) :
  valid_range s avg = true ->
  exists lo hi,
    fuel_min s avg = Some lo /\ fuel_max s avg = Some hi /\ (lo < hi)%Q
    /\ fuel_children s avg
       = [FeatureGroup (fuel_caption s) (fuel_markers s avg);
          Legend (mkColormap (fuel_colors s) (Some lo) (Some hi)
                             (fuel_caption s))]
    /\ (forall row v, In row avg -> fuel_price s row = Some v ->
                      (lo <= v)%Q /\ (v <= hi)%Q)
    /\ (2 <= length avg)%nat.
Proof.
  intro V. pose proof V as V'. unfold valid_range, Num.float_lt in V'.
  destruct (fuel_min s avg) as [lo|] eqn:Hlo; [|discriminate].
  destruct (fuel_max s avg) as [hi|] eqn:Hhi; [|discriminate].
  exists lo, hi. split; [reflexivity|]. split; [reflexivity|].
  apply Qltb_lt in V'. split; [exact V'|].
  split.
  { unfold fuel_children, fuel_scale. now rewrite V, Hlo, Hhi. }
  split.
  { intros row v Hrow Hv.
    assert (P : In v (Num.present (map (fuel_price s) avg))).
    { apply In_present. rewrite <- Hv. now apply in_map. }
    split.
    - exact (min_of_le _ Hlo v P).
    - exact (max_of_ge _ Hhi v P). }
  destruct avg as [|a [|b avg]]; simpl; try lia.
  - discriminate Hlo.
  - exfalso. unfold fuel_min, fuel_max, Num.col_min, Num.col_max in Hlo, Hhi.
    simpl in Hlo, Hhi. destruct (fuel_price s a); [|discriminate].
    simpl in Hlo, Hhi. inversion Hlo; inversion Hhi; subst.
    exact (Qlt_irrefl _ V').
Qed.

Lemma color_scale_covers_every_marker_witness :
  valid_range Regular sample_avg = true
  /\ exists lo hi,
       fuel_min Regular sample_avg = Some lo
       /\ fuel_max Regular sample_avg = Some hi /\ (lo < hi)%Q
       /\ (2 <= length sample_avg)%nat.
Proof.
  split; [reflexivity|].
  destruct (@color_scale_covers_every_marker Regular sample_avg eq_refl)
    as (lo & hi & H1 & H2 & H3 & _ & _ & H4).
  exists lo, hi. repeat split; assumption.
Defined.

(** *** A Location cell that does not evaluate *)

Lemma apply_eval_Raise_In (E : Env) (key : string)
      (set : option Q -> Row -> Row) (l : list Row) :
  forallb (has_key E key) l = false ->
  exists r, In r l /\ eval_location E (Location r) key = None
            /\ apply_eval E key set l = Raise (LocationError (Location r) key).
Proof.
  induction l as [|a l IH]; intro H; [discriminate|].
  simpl in H. simpl. unfold has_key in H at 1.
  destruct (eval_location E (Location a) key) eqn:Ea.
  - simpl in H. destruct (IH H) as (r & Hr & He & Hc).
    exists r. rewrite Hc. auto.
  - exists a. auto.
Qed.

Lemma plotHeatMap_stops_at (E : Env) (df : nat) (w : World) (f : Frame) :
  nth_error (heap w) df = Some f ->
  forallb (evaluates E) (rows f) = false ->
  exists cell key w',
    plotHeatMap E df w = (Raise (LocationError cell key), w')
    /\ In cell (map Location (rows f))
    /\ eval_location E cell key = None
    /\ (key = "Latitude"%string \/ key = "Longitude"%string)
    /\ calls w' = calls w ++ ["plotHeatMap"%string]
    /\ log w' = log w
    /\ fs w' = fs w.
Proof.
  intros Hf Hev.
  assert (Hlt : (df < length (heap w))%nat)
    by (apply nth_error_Some; congruence).
  assert (Hn : nth df (heap w) empty_frame = f)
    by (now apply nth_error_nth).
  rewrite evaluates_split in Hev.
  unfold plotHeatMap, bind at 1, enter. cbv beta iota.
  unfold bind at 1, deref at 1. simpl heap. rewrite Hn. cbv beta iota.
  unfold bind at 1, lift at 1.
  destruct (forallb (has_key E "Latitude") (rows f)) eqn:Hlat.
  - simpl in Hev.
    rewrite (apply_eval_Ok E _ set_Latitude _ Hlat). cbv beta iota.
    unfold bind at 1, assign at 1. cbv beta iota.
    unfold bind at 1, deref at 1. simpl heap.
    rewrite nth_replace_nth by exact Hlt. cbv beta iota. simpl rows.
    unfold bind at 1, lift at 1.
    destruct (apply_eval_Raise_In E _ set_Longitude _ Hev)
      as (r & Hr & He & Hc).
    rewrite Hc. apply in_map_iff in Hr. destruct Hr as (r0 & <- & Hr0).
    simpl in He. simpl.
    exists (Location r0), "Longitude"%string. eexists.
    split; [reflexivity|]. split; [now apply in_map|].
    split; [exact He|]. split; [now right|]. repeat split.
  - destruct (apply_eval_Raise_In E _ set_Latitude _ Hlat)
      as (r & Hr & He & Hc).
    rewrite Hc.
    exists (Location r), "Latitude"%string. eexists.
    split; [reflexivity|]. split; [now apply in_map|].
    split; [exact He|]. split; [now left|]. repeat split.
Qed.

Lemma coerce_keeps_Location (E : Env) (l : list Row) :
  map Location (coerce_Query_Time E l) = map Location l.
Proof. unfold coerce_Query_Time. rewrite map_map. reflexivity. Qed.

Lemma script_stops_at
        (E : Env) (table : list Row) (files : string -> option Artifact)
        (lines : list LogMsg) :
  forallb (evaluates E) table = false ->
  exists cell key w',
    script E table (initial_world files lines)
    = (Raise (LocationError cell key), w')
    /\ In cell (map Location table)
    /\ eval_location E cell key = None
    /\ (key = "Latitude"%string \/ key = "Longitude"%string)
    /\ calls w' = ["plotTimeGraph"; "plotHeatMap"]%string
    /\ log w' = lines ++ [MsgVisualizing]
                ++ save_log E ts_output_path (MsgTimeGraphSaved ts_output_path)
                            (files ts_output_path)
    /\ fs w' ts_output_path
       = after_save E ts_output_path (ts_artifact E table) (files ts_output_path)
    /\ (forall q, q <> ts_output_path -> fs w' q = files q).
Proof.
  intros Hev.
  unfold script, bind at 1, logging_debug at 1. cbv beta iota.
  unfold bind at 1, read_excel, new_object. cbv beta iota.
  simpl length. simpl app.
  set (w0 := mkWorld _ _ _ _).
  destruct (plotTimeGraph_run E 0 w0 (f := mkFrame loaded_columns table)
                              eq_refl)
    as (w1 & R1 & H1 & C1 & L1 & F1 & O1).
  rewrite (@bind_Ok _ _ _ _ _ _ _ R1).
  subst w0. simpl in H1, C1, L1, F1, O1.
  assert (Hev1 : forallb (evaluates E) (coerce_Query_Time E table) = false)
    by (now rewrite evaluates_coerce).
  destruct (plotHeatMap_stops_at E 0 w1
              (f := mkFrame loaded_columns (coerce_Query_Time E table)))
    as (cell & key & w2 & R2 & Hc & He & Hk & C2 & L2 & F2).
  { now rewrite H1. }
  { exact Hev1. }
  rewrite (@bind_Raise _ _ _ _ _ _ _ R2).
  simpl in Hc. rewrite coerce_keeps_Location in Hc.
  exists cell, key, w2.
  split; [reflexivity|]. split; [exact Hc|]. split; [exact He|].
  split; [exact Hk|]. split; [now rewrite C2, C1|].
  split; [rewrite L2, L1; now rewrite <- app_assoc|].
  rewrite F2. split; [exact F1 | exact O1].
Qed.


(** X8.  A Location cell on which [eval(x)["Latitude"]] or
    [eval(x)["Longitude"]] raises ends the whole script: the exception names
    a cell of the table that fails for the key it names, it is raised inside
    [plotHeatMap] -- after [plotTimeGraph] has run and saved its chart -- and
    [plotInteractive] is never called; nothing is logged for the heat map,
    and the heat-map and dashboard files are left as they were found. *)
Theorem bad_location_stops_the_script
        (E : Env) (table : list Row) (files : string -> option Artifact)
        (lines : list LogMsg) :
  forallb (evaluates E) table = false ->
  exists cell key w',
    script E table (initial_world files lines)
    = (Raise (LocationError cell key), w')
    /\ In cell (map Location table)
    /\ eval_location E cell key = None
    /\ (key = "Latitude"%string \/ key = "Longitude"%string)
    /\ calls w' = ["plotTimeGraph"; "plotHeatMap"]%string
    /\ log w' = lines ++ [MsgVisualizing]
                ++ save_log E ts_output_path (MsgTimeGraphSaved ts_output_path)
                            (files ts_output_path)
    /\ fs w' ts_output_path
       = after_save E ts_output_path (ts_artifact E table) (files ts_output_path)
    /\ fs w' hm_output_path = files hm_output_path
    /\ fs w' it_output_path = files it_output_path.
Proof.
  intro Hev.
  destruct (script_stops_at E table files lines Hev)
    as (cell & key & w' & R & Hc & He & Hk & C & L & F & O).
  exists cell, key, w'. repeat split; try assumption; apply O; discriminate.
Qed.

Lemma bad_location_stops_the_script_witness :
  forallb (evaluates sample_env)
          [observation "S9" "Nowhere" "-" "{}" "Morning" NaT (Some 120) None]
  = false
  /\ exists cell key w',
       script sample_env
              [observation "S9" "Nowhere" "-" "{}" "Morning" NaT (Some 120) None]
              (initial_world no_files [])
       = (Raise (LocationError cell key), w')
       /\ calls w' = ["plotTimeGraph"; "plotHeatMap"]%string
       /\ fs w' hm_output_path = None
       /\ fs w' it_output_path = None.
Proof.
  split; [reflexivity|].
  destruct (@bad_location_stops_the_script sample_env
              [observation "S9" "Nowhere" "-" "{}" "Morning" NaT (Some 120) None]
              no_files [] eq_refl)
    as (cell & key & w' & R & _ & _ & _ & C & _ & _ & Fh & Fi).
  exists cell, key, w'. repeat split; assumption.
Defined.

(** *** What a run without failures leaves *)

(** X10.  When every Location cell evaluates and neither [os.remove] nor a
    save fails, the script ends normally with its three artifacts at their
    paths -- whatever was there before -- and the log has gained, in order:
    the opening line; for each renderer the "already exists" line exactly
    when its file was found, then its "saved" line; and, before the lines of
    the heat map, the warnings of the degenerate ranges.  (The table has a
    station with both prices, so that the map has a centre.) *)
Theorem run_without_failures_writes_all_outputs
        (E : Env) (table : list Row) (files : string -> option Artifact)
        (lines : list LogMsg) :
  forallb (evaluates E) table = true ->
  avg_prices_of (hm_local (with_coordinates E (coerce_Query_Time E table)))
  <> [] ->
  (forall p, remove_fault E p = None) ->
  (forall p, save_fault E p = None) ->
  let found p := match files p with
                 | Some _ => [MsgDeleting p]
                 | None => []
                 end in
  let avg :=
    avg_prices_of (hm_local (with_coordinates E (coerce_Query_Time E table))) in
  exists w',
    script E table (initial_world files lines) = (Ok tt, w')
    /\ fs w' ts_output_path = Some (ts_artifact E table)
    /\ fs w' hm_output_path = Some (hm_artifact E table)
    /\ fs w' it_output_path = Some (it_artifact E table)
    /\ log w' = lines ++ [MsgVisualizing]
                ++ found ts_output_path ++ [MsgTimeGraphSaved ts_output_path]
                ++ fuel_warning Regular avg ++ fuel_warning Premium avg
                ++ found hm_output_path ++ [MsgMapSaved]
                ++ found it_output_path ++ [MsgGraphSaved].
Proof.
  intros Hev Hne Hr Hs found avg.
  destruct (script_run E table files lines Hev Hne)
    as (w' & R & _ & _ & L & Ft & Fh & Fi & _).
  assert (A : forall p a x, after_save E p a x = Some a).
  { intros p a x. unfold after_save. rewrite Hr, Hs. now destruct x. }
  assert (G : forall p saved, save_log E p saved (files p) = found p ++ [saved]).
  { intros p saved. unfold save_log, found. rewrite Hr, Hs.
    now destruct (files p). }
  exists w'. split; [exact R|].
  rewrite Ft, Fh, Fi, !A. repeat split.
  rewrite L, !G. fold avg. now rewrite <- !app_assoc.
Qed.

Lemma run_without_failures_writes_all_outputs_witness :
  forallb (evaluates sample_env) two_station_table = true
  /\ length sample_avg = 2%nat
  /\ exists w',
       script sample_env two_station_table (initial_world no_files [])
       = (Ok tt, w')
       /\ fs w' ts_output_path = Some (ts_artifact sample_env two_station_table)
       /\ fs w' hm_output_path = Some (hm_artifact sample_env two_station_table)
       /\ fs w' it_output_path = Some (it_artifact sample_env two_station_table).
Proof.
  split; [reflexivity|]. split; [reflexivity|].
  destruct (@run_without_failures_writes_all_outputs sample_env
              two_station_table no_files [] eq_refl
              ltac:(discriminate) (fun _ => eq_refl) (fun _ => eq_refl))
    as (w' & R & Ft & Fh & Fi & _).
  exists w'. repeat split; assumption.
Defined.

(** *** Each renderer in the script and on its own *)

Lemma keys_of_ext (l1 l2 : list Row) :
  Forall2 same_for_heat_map l1 l2 -> keys_of l1 = keys_of l2.
Proof.
  induction 1 as [|a b l1 l2 (K & _) _ IH]; [reflexivity|].
  simpl. rewrite K, IH. reflexivity.
Qed.

Lemma group_ext (k : Key) (l1 l2 : list Row) :
  Forall2 same_for_heat_map l1 l2 ->
  map Regular_Price (filter (in_group k) l1)
  = map Regular_Price (filter (in_group k) l2)
  /\ map Premium_Price (filter (in_group k) l1)
     = map Premium_Price (filter (in_group k) l2).
Proof.
  induction 1 as [|a b l1 l2 (K & R & P) _ [IH1 IH2]]; [split; reflexivity|].
  assert (G : in_group k a = in_group k b)
    by (unfold in_group; now rewrite K).
  simpl. rewrite G. destruct (in_group k b); simpl;
    rewrite ?R, ?P, IH1, IH2; split; reflexivity.
Qed.

Lemma avg_prices_of_ext (l1 l2 : list Row) :
  Forall2 same_for_heat_map l1 l2 -> avg_prices_of l1 = avg_prices_of l2.
Proof.
  intro H. unfold avg_prices_of. rewrite (keys_of_ext H).
  apply map_ext. intro k. cbv zeta.
  destruct (group_ext k H) as [R P]. now rewrite R, P.
Qed.

Lemma hm_local_ext (l1 l2 : list Row) :
  Forall2 same_for_heat_map l1 l2 ->
  Forall2 same_for_heat_map (hm_local l1) (hm_local l2).
Proof.
  rewrite !hm_local_map. unfold Pandas.dropna_prices.
  induction 1 as [|a b l1 l2 (K & R & P) _ IH]; [constructor|].
  simpl. rewrite R, P.
  destruct (negb (Pandas.isna (Regular_Price b)
                  || Pandas.isna (Premium_Price b))); [|exact IH].
  simpl. constructor; [|exact IH].
  unfold same_for_heat_map. simpl. rewrite R, P.
  repeat split. exact K.
Qed.

Lemma coerce_is_invisible_to_heat_map (E : Env) (table : list Row) :
  Forall2 same_for_heat_map
          (with_coordinates E (coerce_Query_Time E table))
          (with_coordinates E table).
Proof.
  induction table as [|r table IH]; [constructor|].
  simpl. constructor; [|exact IH]. repeat split.
Qed.

Lemma it_local_cons (E : Env) (a : Row) (l : list Row) :
  it_local E (a :: l)
  = (if negb (Pandas.isna_time (Pandas.to_datetime E (Query_Time a)))
     then [set_Time_Tag (Pandas.normalize_tag (Time_Tag a))
             (set_Date (Pandas.dt_date (Pandas.to_datetime E (Query_Time a)))
                (set_Query_Time (Pandas.to_datetime E (Query_Time a)) a))]
     else [])
    ++ it_local E l.
Proof.
  unfold it_local, coerce_Query_Time, Pandas.dropna_Query_Time. simpl.
  now destruct (negb (Pandas.isna_time (Pandas.to_datetime E (Query_Time a)))).
Qed.

Lemma it_local_ext (E : Env) (l1 l2 : list Row) :
  Forall2 (same_for_dashboard E) l1 l2 ->
  Forall2 (same_for_dashboard E) (it_local E l1) (it_local E l2).
Proof.
  induction 1 as [|a b l1 l2 (I & N & A & T & Q & R & P) _ IH]; [constructor|].
  rewrite !it_local_cons, Q.
  destruct (negb (Pandas.isna_time (Pandas.to_datetime E (Query_Time b))));
    [|exact IH].
  simpl. constructor; [|exact IH].
  unfold same_for_dashboard. simpl. rewrite T. repeat split; assumption.
Qed.

Lemma it_local_parsed (E : Env) (l : list Row) (r : Row) :
  In r (it_local E l) -> Pandas.to_datetime E (Query_Time r) = Query_Time r.
Proof.
  intro H.
  destruct (coerced_rows_have_timestamps E l r (or_intror H)) as [t ->].
  reflexivity.
Qed.

Lemma rows_with_tag_ext (E : Env) (tag : string) (l1 l2 : list Row) :
  Forall2 (same_for_dashboard E) l1 l2 ->
  Forall2 (same_for_dashboard E) (rows_with_tag tag l1) (rows_with_tag tag l2).
Proof.
  unfold rows_with_tag.
  induction 1 as [|a b l1 l2 H _ IH]; [constructor|].
  simpl. destruct H as (I & N & A & T & Q & R & P). rewrite T.
  destruct (String.eqb (Time_Tag b) tag); [|exact IH].
  constructor; [|exact IH]. repeat split; assumption.
Qed.

Lemma dashboard_columns_ext (E : Env) (l1 l2 : list Row) :
  Forall2 (same_for_dashboard E) l1 l2 ->
  (forall r, In r l1 -> Pandas.to_datetime E (Query_Time r) = Query_Time r) ->
  (forall r, In r l2 -> Pandas.to_datetime E (Query_Time r) = Query_Time r) ->
  map Time_Tag l1 = map Time_Tag l2
  /\ map Query_Time l1 = map Query_Time l2
  /\ map Regular_Price l1 = map Regular_Price l2
  /\ map Premium_Price l1 = map Premium_Price l2
  /\ map hovertext_of l1 = map hovertext_of l2.
Proof.
  induction 1 as [|a b l1 l2 (I & N & A & T & Q & R & P) _ IH]; intros H1 H2.
  - repeat split.
  - destruct IH as (I1 & I2 & I3 & I4 & I5).
    { intros r Hr. apply H1. now right. }
    { intros r Hr. apply H2. now right. }
    rewrite (H1 a (or_introl eq_refl)), (H2 b (or_introl eq_refl)) in Q.
    simpl. unfold hovertext_of at 1 3.
    rewrite I1, I2, I3, I4, I5, I, N, A, T, Q, R, P. repeat split.
Qed.

Lemma it_traces_of_ext (E : Env) (l1 l2 : list Row) :
  Forall2 (same_for_dashboard E) l1 l2 ->
  (forall r, In r l1 -> Pandas.to_datetime E (Query_Time r) = Query_Time r) ->
  (forall r, In r l2 -> Pandas.to_datetime E (Query_Time r) = Query_Time r) ->
  it_traces_of l1 = it_traces_of l2.
Proof.
  intros H H1 H2.
  destruct (dashboard_columns_ext H H1 H2) as (T & _).
  assert (G : forall tag,
             regular_trace l1 tag = regular_trace l2 tag
             /\ premium_trace l1 tag = premium_trace l2 tag).
  { intro tag. unfold regular_trace, premium_trace.
    destruct (@dashboard_columns_ext E (rows_with_tag tag l1)
                (rows_with_tag tag l2))
      as (_ & Q & R & P & V).
    - now apply rows_with_tag_ext.
    - intros r Hr. apply H1. unfold rows_with_tag in Hr.
      apply filter_In in Hr. tauto.
    - intros r Hr. apply H2. unfold rows_with_tag in Hr.
      apply filter_In in Hr. tauto.
    - cbv zeta. rewrite Q, R, P, V. split; reflexivity. }
  unfold it_traces_of. cbv zeta. rewrite T. f_equal.
  - apply map_ext. intro tag. apply G.
  - apply map_ext. intro tag. apply G.
Qed.

Lemma sharing_is_invisible_to_dashboard (E : Env) (table : list Row) :
  Forall2 (same_for_dashboard E)
          (with_coordinates E (coerce_Query_Time E table)) table.
Proof.
  induction table as [|r table IH]; [constructor|].
  simpl. constructor; [|exact IH].
  unfold same_for_dashboard. simpl. rewrite to_datetime_idem. repeat split.
Qed.

Lemma alone_run (E : Env) (table : list Row)
      (files : string -> option Artifact) (lines : list LogMsg) :
  fs (snd (alone plotTimeGraph E table (initial_world files lines)))
     ts_output_path
  = after_save E ts_output_path (ts_artifact E table) (files ts_output_path)
  /\ fs (snd (alone plotInteractive E table (initial_world files lines)))
        it_output_path
     = after_save E it_output_path
                  (InteractiveHtml (it_figure (it_local E table)))
                  (files it_output_path)
  /\ (forallb (evaluates E) table = true ->
      avg_prices_of (hm_local (with_coordinates E table)) <> [] ->
      fs (snd (alone plotHeatMap E table (initial_world files lines)))
         hm_output_path
      = after_save E hm_output_path
                   (HeatMapHtml (hm_map (with_coordinates E table)))
                   (files hm_output_path)).
Proof.
  unfold alone, bind, read_excel, new_object. simpl.
  set (w0 := mkWorld _ _ _ _).
  assert (H0 : nth_error (heap w0) 0 = Some (mkFrame loaded_columns table))
    by reflexivity.
  repeat split.
  - destruct (plotTimeGraph_run E 0 w0 H0) as (w1 & R & _ & _ & _ & F & _).
    rewrite R. exact F.
  - destruct (plotInteractive_run E 0 w0) as (w1 & R & _ & _ & _ & F & _).
    rewrite R. exact F.
  - intros Hev Hne.
    destruct (plotHeatMap_run E 0 w0 H0 Hev Hne)
      as (w1 & R & _ & _ & _ & F & _).
    rewrite R. exact F.
Qed.

(** X11.  The renderers share one frame, yet each output of the script is
    the one its renderer gives when it is called alone on the freshly loaded
    table: the timestamps [plotTimeGraph] converts in place do not change the
    heat map, and neither they nor the two columns [plotHeatMap] adds change
    the dashboard.  (For a table whose Location cells evaluate, so that the
    script reaches its three renderers, and which has a station with both
    prices, so that the map has a centre.) *)
Theorem sharing_does_not_change_the_outputs
        (E : Env) (table : list Row) (files : string -> option Artifact)
        (lines : list LogMsg) :
  forallb (evaluates E) table = true ->
  avg_prices_of (hm_local (with_coordinates E (coerce_Query_Time E table)))
  <> [] ->
  let w0 := initial_world files lines in
  let w := snd (script E table w0) in
  fs w ts_output_path
  = fs (snd (alone plotTimeGraph E table w0)) ts_output_path
  /\ fs w hm_output_path
     = fs (snd (alone plotHeatMap E table w0)) hm_output_path
  /\ fs w it_output_path
     = fs (snd (alone plotInteractive E table w0)) it_output_path.
Proof.
  intros Hev Hne w0 w. subst w w0.
  destruct (script_run E table files lines Hev Hne)
    as (w' & R & _ & _ & _ & Ft & Fh & Fi & _).
  rewrite R. simpl snd.
  destruct (alone_run E table files lines) as (At & Ai & Ah).
  assert (Hne' : avg_prices_of (hm_local (with_coordinates E table)) <> []).
  { rewrite <- (avg_prices_of_ext
                  (hm_local_ext (coerce_is_invisible_to_heat_map E table))).
    exact Hne. }
  rewrite At, Ai, (Ah Hev Hne'), Ft, Fh, Fi.
  split; [reflexivity|]. split.
  - unfold hm_artifact, hm_map.
    rewrite (avg_prices_of_ext
               (hm_local_ext (coerce_is_invisible_to_heat_map E table))).
    reflexivity.
  - unfold it_artifact, it_figure.
    rewrite (@it_traces_of_ext E
               (it_local E (with_coordinates E (coerce_Query_Time E table)))
               (it_local E table)); [reflexivity | | |].
    + apply it_local_ext. apply sharing_is_invisible_to_dashboard.
    + intros r Hr. eapply it_local_parsed; eauto.
    + intros r Hr. eapply it_local_parsed; eauto.
Qed.

Lemma sharing_does_not_change_the_outputs_witness :
  forallb (evaluates sample_env) two_station_table = true
  /\ fs (snd (script sample_env two_station_table (initial_world no_files [])))
        hm_output_path
     = fs (snd (alone plotHeatMap sample_env two_station_table
                      (initial_world no_files [])))
          hm_output_path.
Proof.
  split; [reflexivity|].
  exact (proj1 (proj2 (@sharing_does_not_change_the_outputs sample_env
                         two_station_table no_files [] eq_refl
                         ltac:(discriminate)))).
Defined.

(** *** The frame behind the module-level name after a run *)

(** X12.  After a run that reaches its three renderers, the dataframe object
    the script loaded still has every loaded row, in the loaded order and
    with the loaded station id, station name, address, location, tag and
    prices: no row was dropped from it, no price clipped and no tag
    normalised in it.  What changed in it is the "Query Time" column, now
    converted, and the two columns "Latitude" and "Longitude" added at the
    end.  (The table has a station with both prices, so that the map has a
    centre and the run goes on to its end.) *)
Theorem script_keeps_the_loaded_cells
        (E : Env) (table : list Row) (files : string -> option Artifact)
        (lines : list LogMsg) :
  forallb (evaluates E) table = true ->
  avg_prices_of (hm_local (with_coordinates E (coerce_Query_Time E table)))
  <> [] ->
  exists w' f,
    script E table (initial_world files lines) = (Ok tt, w')
    /\ heap w' = [f]
    /\ columns f = loaded_columns ++ ["Latitude"; "Longitude"]%string
    /\ length (rows f) = length table
    /\ map Station_ID (rows f) = map Station_ID table
    /\ map Station_Name (rows f) = map Station_Name table
    /\ map Address (rows f) = map Address table
    /\ map Location (rows f) = map Location table
    /\ map Time_Tag (rows f) = map Time_Tag table
    /\ map Regular_Price (rows f) = map Regular_Price table
    /\ map Premium_Price (rows f) = map Premium_Price table
    /\ map Query_Time (rows f)
       = map (fun r => Pandas.to_datetime E (Query_Time r)) table
    /\ map Latitude (rows f)
       = map (fun r => eval_location E (Location r) "Latitude") table
    /\ map Longitude (rows f)
       = map (fun r => eval_location E (Location r) "Longitude") table.
Proof.
  intros Hev Hne.
  destruct (script_run E table files lines Hev Hne) as (w' & R & H & _).
  exists w'. eexists. split; [exact R|]. split; [exact H|].
  unfold with_coordinates, coerce_Query_Time. simpl.
  rewrite !length_map, !map_map. simpl.
  repeat split; reflexivity.
Qed.

Lemma script_keeps_the_loaded_cells_witness :
  forallb (evaluates sample_env) scenario_table = true
  /\ exists w' f,
       script sample_env scenario_table (initial_world no_files []) = (Ok tt, w')
       /\ heap w' = [f]
       /\ map Time_Tag (rows f) = ["Morning"; "morning "; "Evening"]%string
       /\ map Regular_Price (rows f) = [Some 110%Q; Some 130%Q; Some 999%Q].
Proof.
  split; [reflexivity|].
  destruct (@script_keeps_the_loaded_cells sample_env scenario_table no_files []
              eq_refl ltac:(discriminate))
    as (w' & f & R & H & _ & _ & _ & _ & _ & _ & T & P & _).
  exists w', f. repeat split; assumption.
Defined.

(** *** The traces of the dashboard *)

Lemma rows_with_tag_of_table (E : Env) (l : list Row) (tag : string) :
  rows_with_tag tag (it_local E l)
  = map (fun a =>
           set_Time_Tag (Pandas.normalize_tag (Time_Tag a))
             (set_Date (Pandas.dt_date (Pandas.to_datetime E (Query_Time a)))
                (set_Query_Time (Pandas.to_datetime E (Query_Time a)) a)))
        (table_tagged E l tag).
Proof.
  unfold rows_with_tag, table_tagged.
  induction l as [|a l IH]; [reflexivity|].
  rewrite it_local_cons, filter_app, IH. simpl.
  destruct (negb (Pandas.isna_time (Pandas.to_datetime E (Query_Time a))));
    simpl; [|reflexivity].
  now destruct (String.eqb (Pandas.normalize_tag (Time_Tag a)) tag).
Qed.

(** X13.  The traces of the dashboard show the table as it was loaded: for a
    tag, the regular trace and the premium trace have one point per row
    whose "Query Time" converts and whose tag normalises to that tag, in
    table order, with the converted timestamp as x, the loaded price as y --
    not clipped, and a missing price kept as a missing point -- and the
    station's name, id and address as hover text. *)
Theorem dashboard_traces_show_the_loaded_rows
        (E : Env) (l : list Row) (tag : string) :
  let local := it_local E l in
  let shown := table_tagged E l tag in
  t_x (regular_trace local tag)
  = map (fun r => Pandas.to_datetime E (Query_Time r)) shown
  /\ t_y (regular_trace local tag) = map Regular_Price shown
  /\ t_x (premium_trace local tag) = t_x (regular_trace local tag)
  /\ t_y (premium_trace local tag) = map Premium_Price shown
  /\ t_hovertext (regular_trace local tag) = map hovertext_of shown
  /\ t_hovertext (premium_trace local tag) = map hovertext_of shown.
Proof.
  cbv zeta. unfold regular_trace, premium_trace. simpl.
  rewrite rows_with_tag_of_table, !map_map. simpl.
  repeat split; reflexivity.
Qed.

Lemma NoDup_map_injective (A B : Type) (f : A -> B) (l : list A) :
  (forall x y, f x = f y -> x = y) -> NoDup l -> NoDup (map f l).
Proof.
  intros Hf. induction 1 as [|a l Ha Hl IH]; simpl; constructor; [|exact IH].
  intro H. apply in_map_iff in H. destruct H as (y & Hy & Hin).
  apply Hf in Hy. now subst y.
Qed.

Lemma unique_NoDup (l : list string) : NoDup (unique String.eqb l).
Proof.
  assert (G : forall u, ForallOrdPairs (fun a b => String.eqb a b = false) u ->
                        NoDup u).
  { induction 1 as [|a u Ha Hu IH]; constructor; [|exact IH].
    intro H. rewrite Forall_forall in Ha. specialize (Ha a H).
    now rewrite String.eqb_refl in Ha. }
  apply G. apply pairwise_unique.
Qed.

(** X14.  The dashboard has one regular and one premium trace per distinct
    tag of its local frame: no two traces share their legend name, there are
    twice as many traces as distinct tags, the regular ones come first and
    sit in row 1, the premium ones in row 2, and every row of the frame is in
    the traces of its tag. *)
Theorem dashboard_has_one_trace_pair_per_tag (df : list Row) :
  let tags := unique String.eqb (map Time_Tag df) in
  NoDup (map t_name (it_traces_of df))
  /\ length (it_traces_of df) = (2 * length tags)%nat
  /\ map t_row (it_traces_of df)
     = map (fun _ => 1%Z) tags ++ map (fun _ => 2%Z) tags
  /\ (forall r, In r df ->
        In (regular_trace df (Time_Tag r)) (it_traces_of df)
        /\ In (premium_trace df (Time_Tag r)) (it_traces_of df)
        /\ In r (rows_with_tag (Time_Tag r) df)).
Proof.
  cbv zeta. unfold it_traces_of. cbv zeta.
  set (tags := unique String.eqb (map Time_Tag df)).
  assert (N : NoDup tags) by apply unique_NoDup.
  repeat split.
  - rewrite map_app, !map_map. simpl. apply NoDup_app.
    + apply NoDup_map_injective; [|exact N].
      intros x y H. now inversion H.
    + apply NoDup_map_injective; [|exact N].
      intros x y H. now inversion H.
    + intros a Ha Hb. apply in_map_iff in Ha. apply in_map_iff in Hb.
      destruct Ha as (x & <- & _). destruct Hb as (y & Hy & _).
      discriminate Hy.
  - rewrite length_app, !length_map. lia.
  - rewrite map_app, !map_map. reflexivity.
  - apply in_or_app. left. apply in_map.
    destruct (unique_covers String.eqb String.eqb_refl string_eqb_trans
                (map Time_Tag df) (Time_Tag r)) as (y & Hy & Ey).
    + now apply in_map.
    + apply String.eqb_eq in Ey. now subst y.
  - apply in_or_app. right. apply in_map.
    destruct (unique_covers String.eqb String.eqb_refl string_eqb_trans
                (map Time_Tag df) (Time_Tag r)) as (y & Hy & Ey).
    + now apply in_map.
    + apply String.eqb_eq in Ey. now subst y.
  - unfold rows_with_tag. apply filter_In. split; [assumption|].
    apply String.eqb_refl.
Qed.

Lemma dashboard_has_one_trace_pair_per_tag_witness :
  In (nth 0 (it_local sample_env two_station_table) blank_row)
     (it_local sample_env two_station_table)
  /\ In (regular_trace (it_local sample_env two_station_table) "morning")
        (it_traces_of (it_local sample_env two_station_table)).
Proof.
  assert (H : In (nth 0 (it_local sample_env two_station_table) blank_row)
                 (it_local sample_env two_station_table))
    by (left; reflexivity).
  split; [exact H|].
  exact (proj1 (proj2 (proj2 (proj2 (@dashboard_has_one_trace_pair_per_tag
                                       (it_local sample_env two_station_table))))
                      _ H)).
Defined.

(** *** Rows without a price in the heat map *)

(** X15.  A row that lacks its regular or its premium price is left out of
    the heat map altogether -- also the price it does have is not averaged:
    the local frame, the aggregated table and the map are those of the frame
    without the row. *)
Theorem rows_without_a_price_are_left_out
        (before after : list Row) (r : Row) :
  Regular_Price r = None \/ Premium_Price r = None ->
  hm_local (before ++ r :: after) = hm_local (before ++ after)
  /\ avg_prices_of (hm_local (before ++ r :: after))
     = avg_prices_of (hm_local (before ++ after))
  /\ hm_map (before ++ r :: after) = hm_map (before ++ after).
Proof.
  intro H.
  assert (G : hm_local (before ++ r :: after) = hm_local (before ++ after)).
  { rewrite !hm_local_map. unfold Pandas.dropna_prices.
    rewrite !filter_app. simpl.
    destruct H as [H | H]; rewrite H; simpl; rewrite ?orb_true_r; reflexivity. }
  unfold hm_map. rewrite G. repeat split.
Qed.

Lemma rows_without_a_price_are_left_out_witness :
  Premium_Price (observation "S2" "Hill Fuel" "9 Hill Rd" other_location
                             "Evening" NaT (Some 100) None) = None
  /\ avg_prices_of
       (hm_local (sample_shared
                  ++ [set_Longitude (Some (- (794 # 10)))
                        (set_Latitude (Some (437 # 10))
                           (observation "S2" "Hill Fuel" "9 Hill Rd"
                                        other_location "Evening" NaT
                                        (Some 100) None))]))
     = avg_prices_of (hm_local (sample_shared ++ [])).
Proof.
  split; [reflexivity|].
  exact (proj1 (proj2 (@rows_without_a_price_are_left_out sample_shared []
                         (set_Longitude (Some (- (794 # 10)))
                            (set_Latitude (Some (437 # 10))
                               (observation "S2" "Hill Fuel" "9 Hill Rd"
                                            other_location "Evening" NaT
                                            (Some 100) None)))
                         (or_intror eq_refl)))).
Defined.

(** *** Rows without a timestamp in the chart and in the dashboard *)

Lemma local_frames_of_table (E : Env) (table : list Row) :
  ts_local (coerce_Query_Time E table)
  = map (local_row E) (filter (parses E) table)
  /\ it_local E table = map (local_row E) (filter (parses E) table).
Proof.
  assert (G : it_local E table = map (local_row E) (filter (parses E) table)).
  { induction table as [|a table IH]; [reflexivity|].
    rewrite it_local_cons, IH. simpl. unfold parses at 2.
    now destruct (negb (Pandas.isna_time
                          (Pandas.to_datetime E (Query_Time a)))). }
  split; [exact G | exact G].
Qed.

Lemma filter_drops_a_row (A : Type) (p : A -> bool) (l : list A) (x : A) :
  In x l -> p x = false -> (length (filter p l) < length l)%nat.
Proof.
  induction l as [|a l IH]; intros Hx Hp; [destruct Hx|].
  simpl. pose proof (filter_length_le p l) as L.
  destruct Hx as [-> | Hx].
  - rewrite Hp. lia.
  - specialize (IH Hx Hp). destruct (p a); simpl; lia.
Qed.

(** C3.  A row of the table whose "Query Time" does not convert to a
    timestamp is excluded from the data under the time-series chart and
    under the dashboard.  The local frame of [plotTimeGraph] and that of
    [plotInteractive] consist of the rows that convert, and of them only:
    the row is not among these, the frames are shorter than the table and
    each of their rows carries a timestamp.  The cells of the two pivots are
    means over groups of rows of the table in which the row is not, and the
    traces plot, tag by tag, rows of the table among which the row is not;
    this holds as well for the dashboard of the script, drawn from the
    shared frame after the other two renderers have run. *)
Theorem unparseable_rows_are_excluded
        (E : Env) (table : list Row) (r : Row) :
  In r table ->
  Pandas.to_datetime E (Query_Time r) = NaT ->
  let kept := filter (parses E) table in
  let ts := ts_local (coerce_Query_Time E table) in
  let it := it_local E table in
  ~ In r kept
  /\ ts = map (local_row E) kept
  /\ it = map (local_row E) kept
  /\ (length ts < length table)%nat
  /\ (length it < length table)%nat
  /\ (forall r', In r' ts \/ In r' it -> exists t, Query_Time r' = TStamp t)
  /\ (forall d tag,
        ~ In r (table_group E table d tag)
        /\ (forall c, Pandas.lookup (pivot_regular ts) d tag = Some c ->
                      c = Num.mean (map Regular_Price
                                        (table_group E table d tag)))
        /\ (forall c, Pandas.lookup (pivot_premium ts) d tag = Some c ->
                      c = Num.mean (map Premium_Price
                                        (table_group E table d tag))))
  /\ (forall tag,
        ~ In r (table_tagged E table tag)
        /\ rows_with_tag tag it = map (local_row E) (table_tagged E table tag)
        /\ t_y (regular_trace it tag)
           = map Regular_Price (table_tagged E table tag)
        /\ t_y (premium_trace it tag)
           = map Premium_Price (table_tagged E table tag))
  /\ it_traces_of
       (it_local E (with_coordinates E (coerce_Query_Time E table)))
     = it_traces_of it.
Proof.
  intros Hin Hnat kept ts it. subst kept ts it.
  assert (Hp : parses E r = false) by (unfold parses; now rewrite Hnat).
  destruct (local_frames_of_table E table) as [Hts Hit].
  assert (Hlen : (length (filter (parses E) table) < length table)%nat)
    by (now apply filter_drops_a_row with r).
  split.
  { intro H. apply filter_In in H. destruct H as [_ H]. congruence. }
  split; [exact Hts|]. split; [exact Hit|].
  split; [now rewrite Hts, length_map|].
  split; [now rewrite Hit, length_map|].
  split.
  { intros r' H. now apply (coerced_rows_have_timestamps E table). }
  split.
  { intros d tag. split.
    - unfold table_group. intro H. apply filter_In in H.
      destruct H as [_ H]. rewrite Hnat in H. discriminate.
    - split; intros c H; apply lookup_sound in H;
        now rewrite (group_cells_of_table E _ table d tag) in H. }
  split.
  { intro tag. split.
    - unfold table_tagged. intro H. apply filter_In in H.
      destruct H as [_ H]. rewrite Hnat in H. discriminate.
    - split; [apply rows_with_tag_of_table|].
      unfold regular_trace, premium_trace. simpl.
      rewrite rows_with_tag_of_table, !map_map. split; reflexivity. }
  apply it_traces_of_ext with E.
  - apply it_local_ext. apply sharing_is_invisible_to_dashboard.
  - intros r' Hr. eapply it_local_parsed; eauto.
  - intros r' Hr. eapply it_local_parsed; eauto.
Qed.

Lemma unparseable_rows_are_excluded_witness :
  In (nth 1 two_station_table blank_row) two_station_table
  /\ Pandas.to_datetime sample_env
                        (Query_Time (nth 1 two_station_table blank_row)) = NaT
  /\ ~ In (nth 1 two_station_table blank_row)
          (filter (parses sample_env) two_station_table)
  /\ map Station_ID
         (ts_local (coerce_Query_Time sample_env two_station_table))
     = ["S1"; "S2"]%string
  /\ (length (it_local sample_env two_station_table)
      < length two_station_table)%nat.
Proof.
  assert (H : In (nth 1 two_station_table blank_row) two_station_table)
    by (right; left; reflexivity).
  split; [exact H|]. split; [reflexivity|].
  destruct (@unparseable_rows_are_excluded sample_env two_station_table
              (nth 1 two_station_table blank_row) H eq_refl)
    as (Hk & _ & _ & _ & Hl & _).
  split; [exact Hk|]. split; [reflexivity | exact Hl].
Defined.
